(** * ToDoListProject: the Task / TodoList core of [todo.py]

    A shallow embedding of the two classes of [todo.py] and the proofs of
    the properties its specification states about them.

    Python values are embedded as the type [pyval] of the values that
    [json.load] can produce; every field of a [Task] holds such a value,
    because [Task.from_dict] copies whatever the backing file holds.
    Exceptions are the [Raise] outcomes of a state-and-exception monad
    over the [world]: the files, the clock and the log of what the
    process printed and wrote. *)

From Stdlib Require Import ZArith String Ascii List Sorted.
From Stdlib Require PrimFloat.
From stdpp Require Import base option list strings pretty gmap.

Set Warnings "-register-all".

Open Scope string_scope.
Open Scope Z_scope.

(** ** Python values *)

(** The values [json.load] builds: [None], [bool], [int], [float], [str],
    [list] and [dict] with [str] keys.  A [dict] keeps its items in
    insertion order; its keys are pairwise distinct. *)
Inductive pyval : Type :=
  | PNone
  | PBool (b : bool)
  | PInt (z : Z)
  | PFloat (f : PrimFloat.float)
  | PStr (s : string)
  | PList (items : list pyval)
  | PDict (items : list (string * pyval)).

(** The exceptions that the modelled code can raise.  The last three come
    from reading a file that is not the text of a JSON document of
    ordinary size: [UnicodeDecodeError] for bytes that are no text in the
    encoding of the file, [RecursionError] for a nesting that is too deep,
    and [IntegerValueError], the [ValueError] of an integer literal above
    the digit limit of the interpreter. *)
Inductive exn : Type :=
  | KeyError (key : string)
  | TypeError
  | IndexError
  | FileNotFoundError (path : string)
  | JSONDecodeError
  | UnicodeDecodeError
  | RecursionError
  | IntegerValueError.

Inductive result (A : Type) : Type :=
  | Ok (a : A)
  | Raise (e : exn).
Arguments Ok {A} a.
Arguments Raise {A} e.

(** [bool(v)]: the truth value that [if v:], [not v] and [v or w] test. *)
Definition truthy (v : pyval) : bool :=
  match v with
  | PNone => false
  | PBool b => b
  | PInt z => negb (z =? 0)
  | PFloat f => negb (PrimFloat.eqb f PrimFloat.zero)
  | PStr s => match s with EmptyString => false | String _ _ => true end
  | PList l => match l with [] => false | _ :: _ => true end
  | PDict d => match d with [] => false | _ :: _ => true end
  end.

(** [a or b] *)
Definition py_or (a b : pyval) : pyval := if truthy a then a else b.

Fixpoint dict_get (key : string) (d : list (string * pyval)) : option pyval :=
  match d with
  | [] => None
  | (k, v) :: d' => if String.eqb k key then Some v else dict_get key d'
  end.

(** [data[key]] for a [str] key: only a [dict] can be subscripted with a
    string; on every other value Python raises [TypeError]. *)
Definition getitem (data : pyval) (key : string) : result pyval :=
  match data with
  | PDict d =>
      match dict_get key d with
      | Some v => Ok v
      | None => Raise (KeyError key)
      end
  | _ => Raise TypeError
  end.

(** [iter(data)], as the comprehension of [load_tasks] consumes it: a list
    yields its items, a dict its keys, a string its characters (each a
    string of length one); nothing else is iterable. *)
Definition py_iter (data : pyval) : result (list pyval) :=
  match data with
  | PList l => Ok l
  | PDict d => Ok (map (fun kv => PStr (fst kv)) d)
  | PStr s => Ok (map (fun c => PStr (String c EmptyString)) (list_ascii_of_string s))
  | _ => Raise TypeError
  end.

(** Python's list indexing: a negative index counts from the end, and an
    index that is still out of range raises [IndexError]. *)
Definition py_index {A : Type} (l : list A) (i : Z) : result nat :=
  let n := Z.of_nat (length l) in
  let j := if i <? 0 then i + n else i in
  if (0 <=? j) && (j <? n) then Ok (Z.to_nat j) else Raise IndexError.

(** ** The world *)

Inductive event : Type :=
  | Printed (line : string)
  | Wrote (path : string) (text : string).

(** [files] maps the path of each existing regular file to its text,
    [ticks] counts the readings of the clock so far, and [log] lists, oldest
    first, what the process printed and which files it wrote.  The files
    can be read and written: failures of the file system (permissions, a
    full disk, a directory in the place of the file) are not modelled. *)
Record world : Type := World {
  files : gmap string string;
  ticks : nat;
  log : list event
}.

(** The world after a reading of the clock, after [print(line)], and after
    [path] was opened for writing, filled with [text] and closed. *)
Definition tick (w : world) : world :=
  {| files := files w; ticks := S (ticks w); log := log w |}.

Definition printed (line : string) (w : world) : world :=
  {| files := files w; ticks := ticks w; log := log w ++ [Printed line] |}.

Definition wrote (path text : string) (w : world) : world :=
  {| files := <[path := text]> (files w);
     ticks := ticks w;
     log := log w ++ [Wrote path text] |}.

Definition M (A : Type) : Type := world -> result A * world.

#[global] Instance M_ret : MRet M := fun A a w => (Ok a, w).

#[global] Instance M_bind : MBind M := fun A B k m w =>
  match m w with
  | (Ok a, w') => k a w'
  | (Raise e, w') => (Raise e, w')
  end.

Definition raise {A : Type} (e : exn) : M A := fun w => (Raise e, w).

Definition lift {A : Type} (r : result A) : M A := fun w => (r, w).

(** [try: body except <handled>: handler]; an exception that the clause
    does not name goes on to the caller. *)
Definition try_except {A : Type} (body : M A) (handled : exn -> bool)
    (handler : M A) : M A := fun w =>
  match body w with
  | (Ok a, w') => (Ok a, w')
  | (Raise e, w') => if handled e then handler w' else (Raise e, w')
  end.

Definition is_JSONDecodeError (e : exn) : bool :=
  match e with JSONDecodeError => true | _ => false end.

(** [print(line)] *)
Definition print (line : string) : M unit := fun w => (Ok tt, printed line w).

(** [os.path.exists(path)] *)
Definition os_path_exists (path : string) : M bool := fun w =>
  (Ok (bool_decide (is_Some (files w !! path))), w).

(** [open(path, 'r')] followed by reading the whole file. *)
Definition read_file (path : string) : M string := fun w =>
  match files w !! path with
  | Some text => (Ok text, w)
  | None => (Raise (FileNotFoundError path), w)
  end.

(** [open(path, 'w')] followed by writing [text] and closing the file: the
    file is created or truncated and holds [text] afterwards. *)
Definition write_file (path text : string) : M unit := fun w =>
  (Ok tt, wrote path text w).

(** [mapM k l]: run [k] on the items of [l] from left to right, as a list
    comprehension does; the first exception ends it. *)
Fixpoint mapM {A B : Type} (k : A -> M B) (l : list A) : M (list B) :=
  match l with
  | [] => mret []
  | x :: l' => y ← k x; ys ← mapM k l'; mret (y :: ys)
  end.

(** ** class Task *)

Record Task : Type := mkTask {
  title : pyval;
  description : pyval;
  created_date : pyval;
  due_date : pyval;
  completed : pyval
}.

Definition set_title (v : pyval) (t : Task) : Task :=
  {| title := v; description := description t; created_date := created_date t;
     due_date := due_date t; completed := completed t |}.

Definition set_description (v : pyval) (t : Task) : Task :=
  {| title := title t; description := v; created_date := created_date t;
     due_date := due_date t; completed := completed t |}.

Definition set_created_date (v : pyval) (t : Task) : Task :=
  {| title := title t; description := description t; created_date := v;
     due_date := due_date t; completed := completed t |}.

Definition set_due_date (v : pyval) (t : Task) : Task :=
  {| title := title t; description := description t; created_date := created_date t;
     due_date := v; completed := completed t |}.

Definition set_completed (v : pyval) (t : Task) : Task :=
  {| title := title t; description := description t; created_date := created_date t;
     due_date := due_date t; completed := v |}.

(** [Task.to_dict] *)
Definition to_dict (self : Task) : pyval :=
  PDict [ ("title", title self);
          ("description", description self);
          ("created_date", created_date self);
          ("due_date", due_date self);
          ("completed", completed self) ].

Section Core.

(** The environment of the process, outside the repository:
    [clock n] is the text that
    [datetime.now().strftime("%Y-%m-%d %H:%M:%S")] yields at its [n]-th
    evaluation; [json_decode text] is the value [json.load] builds from a
    file that was opened for reading and holds the bytes [text], [None]
    when it raises; [json_failure text] is the exception that it raises
    then: [json.JSONDecodeError] for a text that is not JSON, and another
    one for bytes that are no text or for a document beyond the limits of
    the interpreter; [json_encode v] is the text that
    [json.dump(v, f, indent=2)] writes. *)
Variable clock : nat -> string.
Variable json_decode : string -> option pyval.
Variable json_failure : string -> exn.
Variable json_encode : pyval -> string.

(** [datetime.now().strftime("%Y-%m-%d %H:%M:%S")] *)
Definition now : M string := fun w => (Ok (clock (ticks w)), tick w).

(** [json.load(f)] on a file holding [text] *)
Definition json_load (text : string) : M pyval :=
  match json_decode text with
  | Some v => mret v
  | None => raise (json_failure text)
  end.

(** [Task.__init__]; the defaults of the source are the empty string for
    [description], [None] for [due_date] and [False] for [completed]. *)
Definition Task_init (title0 description0 due_date0 completed0 : pyval) : M Task :=
  stamp ← now;
  mret {| title := title0; description := description0;
          created_date := PStr stamp; due_date := due_date0;
          completed := completed0 |}.

(** [Task.from_dict] *)
Definition from_dict (data : pyval) : M Task :=
  t ← lift (getitem data "title");
  d ← lift (getitem data "description");
  dd ← lift (getitem data "due_date");
  task ← Task_init t d dd (PBool false);
  cd ← lift (getitem data "created_date");
  let task := set_created_date cd task in
  c ← lift (getitem data "completed");
  let task := set_completed c task in
  mret task.

(** ** class TodoList *)

(** [tasks] is the sequence of the store.  Its items are [Task] objects;
    [add_task] and [from_dict] create a new object for every item, so the
    items are distinct objects and the sequence is the list of their
    states. *)
Record TodoList : Type := mkTodoList {
  filename : string;
  tasks : list Task
}.

Definition set_tasks (ts : list Task) (self : TodoList) : TodoList :=
  {| filename := filename self; tasks := ts |}.

(** [l[index]] on a list *)
Definition list_getitem {A : Type} (l : list A) (index : Z) : result A :=
  match py_index l index with
  | Ok i => match l !! i with Some x => Ok x | None => Raise IndexError end
  | Raise e => Raise e
  end.

(** [TodoList.load_tasks].  The comprehension is evaluated in full before
    [self.tasks] is assigned, so an exception that the [except] clause does
    not name leaves [self] as it was. *)
Definition load_tasks (self : TodoList) : M TodoList :=
  found ← os_path_exists (filename self);
  if (found : bool) then
    try_except
      (text ← read_file (filename self);
       data ← json_load text;
       records ← lift (py_iter data);
       loaded ← mapM from_dict records;
       mret (set_tasks loaded self))
      is_JSONDecodeError
      (print "Error reading file. Starting with empty task list.";;
       mret (set_tasks [] self))
  else mret (set_tasks [] self).

(** [TodoList.__init__]; the default of the source is
    [filename="todo.json"]. *)
Definition TodoList_init (filename0 : string) : M TodoList :=
  let self := {| filename := filename0; tasks := [] |} in
  load_tasks self.

(** The text that [save_tasks] writes for a sequence of tasks. *)
Definition serialized (ts : list Task) : string :=
  json_encode (PList (map to_dict ts)).

(** [TodoList.save_tasks] *)
Definition save_tasks (self : TodoList) : M unit :=
  let data := PList (map to_dict (tasks self)) in
  write_file (filename self) (json_encode data).

(** [TodoList.add_task]; the defaults of the source are the empty string
    for [description] and [None] for [due_date]. *)
Definition add_task (self : TodoList) (title0 description0 due_date0 : pyval)
    : M (Task * TodoList) :=
  task ← Task_init title0 description0 due_date0 (PBool false);
  let self := set_tasks (tasks self ++ [task]) self in
  save_tasks self;;
  mret (task, self).

(** [0 <= index < len(self.tasks)] *)
Definition in_range (self : TodoList) (index : Z) : bool :=
  (0 <=? index) && (index <? Z.of_nat (length (tasks self))).

(** [TodoList.complete_task] *)
Definition complete_task (self : TodoList) (index : Z) : M (bool * TodoList) :=
  if in_range self index then
    i ← lift (py_index (tasks self) index);
    let self := set_tasks (alter (set_completed (PBool true)) i (tasks self)) self in
    save_tasks self;;
    mret (true, self)
  else mret (false, self).

(** [TodoList.delete_task] *)
Definition delete_task (self : TodoList) (index : Z) : M (bool * TodoList) :=
  if in_range self index then
    i ← lift (py_index (tasks self) index);
    let self := set_tasks (delete i (tasks self)) self in
    save_tasks self;;
    mret (true, self)
  else mret (false, self).

(** [TodoList.get_tasks]; the default of the source is
    [include_completed=True]. *)
Definition get_tasks (self : TodoList) (include_completed : pyval) : M (list Task) :=
  if truthy include_completed then mret (tasks self)
  else mret (List.filter (fun task => negb (truthy (completed task))) (tasks self)).

(** [TodoList.update_task]; the three fields default to [None].  [task]
    is the object at position [index], so the assignments to its fields
    change the item of the list. *)
Definition update_task (self : TodoList) (index : Z)
    (title0 description0 due_date0 : pyval) : M (bool * TodoList) :=
  if in_range self index then
    i ← lift (py_index (tasks self) index);
    task ← lift (list_getitem (tasks self) index);
    let task := if truthy title0 then set_title title0 task else task in
    let task := if truthy description0 then set_description description0 task else task in
    let task := if truthy due_date0 then set_due_date due_date0 task else task in
    let self := set_tasks (<[i := task]> (tasks self)) self in
    save_tasks self;;
    mret (true, self)
  else mret (false, self).

(** The due date as the detail view of [main] prints it:
    [task.due_date or 'Not set']. *)
Definition due_date_shown (task : Task) : pyval :=
  py_or (due_date task) (PStr "Not set").

(** The store and its backing file are synchronized: the file holds the
    serialization of the whole sequence, in order. *)
Definition synchronized (self : TodoList) (w : world) : Prop :=
  files w !! filename self = Some (serialized (tasks self)).

(** The last thing the process did in [w'], coming from [w], was to write
    the serialization of [self] to its backing file, which now holds it. *)
Definition persisted (self : TodoList) (w w' : world) : Prop :=
  log w' = (log w ++ [Wrote (filename self) (serialized (tasks self))])%list /\
  synchronized self w'.

(** The keys that [from_dict] reads, in the order in which it reads
    them. *)
Definition required_keys : list string :=
  ["title"; "description"; "due_date"; "created_date"; "completed"].

Definition has_key (data : pyval) (key : string) : bool :=
  match getitem data key with Ok _ => true | Raise _ => false end.

(** A mapping, and a mapping that has the five keys. *)
Definition is_mapping (data : pyval) : bool :=
  match data with PDict _ => true | _ => false end.

Definition has_required_keys (data : pyval) : bool :=
  forallb (has_key data) required_keys.

Definition is_text (v : result pyval) : bool :=
  match v with Ok (PStr _) => true | _ => false end.

Definition is_text_or_null (v : result pyval) : bool :=
  match v with Ok (PStr _) | Ok PNone => true | _ => false end.

Definition is_boolean (v : result pyval) : bool :=
  match v with Ok (PBool _) => true | _ => false end.

(** A record of the file-format contract in which the key [due_date] is
    present: [title], [description] and [created_date] hold text,
    [due_date] holds text or null, [completed] holds a boolean. *)
Definition conforming (data : pyval) : bool :=
  is_text (getitem data "title") &&
  is_text (getitem data "description") &&
  is_text (getitem data "created_date") &&
  is_text_or_null (getitem data "due_date") &&
  is_boolean (getitem data "completed").

(** An argument of [update_task] as the interface passes it: absent
    ([None]) or a text. *)
Definition arg (a : option string) : pyval :=
  match a with
  | None => PNone
  | Some s => PStr s
  end.

(** The value of a field after an update that supplies [a] for it: a text
    that is not empty replaces the old value, anything else keeps it. *)
Definition overwrite (a : option string) (old : pyval) : pyval :=
  match a with
  | Some (String c s) => PStr (String c s)
  | Some EmptyString => old
  | None => old
  end.

(** An argument that is absent or the empty string. *)
Definition blank (a : option string) : bool :=
  match a with
  | None => true
  | Some EmptyString => true
  | Some (String _ _) => false
  end.

End Core.

(** ** A sample environment

    Concrete stand-ins for the clock and the [json] library, used to run
    the definitions on explicit inputs. *)

Definition sample_clock (n : nat) : string :=
  match n with
  | O => "2024-01-01 09:00:00"
  | S _ => "2024-01-01 09:00:01"
  end.

Definition quoted (s : string) : string :=
  String "034"%char s +:+ String "034"%char EmptyString.

(** A printer of JSON text without indentation and without escapes, which
    the sample data does not need; floats do not occur in the sample
    data. *)
Fixpoint sample_encode (v : pyval) : string :=
  match v with
  | PNone => "null"
  | PBool true => "true"
  | PBool false => "false"
  | PInt z => pretty z
  | PFloat _ => "NaN"
  | PStr s => quoted s
  | PList l =>
      "[" +:+
      (fix items (l : list pyval) : string :=
         match l with
         | [] => EmptyString
         | x :: l' =>
             sample_encode x +:+
             match l' with [] => EmptyString | _ :: _ => ", " +:+ items l' end
         end) l +:+ "]"
  | PDict d =>
      "{" +:+
      (fix items (d : list (string * pyval)) : string :=
         match d with
         | [] => EmptyString
         | (k, x) :: d' =>
             quoted k +:+ ": " +:+ sample_encode x +:+
             match d' with [] => EmptyString | _ :: _ => ", " +:+ items d' end
         end) d +:+ "}"
  end.

Definition buy_milk : Task :=
  {| title := PStr "Buy milk"; description := PStr EmptyString;
     created_date := PStr "2023-12-31 18:00:00"; due_date := PNone;
     completed := PBool true |}.

Definition pay_bills : Task :=
  {| title := PStr "Pay bills"; description := PStr "rent";
     created_date := PStr "2023-12-31 18:05:00"; due_date := PStr "2024-01-01";
     completed := PBool false |}.

Definition call_mum : Task :=
  {| title := PStr "Call mum"; description := PStr EmptyString;
     created_date := PStr "2023-12-31 18:10:00"; due_date := PNone;
     completed := PBool true |}.

(** A record that has no key but [title]. *)
Definition record_title_only : pyval := PDict [("title", PStr "Buy milk")].

(** A record that has every key but [due_date]. *)
Definition record_no_due_date : pyval :=
  PDict [ ("title", PStr "Buy milk");
          ("description", PStr EmptyString);
          ("created_date", PStr "2023-12-31 18:00:00");
          ("completed", PBool false) ].

(** The documents that the sample decoder knows; every other text is
    invalid JSON to it. *)
Definition sample_documents : list pyval :=
  [ PList [];
    PList [to_dict buy_milk; to_dict pay_bills; to_dict call_mum];
    PList [to_dict pay_bills; record_title_only];
    PList [record_no_due_date] ].

Definition sample_decode (text : string) : option pyval :=
  List.find (fun v => String.eqb (sample_encode v) text) sample_documents.

(** What the sample decoder raises on a text that it does not decode:
    [UnicodeDecodeError] when the text holds a byte from 248 on, which no
    UTF-8 text holds, and [json.JSONDecodeError] otherwise. *)
Definition sample_failure (text : string) : exn :=
  if existsb (fun c => (248 <=? nat_of_ascii c)%nat) (list_ascii_of_string text)
  then UnicodeDecodeError
  else JSONDecodeError.

(** A world in which [path] is the only file, and one without files. *)
Definition world_of (path text : string) : world :=
  {| files := {[ path := text ]}; ticks := 0; log := [] |}.

Definition empty_world : world := {| files := ∅; ticks := 0; log := [] |}.

Definition empty_store : TodoList := {| filename := "todo.json"; tasks := [] |}.

Definition sample_store : TodoList :=
  {| filename := "todo.json"; tasks := [buy_milk; pay_bills; call_mum] |}.

(** The backing file of [sample_store]. *)
Definition sample_text : string :=
  sample_encode (PList [to_dict buy_milk; to_dict pay_bills; to_dict call_mum]).

(** An array of two mappings, the second of which has no key but
    [title]. *)
Definition text_missing_keys : string :=
  sample_encode (PList [to_dict pay_bills; record_title_only]).

(** An array of one mapping, which has every key but [due_date]. *)
Definition text_no_due_date : string :=
  sample_encode (PList [record_no_due_date]).

(** A text that is not JSON. *)
Definition text_invalid : string := "{oops".

(** Two bytes that are no UTF-8 text. *)
Definition bytes_invalid : string :=
  String "255"%char (String "254"%char EmptyString).

(** ** Clients of the store *)

(** A call of one of the four mutating methods of a store. *)
Inductive call : Type :=
  | Add (title0 description0 due_date0 : pyval)
  | Complete (index : Z)
  | Delete (index : Z)
  | Update (index : Z) (title0 description0 due_date0 : pyval).

(** The first of the keys that [from_dict] reads which [data] does not
    have. *)
Definition first_missing (data : pyval) : option string :=
  List.find (fun key => negb (has_key data key)) required_keys.

(** A decoded document on which the comprehension of [load_tasks]
    succeeds: it can be iterated and each of its items has the five
    keys. *)
Definition loadable (data : pyval) : bool :=
  match py_iter data with
  | Ok records => forallb has_required_keys records
  | Raise _ => false
  end.

(** The exceptions of a failed deserialization. *)
Definition record_error (e : exn) : Prop :=
  e = TypeError \/ exists key, In key required_keys /\ e = KeyError key.

(** Every event of [new] is a write to [path]. *)
Definition writes_to (path : string) (new : list event) : Prop :=
  Forall (fun e => exists text, e = Wrote path text) new.

(** A task whose fields have the types of the file format. *)
Definition well_typed (task : Task) : bool := conforming (to_dict task).

(** The arguments that the interactive layer passes: texts, and [None] or
    a text for a due date and for a field that [update_task] is to
    skip. *)
Definition is_str (v : pyval) : bool :=
  match v with PStr _ => true | _ => false end.

Definition is_str_or_none (v : pyval) : bool :=
  match v with PStr _ | PNone => true | _ => false end.

Definition typed_call (c : call) : bool :=
  match c with
  | Add t d dd => is_str t && is_str d && is_str_or_none dd
  | Complete _ => true
  | Delete _ => true
  | Update _ t d dd => is_str_or_none t && is_str_or_none d && is_str_or_none dd
  end.

Section Clients.

Variable clock : nat -> string.
Variable json_encode : pyval -> string.

(** A client performs a call on its store; the outcome is whether the
    call succeeded ([add_task] always does) and the store after it. *)
Definition perform (self : TodoList) (c : call) : M (bool * TodoList) :=
  match c with
  | Add t d dd =>
      r ← add_task clock json_encode self t d dd;
      mret (true, snd r)
  | Complete index => complete_task json_encode self index
  | Delete index => delete_task json_encode self index
  | Update index t d dd => update_task json_encode self index t d dd
  end.

(** A client performs calls one after the other on the same store. *)
Fixpoint perform_all (self : TodoList) (calls : list call) : M TodoList :=
  match calls with
  | [] => mret self
  | c :: calls' =>
      r ← perform self c;
      perform_all (snd r) calls'
  end.

End Clients.

(** ** The interactive layer: [main] *)

(** What [main] can raise: an exception of the two classes, or one of its
    own builtins: [EOFError] from [input] and [ValueError] from [int]. *)
Inductive failure : Type :=
  | Core (e : exn)
  | EOFError
  | ValueError.

Inductive outcome (A : Type) : Type :=
  | Returned (a : A)
  | Failed (e : failure).
Arguments Returned {A} a.
Arguments Failed {A} e.

(** The process at its terminal: [stdin] holds the lines that the user is
    still to type, one for each [input]; [prompts] lists the prompts that
    [input] showed, oldest first, each with the length that the log of
    [state] had when it was shown, which places it among the printed
    lines; [state] is the world of the two classes. *)
Record session : Type := Session {
  stdin : list string;
  prompts : list (nat * string);
  state : world
}.

Definition IO (A : Type) : Type := session -> outcome A * session.

#[global] Instance IO_ret : MRet IO := fun A a s => (Returned a, s).

#[global] Instance IO_bind : MBind IO := fun A B k m s =>
  match m s with
  | (Returned a, s') => k a s'
  | (Failed e, s') => (Failed e, s')
  end.

Definition fail {A : Type} (e : failure) : IO A := fun s => (Failed e, s).

(** A computation of the two classes, run by [main]. *)
Definition run_core {A : Type} (m : M A) : IO A := fun s =>
  match m (state s) with
  | (Ok a, w') =>
      (Returned a, {| stdin := stdin s; prompts := prompts s; state := w' |})
  | (Raise e, w') =>
      (Failed (Core e), {| stdin := stdin s; prompts := prompts s; state := w' |})
  end.

(** [print(line)] in [main] *)
Definition say (line : string) : IO unit := run_core (print line).

(** The session after [input] has shown [prompt]. *)
Definition prompted (prompt : string) (s : session) : session :=
  {| stdin := stdin s;
     prompts := prompts s ++ [(length (log (state s)), prompt)];
     state := state s |}.

(** [input(prompt)]: the prompt is shown, then a line is read; at the end
    of the input [EOFError] is raised. *)
Definition input (prompt : string) : IO string := fun s =>
  match stdin s with
  | [] => (Failed EOFError, prompted prompt s)
  | line :: rest =>
      (Returned line,
       {| stdin := rest;
          prompts := prompts s ++ [(length (log (state s)), prompt)];
          state := state s |})
  end.

(** [try: body except ValueError: handler] *)
Definition try_ValueError {A : Type} (body handler : IO A) : IO A := fun s =>
  match body s with
  | (Failed ValueError, s') => handler s'
  | r => r
  end.

(** The line feed that starts some of the printed lines. *)
Definition nl : string := String "010"%char EmptyString.

Section Interactive.

(** The environment, as in [Core], and two builtins: [int_of_str text] is
    the value of [int(text)], [None] when it raises [ValueError];
    [str_of v] is the text that an f-string shows for a value [v] that is
    not a string. *)
Variable clock : nat -> string.
Variable json_decode : string -> option pyval.
Variable json_failure : string -> exn.
Variable json_encode : pyval -> string.
Variable int_of_str : string -> option Z.
Variable str_of : pyval -> string.

(** [int(text)] *)
Definition int (text : string) : IO Z :=
  match int_of_str text with
  | Some n => mret n
  | None => fail ValueError
  end.

(** The text that an f-string shows for [v]: a string is shown as it
    is. *)
Definition py_str (v : pyval) : string :=
  match v with
  | PStr text => text
  | _ => str_of v
  end.

(** The eight lines of the menu. *)
Definition print_menu : IO unit :=
  say (nl +:+ "=== Todo List Manager ===");;
  say "1. Add Task";;
  say "2. List Tasks";;
  say "3. Complete Task";;
  say "4. Delete Task";;
  say "5. Update Task";;
  say "6. View Task Details";;
  say "7. Exit".

(** [f"{i + 1}. [{status}] {task.title}"] *)
Definition task_line (i : nat) (task : Task) : string :=
  let status := if truthy (completed task) then "✓" else " " in
  py_str (PInt (Z.of_nat i + 1)) +:+ ". [" +:+ status +:+ "] " +:+ py_str (title task).

(** [for i, task in enumerate(tasks): print(...)], from [i] on *)
Fixpoint show_from (i : nat) (tasks : list Task) : IO unit :=
  match tasks with
  | [] => mret tt
  | task :: rest => say (task_line i task);; show_from (S i) rest
  end.

Definition show_tasks (tasks : list Task) : IO unit := show_from 0 tasks.

(** [not tasks] *)
Definition no_tasks (tasks : list Task) : bool :=
  match tasks with [] => true | _ :: _ => false end.

(** [text if text else None] *)
Definition text_or_none (text : string) : pyval :=
  match text with
  | EmptyString => PNone
  | String _ _ => PStr text
  end.

(** Each branch of the loop yields the store and whether the loop goes
    on: [True] after the branch and after [continue], [False] after
    [break]. *)

(** [choice == '1'] *)
Definition choice_add (todo_list : TodoList) : IO (bool * TodoList) :=
  title0 ← input "Enter task title: ";
  description0 ← input "Enter task description (optional): ";
  due_date0 ← input "Enter due date (YYYY-MM-DD) (optional): ";
  let due_date0 := if String.eqb due_date0 EmptyString then PNone else PStr due_date0 in
  '(_, todo_list') ← run_core (add_task clock json_encode todo_list
                                 (PStr title0) (PStr description0) due_date0);
  say "Task added successfully!";;
  mret (true, todo_list').

(** [choice == '2'] *)
Definition choice_list (todo_list : TodoList) : IO (bool * TodoList) :=
  tasks0 ← run_core (get_tasks todo_list (PBool true));
  (if no_tasks tasks0 then say "No tasks found."
   else say (nl +:+ "Current Tasks:");; show_tasks tasks0);;
  mret (true, todo_list).

(** [choice == '3'] *)
Definition choice_complete (todo_list : TodoList) : IO (bool * TodoList) :=
  tasks0 ← run_core (get_tasks todo_list (PBool true));
  if no_tasks tasks0 then say "No tasks found.";; mret (true, todo_list)
  else
    show_tasks tasks0;;
    try_ValueError
      (text ← input "Enter task number to complete: ";
       n ← int text;
       let index := n - 1 in
       '(ok, todo_list') ← run_core (complete_task json_encode todo_list index);
       (if (ok : bool) then say "Task marked as completed!"
        else say "Invalid task number.");;
       mret (true, todo_list'))
      (say "Please enter a valid number.";; mret (true, todo_list)).

(** [choice == '4'] *)
Definition choice_delete (todo_list : TodoList) : IO (bool * TodoList) :=
  tasks0 ← run_core (get_tasks todo_list (PBool true));
  if no_tasks tasks0 then say "No tasks found.";; mret (true, todo_list)
  else
    show_tasks tasks0;;
    try_ValueError
      (text ← input "Enter task number to delete: ";
       n ← int text;
       let index := n - 1 in
       '(ok, todo_list') ← run_core (delete_task json_encode todo_list index);
       (if (ok : bool) then say "Task deleted successfully!"
        else say "Invalid task number.");;
       mret (true, todo_list'))
      (say "Please enter a valid number.";; mret (true, todo_list)).

(** [choice == '5'] *)
Definition choice_update (todo_list : TodoList) : IO (bool * TodoList) :=
  tasks0 ← run_core (get_tasks todo_list (PBool true));
  if no_tasks tasks0 then say "No tasks found.";; mret (true, todo_list)
  else
    show_tasks tasks0;;
    try_ValueError
      (text ← input "Enter task number to update: ";
       n ← int text;
       let index := n - 1 in
       title0 ← input "Enter new title (or press Enter to skip): ";
       description0 ← input "Enter new description (or press Enter to skip): ";
       due_date0 ← input "Enter new due date (YYYY-MM-DD) (or press Enter to skip): ";
       '(ok, todo_list') ← run_core (update_task json_encode todo_list index
                                       (text_or_none title0)
                                       (text_or_none description0)
                                       (text_or_none due_date0));
       (if (ok : bool) then say "Task updated successfully!"
        else say "Invalid task number.");;
       mret (true, todo_list'))
      (say "Please enter a valid number.";; mret (true, todo_list)).

(** The lines of the detail view of a task. *)
Definition detail_lines (task : Task) : list string :=
  [ nl +:+ "Task Details:";
    "Title: " +:+ py_str (title task);
    "Description: " +:+ py_str (description task);
    "Created: " +:+ py_str (created_date task);
    "Due Date: " +:+ py_str (due_date_shown task);
    "Status: " +:+ (if truthy (completed task) then "Completed" else "Pending") ].

Fixpoint say_all (lines : list string) : IO unit :=
  match lines with
  | [] => mret tt
  | line :: rest => say line;; say_all rest
  end.

(** [choice == '6'] *)
Definition choice_view (todo_list : TodoList) : IO (bool * TodoList) :=
  tasks0 ← run_core (get_tasks todo_list (PBool true));
  if no_tasks tasks0 then say "No tasks found.";; mret (true, todo_list)
  else
    show_tasks tasks0;;
    try_ValueError
      (text ← input "Enter task number to view details: ";
       n ← int text;
       let index := n - 1 in
       (if (0 <=? index) && (index <? Z.of_nat (length tasks0)) then
          task ← run_core (lift (list_getitem tasks0 index));
          say_all (detail_lines task)
        else say "Invalid task number.");;
       mret (true, todo_list))
      (say "Please enter a valid number.";; mret (true, todo_list)).

(** The [if]/[elif] chain on the choice of the user. *)
Definition dispatch (choice : string) (todo_list : TodoList) : IO (bool * TodoList) :=
  if String.eqb choice "1" then choice_add todo_list
  else if String.eqb choice "2" then choice_list todo_list
  else if String.eqb choice "3" then choice_complete todo_list
  else if String.eqb choice "4" then choice_delete todo_list
  else if String.eqb choice "5" then choice_update todo_list
  else if String.eqb choice "6" then choice_view todo_list
  else if String.eqb choice "7" then say "Goodbye!";; mret (false, todo_list)
  else say "Invalid choice. Please try again.";; mret (true, todo_list).

(** One turn of the [while True] loop of [main]. *)
Definition menu_turn (todo_list : TodoList) : IO (bool * TodoList) :=
  print_menu;;
  choice ← input (nl +:+ "Enter your choice (1-7): ");
  dispatch choice todo_list.

(** The loop of [main], for at most [fuel] turns; [None] when the turns
    run out. *)
Fixpoint main_loop (fuel : nat) (todo_list : TodoList) (s : session)
    : option (outcome unit * session) :=
  match fuel with
  | O => None
  | S fuel' =>
      match menu_turn todo_list s with
      | (Returned (true, todo_list'), s') => main_loop fuel' todo_list' s'
      | (Returned (false, _), s') => Some (Returned tt, s')
      | (Failed e, s') => Some (Failed e, s')
      end
  end.

(** [main].  Every turn reads a line, so the loop takes no more turns than
    there are lines to read, and one more to meet the end of the input. *)
Definition main (s : session) : option (outcome unit * session) :=
  match run_core (TodoList_init clock json_decode json_failure "todo.json") s with
  | (Returned todo_list, s') => main_loop (S (length (stdin s'))) todo_list s'
  | (Failed e, s') => Some (Failed e, s')
  end.

End Interactive.

(** *** What a run of [main] may do *)

(** The files after the writes among the events [new], oldest first. *)
Fixpoint replay (new : list event) (fs : gmap string string) : gmap string string :=
  match new with
  | [] => fs
  | Printed _ :: rest => replay rest fs
  | Wrote path text :: rest => replay rest (<[path := text]> fs)
  end.

(** The session [s'] comes after [s]: the lines still to be typed are
    the last of those of [s], the prompts and the log have grown, the
    files are those of [s] after the writes that the log has gained, and
    every event that the log has gained is [ok]. *)
Definition follows (ok : event -> Prop) (s s' : session) : Prop :=
  (exists used, stdin s = (used ++ stdin s')%list) /\
  (exists shown, prompts s' = (prompts s ++ shown)%list) /\
  exists new,
    log (state s') = (log (state s) ++ new)%list /\
    files (state s') = replay new (files (state s)) /\
    Forall ok new.

(** Whatever the session, [m] leads to a session that follows it; what it
    returns satisfies [post], and what it raises is [allowed] in the
    session that it leaves. *)
Definition ensures {A : Type} (ok : event -> Prop)
    (allowed : failure -> session -> Prop) (m : IO A) (post : A -> Prop) : Prop :=
  forall s,
    follows ok s (snd (m s)) /\
    match fst (m s) with
    | Returned a => post a
    | Failed e => allowed e (snd (m s))
    end.

Definition is_printed (e : event) : Prop := exists line, e = Printed line.

Definition printed_or_wrote (path : string) (e : event) : Prop :=
  is_printed e \/ exists text, e = Wrote path text.

(** [EOFError], raised when no line is left to read. *)
Definition end_of_input (e : failure) (s : session) : Prop :=
  e = EOFError /\ stdin s = [].

(** The same, or [ValueError]: what the body of a [try] of [main] may
    raise. *)
Definition end_of_input_or_ValueError (e : failure) (s : session) : Prop :=
  end_of_input e s \/ e = ValueError.

(** The session after [lines] were printed. *)
Definition said (lines : list string) (s : session) : session :=
  {| stdin := stdin s;
     prompts := prompts s;
     state := {| files := files (state s);
                 ticks := ticks (state s);
                 log := log (state s) ++ map Printed lines |} |}.

(** The session after [input] has shown [prompt] and read a line. *)
Definition answered (prompt : string) (s : session) : session :=
  {| stdin := tail (stdin s);
     prompts := prompts s ++ [(length (log (state s)), prompt)];
     state := state s |}.

(** The session in which the two classes have left the world [w]. *)
Definition with_state (w : world) (s : session) : session :=
  {| stdin := stdin s; prompts := prompts s; state := w |}.

(** The lines that [show_from] prints. *)
Fixpoint task_lines (str_of : pyval -> string) (i : nat) (ts : list Task)
    : list string :=
  match ts with
  | [] => []
  | task :: rest => task_line str_of i task :: task_lines str_of (S i) rest
  end.

(** The prompt of the menu. *)
Definition menu_prompt : string := nl +:+ "Enter your choice (1-7): ".

(** The log ends with the line [line]. *)
Definition last_printed (line : string) (s : session) : Prop :=
  exists before, log (state s) = (before ++ [Printed line])%list.

(** The eight lines of the menu. *)
Definition menu_lines : list string :=
  [ nl +:+ "=== Todo List Manager ==="; "1. Add Task"; "2. List Tasks";
    "3. Complete Task"; "4. Delete Task"; "5. Update Task";
    "6. View Task Details"; "7. Exit" ].

(** The session in which a branch starts: the menu was printed and the
    choice was read. *)
Definition after_menu (s : session) : session :=
  answered menu_prompt (said menu_lines s).

(** ** A sample terminal *)

(** A reader of decimal digits, which stands in for [int] on the sample
    inputs: a text that is not a run of digits is no number to it. *)
Definition digit_of (c : ascii) : option Z :=
  let n := Z.of_nat (nat_of_ascii c) in
  if (48 <=? n) && (n <=? 57) then Some (n - 48) else None.

Fixpoint digits_from (acc : Z) (text : string) : option Z :=
  match text with
  | EmptyString => Some acc
  | String c rest =>
      match digit_of c with
      | Some d => digits_from (10 * acc + d) rest
      | None => None
      end
  end.

Definition sample_int (text : string) : option Z :=
  match text with
  | EmptyString => None
  | String _ _ => digits_from 0 text
  end.

(** The text of an integer, of [None] and of a boolean; other values that
    are not strings do not occur in the sample data. *)
Definition sample_str (v : pyval) : string :=
  match v with
  | PInt z => pretty z
  | PNone => "None"
  | PBool true => "True"
  | PBool false => "False"
  | _ => "?"
  end.

(** A terminal at which the user will type [lines], in the world [w]. *)
Definition session_of (lines : list string) (w : world) : session :=
  {| stdin := lines; prompts := []; state := w |}.

(** A record of [pay_bills] that holds one more key. *)
Definition record_with_priority : pyval :=
  PDict [ ("title", PStr "Pay bills");
          ("priority", PInt 1);
          ("description", PStr "rent");
          ("created_date", PStr "2023-12-31 18:05:00");
          ("due_date", PStr "2024-01-01");
          ("completed", PBool false) ].

(** Calls of a client: two that succeed on [sample_store], one with an
    index out of range, and an addition. *)
Definition sample_calls : list call :=
  [ Complete 1; Delete 5; Delete 0;
    Add (PStr "Walk dog") (PStr EmptyString) PNone;
    Update 0 (PStr "Pay rent") PNone (PStr "2024-02-01") ].

(** The terminal of a user who works on the backing file of
    [sample_store] and types [lines]. *)
Definition sample_session (lines : list string) : session :=
  session_of lines (world_of "todo.json" sample_text).

(** ** Properties *)

Section Properties.

Variable clock : nat -> string.
Variable json_decode : string -> option pyval.
Variable json_failure : string -> exn.
Variable json_encode : pyval -> string.

Local Abbreviation serialized := (serialized json_encode).

(** Each statement depends on the parts of the environment that it names
    and on no other. *)
Set Default Proof Using "Type".

Ltac run :=
  unfold mbind, mret, M_bind, M_ret, lift, raise, print, write_file; simpl.

(** Membership of an explicit key in an explicit list of keys. *)
Ltac in_keys := simpl; repeat (first [left; reflexivity | right]).

(** *** Index validation *)

Lemma in_range_spec (self : TodoList) (index : Z) :
  in_range self index = true <-> 0 <= index < Z.of_nat (length (tasks self)).
Proof.
  unfold in_range. rewrite andb_true_iff, Z.leb_le, Z.ltb_lt. tauto.
Qed.

Lemma in_range_false (self : TodoList) (index : Z) :
  index < 0 \/ Z.of_nat (length (tasks self)) <= index ->
  in_range self index = false.
Proof.
  intros H. destruct (in_range self index) eqn:E; [|reflexivity].
  apply in_range_spec in E. lia.
Qed.

Lemma py_index_in_range {A : Type} (l : list A) (index : Z) :
  0 <= index < Z.of_nat (length l) -> py_index l index = Ok (Z.to_nat index).
Proof.
  intros [H0 H1]. unfold py_index.
  destruct (index <? 0) eqn:E; [apply Z.ltb_lt in E; lia|].
  assert (Hb : ((0 <=? index) && (index <? Z.of_nat (length l)) = true)%bool).
  { rewrite andb_true_iff, Z.leb_le, Z.ltb_lt. lia. }
  simpl. rewrite Hb. reflexivity.
Qed.

Lemma list_getitem_in_range {A : Type} (l : list A) (index : Z) :
  0 <= index < Z.of_nat (length l) ->
  exists x, l !! Z.to_nat index = Some x /\ list_getitem l index = Ok x.
Proof.
  intros H. unfold list_getitem. rewrite (py_index_in_range l index H).
  destruct (lookup_lt_is_Some_2 l (Z.to_nat index)) as [x Hx]; [lia|].
  exists x. rewrite Hx. split; reflexivity.
Qed.

(** *** What each method does when its guard holds *)

Lemma save_tasks_run (self : TodoList) (w : world) :
  save_tasks json_encode self w
  = (Ok tt, wrote (filename self) (serialized (tasks self)) w).
Proof. reflexivity. Qed.

Lemma complete_task_run (self : TodoList) (index : Z) (w : world) :
  0 <= index < Z.of_nat (length (tasks self)) ->
  let self' :=
    set_tasks (alter (set_completed (PBool true)) (Z.to_nat index) (tasks self)) self in
  complete_task json_encode self index w
  = (Ok (true, self'), wrote (filename self) (serialized (tasks self')) w).
Proof.
  intros H. unfold complete_task.
  rewrite (proj2 (in_range_spec self index) H).
  run. rewrite (py_index_in_range _ _ H). reflexivity.
Qed.

Lemma delete_task_run (self : TodoList) (index : Z) (w : world) :
  0 <= index < Z.of_nat (length (tasks self)) ->
  let self' := set_tasks (delete (Z.to_nat index) (tasks self)) self in
  delete_task json_encode self index w
  = (Ok (true, self'), wrote (filename self) (serialized (tasks self')) w).
Proof.
  intros H. unfold delete_task.
  rewrite (proj2 (in_range_spec self index) H).
  run. rewrite (py_index_in_range _ _ H). reflexivity.
Qed.

Lemma update_task_run (self : TodoList) (index : Z) (t d dd : pyval) (w : world) :
  0 <= index < Z.of_nat (length (tasks self)) ->
  exists task,
    tasks self !! Z.to_nat index = Some task /\
    let task1 := if truthy t then set_title t task else task in
    let task2 := if truthy d then set_description d task1 else task1 in
    let task3 := if truthy dd then set_due_date dd task2 else task2 in
    let self' := set_tasks (<[Z.to_nat index := task3]> (tasks self)) self in
    update_task json_encode self index t d dd w
    = (Ok (true, self'), wrote (filename self) (serialized (tasks self')) w).
Proof.
  intros H. destruct (list_getitem_in_range (tasks self) index H) as (task & Hl & Hg).
  exists task. split; [exact Hl|]. unfold update_task.
  rewrite (proj2 (in_range_spec self index) H).
  run. rewrite (py_index_in_range _ _ H), Hg. reflexivity.
Qed.

Lemma add_task_run (self : TodoList) (t d dd : pyval) (w : world) :
  let task := {| title := t; description := d;
                 created_date := PStr (clock (ticks w));
                 due_date := dd; completed := PBool false |} in
  let self' := set_tasks (tasks self ++ [task]) self in
  add_task clock json_encode self t d dd w
  = (Ok (task, self'), wrote (filename self) (serialized (tasks self')) (tick w)).
Proof. reflexivity. Qed.

(** *** Deserialization *)

Lemma from_dict_run (data : pyval) (w : world) :
  from_dict clock data w =
  match getitem data "title" with
  | Raise e => (Raise e, w)
  | Ok t =>
    match getitem data "description" with
    | Raise e => (Raise e, w)
    | Ok d =>
      match getitem data "due_date" with
      | Raise e => (Raise e, w)
      | Ok dd =>
        match getitem data "created_date" with
        | Raise e => (Raise e, tick w)
        | Ok cd =>
          match getitem data "completed" with
          | Raise e => (Raise e, tick w)
          | Ok c =>
              (Ok {| title := t; description := d; created_date := cd;
                     due_date := dd; completed := c |}, tick w)
          end
        end
      end
    end
  end.
Proof.
  unfold from_dict, Task_init, now. run.
  destruct (getitem data "title"); [|reflexivity].
  destruct (getitem data "description"); [|reflexivity].
  destruct (getitem data "due_date"); [|reflexivity].
  destruct (getitem data "created_date"); [|reflexivity].
  destruct (getitem data "completed"); reflexivity.
Qed.

(** C1.  An index outside [0, len(tasks)) makes [complete_task],
    [delete_task] and [update_task] return [False] without raising, and
    leaves the sequence, the file and the log as they were.  The empty
    store with index 0 is the case [len(tasks) = 0]. *)
Theorem out_of_range_rejected
    (self : TodoList) (index : Z) (t d dd : pyval) (w : world) :
  index < 0 \/ Z.of_nat (length (tasks self)) <= index ->
  complete_task json_encode self index w = (Ok (false, self), w) /\
  delete_task json_encode self index w = (Ok (false, self), w) /\
  update_task json_encode self index t d dd w = (Ok (false, self), w).
Proof.
  intros H. apply in_range_false in H.
  unfold complete_task, delete_task, update_task. rewrite H.
  repeat split; reflexivity.
Qed.

Lemma from_dict_inverts_to_dict (t : Task) (w : world) :
  from_dict clock (to_dict t) w = (Ok t, tick w).
Proof. rewrite from_dict_run. destruct t; reflexivity. Qed.

(** C2.  [from_dict(to_dict(t))] is [t], field for field: the mapping holds
    the five fields of [t] under their keys, and [from_dict] copies
    [created_date] and [completed] from it, whatever the clock shows. *)
Theorem from_dict_to_dict (t : Task) (w : world) :
  getitem (to_dict t) "title" = Ok (title t) /\
  getitem (to_dict t) "description" = Ok (description t) /\
  getitem (to_dict t) "created_date" = Ok (created_date t) /\
  getitem (to_dict t) "due_date" = Ok (due_date t) /\
  getitem (to_dict t) "completed" = Ok (completed t) /\
  from_dict clock (to_dict t) w = (Ok t, tick w).
Proof.
  repeat split; try reflexivity.
  apply from_dict_inverts_to_dict.
Qed.

(** The same for a sequence of tasks, as [load_tasks] deserializes what
    [save_tasks] serialized. *)
Lemma mapM_from_dict_to_dict (ts : list Task) (w : world) :
  exists w',
    mapM (from_dict clock) (map to_dict ts) w = (Ok ts, w') /\
    files w' = files w /\ log w' = log w.
Proof.
  revert w. induction ts as [|t ts IH]; intros w.
  - exists w. repeat split; reflexivity.
  - destruct (IH (tick w)) as (w' & Hrun & Hf & Hl).
    exists w'. split; [|split; assumption].
    simpl map. simpl mapM. unfold mbind, M_bind.
    rewrite (from_dict_inverts_to_dict t w), Hrun. reflexivity.
Qed.

(** *** Loading *)

(** [from_dict] reads the clock and touches nothing else. *)
Lemma from_dict_world (data : pyval) (w : world) :
  files (snd (from_dict clock data w)) = files w /\
  log (snd (from_dict clock data w)) = log w.
Proof.
  rewrite from_dict_run.
  destruct (getitem data "title"); [|split; reflexivity].
  destruct (getitem data "description"); [|split; reflexivity].
  destruct (getitem data "due_date"); [|split; reflexivity].
  destruct (getitem data "created_date"); [|split; reflexivity].
  destruct (getitem data "completed"); split; reflexivity.
Qed.

Lemma mapM_from_dict_world (records : list pyval) (w : world) :
  files (snd (mapM (from_dict clock) records w)) = files w /\
  log (snd (mapM (from_dict clock) records w)) = log w.
Proof.
  revert w. induction records as [|r records IH]; intros w; [split; reflexivity|].
  simpl. unfold mbind, M_bind.
  pose proof (from_dict_world r w) as [Hf Hl].
  destruct (from_dict clock r w) as [[t|e] w1]; simpl in *; [|split; assumption].
  pose proof (IH w1) as [Hf' Hl'].
  destruct (mapM (from_dict clock) records w1) as [[ts|e] w2]; simpl in *;
    split; congruence.
Qed.

Lemma has_required_keys_spec (data : pyval) :
  has_required_keys data = true <->
  exists t d dd cd c,
    getitem data "title" = Ok t /\ getitem data "description" = Ok d /\
    getitem data "due_date" = Ok dd /\ getitem data "created_date" = Ok cd /\
    getitem data "completed" = Ok c.
Proof.
  unfold has_required_keys, required_keys, has_key. simpl. split.
  - destruct (getitem data "title") as [t|]; [|discriminate].
    destruct (getitem data "description") as [d|]; [|discriminate].
    destruct (getitem data "due_date") as [dd|]; [|discriminate].
    destruct (getitem data "created_date") as [cd|]; [|discriminate].
    destruct (getitem data "completed") as [c|]; [|discriminate].
    intros _. exists t, d, dd, cd, c. repeat split; reflexivity.
  - intros (t & d & dd & cd & c & -> & -> & -> & -> & ->). reflexivity.
Qed.

(** A mapping with the five keys is deserialized into the task that holds
    its five values. *)
Lemma from_dict_complete (data : pyval) :
  has_required_keys data = true ->
  exists task,
    (forall w, from_dict clock data w = (Ok task, tick w)) /\
    forall key, In key required_keys -> getitem data key = getitem (to_dict task) key.
Proof.
  intros H. apply has_required_keys_spec in H.
  destruct H as (t & d & dd & cd & c & Ht & Hd & Hdd & Hcd & Hc).
  exists {| title := t; description := d; created_date := cd;
            due_date := dd; completed := c |}.
  split.
  - intros w. rewrite from_dict_run, Ht, Hd, Hdd, Hcd, Hc. reflexivity.
  - intros key Hk. simpl in Hk.
    destruct Hk as [<-|[<-|[<-|[<-|[<-|[]]]]]]; assumption.
Qed.

(** A mapping that lacks one of the five keys makes [from_dict] raise
    [KeyError] for the first key that it misses. *)
Lemma from_dict_incomplete (data : pyval) :
  is_mapping data = true ->
  has_required_keys data = false ->
  exists key,
    In key required_keys /\ has_key data key = false /\
    forall w, fst (from_dict clock data w) = Raise (KeyError key).
Proof.
  destruct data as [| | | | |l|items]; try discriminate. intros _.
  unfold has_required_keys, required_keys, has_key. simpl.
  intros H.
  destruct (dict_get "title" items) eqn:Et; cycle 1.
  { exists "title". split; [in_keys|]. split.
    - simpl. rewrite Et. reflexivity.
    - intros w. rewrite from_dict_run. simpl. rewrite Et. reflexivity. }
  destruct (dict_get "description" items) eqn:Ed; cycle 1.
  { exists "description". split; [in_keys|]. split.
    - simpl. rewrite Ed. reflexivity.
    - intros w. rewrite from_dict_run. simpl. rewrite Et, Ed. reflexivity. }
  destruct (dict_get "due_date" items) eqn:Edd; cycle 1.
  { exists "due_date". split; [in_keys|]. split.
    - simpl. rewrite Edd. reflexivity.
    - intros w. rewrite from_dict_run. simpl. rewrite Et, Ed, Edd. reflexivity. }
  destruct (dict_get "created_date" items) eqn:Ecd; cycle 1.
  { exists "created_date". split; [in_keys|]. split.
    - simpl. rewrite Ecd. reflexivity.
    - intros w. rewrite from_dict_run. simpl. rewrite Et, Ed, Edd, Ecd. reflexivity. }
  destruct (dict_get "completed" items) eqn:Ec; cycle 1.
  { exists "completed". split; [in_keys|]. split.
    - simpl. rewrite Ec. reflexivity.
    - intros w. rewrite from_dict_run. simpl. rewrite Et, Ed, Edd, Ecd, Ec. reflexivity. }
  discriminate H.
Qed.

Lemma mapM_from_dict_complete (records : list pyval) (w : world) :
  Forall (fun r => has_required_keys r = true) records ->
  exists loaded w',
    mapM (from_dict clock) records w = (Ok loaded, w') /\
    Forall2 (fun r task =>
               (forall w0, from_dict clock r w0 = (Ok task, tick w0)) /\
               forall key, In key required_keys ->
                           getitem r key = getitem (to_dict task) key)
            records loaded.
Proof.
  intros H. revert w. induction H as [|r records Hr _ IH]; intros w.
  - exists [], w. split; [reflexivity|constructor].
  - destruct (from_dict_complete r Hr) as (task & Hrun & Hkeys).
    destruct (IH (tick w)) as (loaded & w' & Hrest & Hall).
    exists (task :: loaded), w'. split.
    + simpl. unfold mbind, M_bind. rewrite Hrun, Hrest. reflexivity.
    + constructor; [split|]; assumption.
Qed.

Lemma mapM_from_dict_incomplete (records : list pyval) (w : world) :
  Forall (fun r => is_mapping r = true) records ->
  Exists (fun r => has_required_keys r = false) records ->
  exists bad key,
    In bad records /\ In key required_keys /\ has_key bad key = false /\
    (forall w0, fst (from_dict clock bad w0) = Raise (KeyError key)) /\
    fst (mapM (from_dict clock) records w) = Raise (KeyError key).
Proof.
  intros Hmap. revert w. induction Hmap as [|r records Hr _ IH]; intros w Hex.
  - inversion Hex.
  - destruct (has_required_keys r) eqn:Hk.
    + assert (Hex' : Exists (fun r => has_required_keys r = false) records).
      { inversion Hex; subst; [congruence|assumption]. }
      destruct (from_dict_complete r Hk) as (task & Hrun & _).
      destruct (IH (tick w) Hex') as (bad & key & Hin & Hkey & Hmiss & Hbad & Hrest).
      exists bad, key. repeat split; try assumption; [right; assumption|].
      simpl. unfold mbind, M_bind. rewrite Hrun.
      destruct (mapM (from_dict clock) records (tick w)) as [[ts|e] w2];
        simpl in *; congruence.
    + destruct (from_dict_incomplete r Hr Hk) as (key & Hkey & Hmiss & Hbad).
      exists r, key. repeat split; try assumption; [left; reflexivity|].
      simpl. unfold mbind, M_bind. specialize (Hbad w).
      destruct (from_dict clock r w) as [[t|e] w1]; simpl in *; congruence.
Qed.

(** [load_tasks] on an existing file whose text decodes to a list: the
    outcome is that of the comprehension, since [KeyError] and [TypeError]
    are not handled. *)
Lemma load_tasks_list (self : TodoList) (w : world) (text : string)
    (records : list pyval) :
  files w !! filename self = Some text ->
  json_decode text = Some (PList records) ->
  load_tasks clock json_decode json_failure self w =
  match mapM (from_dict clock) records w with
  | (Ok loaded, w') => (Ok (set_tasks loaded self), w')
  | (Raise e, w') =>
      if is_JSONDecodeError e
      then (Ok (set_tasks [] self),
            printed "Error reading file. Starting with empty task list." w')
      else (Raise e, w')
  end.
Proof.
  intros Hfile Hdec. unfold load_tasks, os_path_exists, try_except, read_file, json_load.
  run. rewrite Hfile. simpl. rewrite Hfile, Hdec. run.
  destruct (mapM (from_dict clock) records w) as [[loaded|e] w']; reflexivity.
Qed.

Lemma conforming_has_required_keys (data : pyval) :
  conforming data = true -> has_required_keys data = true.
Proof.
  unfold conforming, has_required_keys, required_keys, has_key,
    is_text, is_text_or_null, is_boolean. simpl.
  destruct (getitem data "title"); [|discriminate].
  destruct (getitem data "description"); [|rewrite andb_false_r; discriminate].
  destruct (getitem data "created_date"); [|rewrite !andb_false_r; discriminate].
  destruct (getitem data "due_date"); [|rewrite !andb_false_r; discriminate].
  destruct (getitem data "completed"); [|rewrite !andb_false_r; discriminate].
  reflexivity.
Qed.

(** Whatever the mapping holds, [from_dict] fails on a record that has
    [title] and [description] but no key [due_date]. *)
Lemma from_dict_without_due_date (data : pyval) (w : world) :
  has_key data "title" = true ->
  has_key data "description" = true ->
  getitem data "due_date" = Raise (KeyError "due_date") ->
  from_dict clock data w = (Raise (KeyError "due_date"), w).
Proof.
  unfold has_key. intros Ht Hd Hdd. rewrite from_dict_run, Hdd.
  destruct (getitem data "title"); [|discriminate].
  destruct (getitem data "description"); [|discriminate].
  reflexivity.
Qed.

(** C3, as the code has it.  When the backing file decodes to an array of
    mappings and some record lacks a required key, [from_dict] raises
    [KeyError] on such a record, and [load_tasks] does not handle it: the
    [KeyError] escapes the construction of the store, which therefore
    yields no store; nothing is printed and no file is changed. *)
Theorem missing_key_escapes_construction
    (path : string) (w : world) (text : string) (records : list pyval) :
  files w !! path = Some text ->
  json_decode text = Some (PList records) ->
  Forall (fun r => is_mapping r = true) records ->
  Exists (fun r => has_required_keys r = false) records ->
  exists bad key w',
    In bad records /\ In key required_keys /\ has_key bad key = false /\
    (forall w0, fst (from_dict clock bad w0) = Raise (KeyError key)) /\
    TodoList_init clock json_decode json_failure path w = (Raise (KeyError key), w') /\
    files w' = files w /\ log w' = log w.
Proof.
  intros Hfile Hdec Hmap Hex.
  destruct (mapM_from_dict_incomplete records w Hmap Hex)
    as (bad & key & Hin & Hkey & Hmiss & Hbad & Hrun).
  pose proof (mapM_from_dict_world records w) as [Hf Hl].
  unfold TodoList_init.
  rewrite (load_tasks_list {| filename := path; tasks := [] |} w text records Hfile Hdec).
  destruct (mapM (from_dict clock) records w) as [[loaded|e] w'] eqn:E;
    simpl in *; [discriminate|].
  inversion Hrun; subst e.
  exists bad, key, w'. repeat split; assumption.
Qed.

(** [load_tasks] on an existing file that [json.load] does not decode. *)
Lemma load_tasks_undecoded (self : TodoList) (w : world) (text : string) :
  files w !! filename self = Some text ->
  json_decode text = None ->
  load_tasks clock json_decode json_failure self w =
  if is_JSONDecodeError (json_failure text)
  then (Ok (set_tasks [] self),
        printed "Error reading file. Starting with empty task list." w)
  else (Raise (json_failure text), w).
Proof.
  intros Hfile Hdec.
  unfold load_tasks, os_path_exists, try_except, read_file, json_load.
  run. rewrite Hfile. simpl. rewrite Hfile, Hdec. unfold raise.
  destruct (is_JSONDecodeError (json_failure text)); reflexivity.
Qed.

Lemma is_JSONDecodeError_spec (e : exn) :
  is_JSONDecodeError e = true <-> e = JSONDecodeError.
Proof. destruct e; simpl; split; intros H; congruence. Qed.

(** C4, as the code has it.  A missing backing file gives an empty store and
    leaves the world as it was: nothing is printed.  A backing file on
    which [json.load] raises [json.JSONDecodeError] gives an empty store as
    well: the message is printed, no exception is raised, and the file
    keeps its text.  Any other exception that reading the file raises, as
    [UnicodeDecodeError] on bytes that are no text, is not handled: it
    escapes the construction, and nothing is printed. *)
Theorem load_fallback (path : string) (w : world) :
  (files w !! path = None ->
   TodoList_init clock json_decode json_failure path w
   = (Ok {| filename := path; tasks := [] |}, w)) /\
  (forall text,
   files w !! path = Some text ->
   json_decode text = None ->
   json_failure text = JSONDecodeError ->
   exists w',
     TodoList_init clock json_decode json_failure path w
     = (Ok {| filename := path; tasks := [] |}, w') /\
     log w'
     = (log w ++ [Printed "Error reading file. Starting with empty task list."])%list /\
     files w' = files w /\
     files w' !! path = Some text /\
     ticks w' = ticks w) /\
  (forall text,
   files w !! path = Some text ->
   json_decode text = None ->
   json_failure text <> JSONDecodeError ->
   TodoList_init clock json_decode json_failure path w
   = (Raise (json_failure text), w)).
Proof.
  split; [|split].
  - intros Hfile. unfold TodoList_init, load_tasks, os_path_exists. run.
    rewrite Hfile. reflexivity.
  - intros text Hfile Hdec Hfail. unfold TodoList_init.
    rewrite (load_tasks_undecoded {| filename := path; tasks := [] |} w text Hfile Hdec).
    rewrite Hfail. simpl. eexists. split; [reflexivity|].
    split; [reflexivity|]. split; [reflexivity|]. split; [exact Hfile|reflexivity].
  - intros text Hfile Hdec Hfail. unfold TodoList_init.
    rewrite (load_tasks_undecoded {| filename := path; tasks := [] |} w text Hfile Hdec).
    destruct (is_JSONDecodeError (json_failure text)) eqn:He; [|reflexivity].
    apply is_JSONDecodeError_spec in He. contradiction.
Qed.

(** C5, as the code has it.  Load accepts a backing file whose records have
    the five keys of the file format, with text or null under [due_date]:
    each record is deserialized into the task holding its five values, in
    file order, and a null [due_date] is shown as not set.  The key
    [due_date] itself has to be present. *)
Theorem load_accepts_conforming
    (path : string) (w : world) (text : string) (records : list pyval) :
  files w !! path = Some text ->
  json_decode text = Some (PList records) ->
  Forall (fun r => conforming r = true) records ->
  exists loaded w',
    TodoList_init clock json_decode json_failure path w
    = (Ok {| filename := path; tasks := loaded |}, w') /\
    files w' = files w /\ log w' = log w /\
    Forall2 (fun r task =>
               (forall w0, from_dict clock r w0 = (Ok task, tick w0)) /\
               (forall key, In key required_keys ->
                            getitem r key = getitem (to_dict task) key) /\
               (getitem r "due_date" = Ok PNone ->
                due_date_shown task = PStr "Not set"))
            records loaded.
Proof.
  intros Hfile Hdec Hconf.
  assert (Hkeys : Forall (fun r => has_required_keys r = true) records).
  { eapply Forall_impl; [exact Hconf|]. intros r. apply conforming_has_required_keys. }
  destruct (mapM_from_dict_complete records w Hkeys) as (loaded & w' & Hrun & Hall).
  pose proof (mapM_from_dict_world records w) as [Hf Hl].
  rewrite Hrun in Hf, Hl. simpl in Hf, Hl.
  exists loaded, w'. unfold TodoList_init.
  rewrite (load_tasks_list {| filename := path; tasks := [] |} w text records Hfile Hdec).
  rewrite Hrun. repeat split; try assumption.
  eapply Forall2_impl; [exact Hall|].
  intros r task [Hfrom Hk]. repeat split; try assumption.
  intros Hnull. specialize (Hk "due_date"). rewrite Hnull in Hk.
  assert (Hd : due_date task = PNone).
  { assert (Hin : In "due_date" required_keys) by in_keys.
    specialize (Hk Hin). simpl in Hk. congruence. }
  unfold due_date_shown. rewrite Hd. reflexivity.
Qed.

(** *** Mutations *)

Lemma persisted_wrote (self : TodoList) (w : world) :
  persisted json_encode self w (wrote (filename self) (serialized (tasks self)) w).
Proof.
  split; [reflexivity|]. unfold synchronized, wrote. simpl.
  apply lookup_insert_eq.
Qed.

(** After a successful [delete_task], the tasks before [index] keep their
    position and every later task has moved down by one. *)
Lemma delete_task_shifts (self : TodoList) (index : Z) (w : world) :
  0 <= index < Z.of_nat (length (tasks self)) ->
  exists self' w',
    delete_task json_encode self index w = (Ok (true, self'), w') /\
    length (tasks self') = Nat.pred (length (tasks self)) /\
    (forall j, (j < Z.to_nat index)%nat -> tasks self' !! j = tasks self !! j) /\
    (forall j, (Z.to_nat index <= j)%nat -> tasks self' !! j = tasks self !! S j).
Proof.
  intros H. eexists _, _. split; [apply (delete_task_run self index w H)|].
  simpl. split; [|split].
  - rewrite length_delete; [lia|]. apply lookup_lt_is_Some_2. lia.
  - intros j Hj. apply list_lookup_delete_lt. exact Hj.
  - intros j Hj. apply list_lookup_delete_ge. exact Hj.
Qed.

(** C6.  On the sequence [a, b, c], [delete_task(0)] succeeds and leaves
    [b, c]; [complete_task(0)] on that store then succeeds and leaves the
    sequence whose first task is [b] with [completed] set to [True] and
    whose second task is [c] as it was.  The deleted [a] is in neither
    sequence, so it is [b] that is marked. *)
Theorem delete_then_complete_marks_next
    (path : string) (a b c : Task) (w w1 : world) :
  delete_task json_encode {| filename := path; tasks := [a; b; c] |} 0 w
  = (Ok (true, {| filename := path; tasks := [b; c] |}),
     wrote path (serialized [b; c]) w) /\
  exists marked self' w',
    complete_task json_encode {| filename := path; tasks := [b; c] |} 0 w1
    = (Ok (true, self'), w') /\
    marked = {| title := title b; description := description b;
                created_date := created_date b; due_date := due_date b;
                completed := PBool true |} /\
    filename self' = path /\
    tasks self' = [marked; c] /\
    completed marked = PBool true /\
    log w' = (log w1 ++ [Wrote path (serialized [marked; c])])%list /\
    files w' !! path = Some (serialized [marked; c]).
Proof.
  split; [reflexivity|].
  pose proof (complete_task_run {| filename := path; tasks := [b; c] |} 0 w1) as Hrun.
  cbv zeta in Hrun. simpl in Hrun.
  eexists _, _, _. split; [apply Hrun; lia|].
  split; [reflexivity|]. split; [reflexivity|]. split; [reflexivity|].
  split; [reflexivity|]. split; [reflexivity|].
  simpl. apply lookup_insert_eq.
Qed.

Lemma truthy_arg (a : option string) : truthy (arg a) = negb (blank a).
Proof. destruct a as [[|ch s]|]; reflexivity. Qed.

Lemma overwrite_title (a : option string) (task : Task) :
  (if truthy (arg a) then set_title (arg a) task else task)
  = set_title (overwrite a (title task)) task.
Proof. destruct a as [[|ch s]|]; destruct task; reflexivity. Qed.

Lemma overwrite_description (a : option string) (task : Task) :
  (if truthy (arg a) then set_description (arg a) task else task)
  = set_description (overwrite a (description task)) task.
Proof. destruct a as [[|ch s]|]; destruct task; reflexivity. Qed.

Lemma overwrite_due_date (a : option string) (task : Task) :
  (if truthy (arg a) then set_due_date (arg a) task else task)
  = set_due_date (overwrite a (due_date task)) task.
Proof. destruct a as [[|ch s]|]; destruct task; reflexivity. Qed.

Lemma overwrite_not_cleared (a : option string) (old : pyval) :
  old <> PStr EmptyString -> overwrite a old <> PStr EmptyString.
Proof.
  intros Hold. destruct a as [[|ch s]|]; simpl; [exact Hold|discriminate|exact Hold].
Qed.

(** C7.  For an index in range, [update_task] returns [True] and replaces,
    in the task at [index], exactly the fields for which a text that is
    not empty was supplied; the other fields, and [created_date] and
    [completed], keep their values, and so does every other task.
    Passing the empty string for a field is the same call as not passing
    the field, so that an update cannot make a title or a description
    empty. *)
Theorem update_overwrites_supplied_fields
    (self : TodoList) (index : Z) (a b c : option string) (w : world) :
  0 <= index < Z.of_nat (length (tasks self)) ->
  exists task task' self' w',
    tasks self !! Z.to_nat index = Some task /\
    task' = {| title := overwrite a (title task);
               description := overwrite b (description task);
               created_date := created_date task;
               due_date := overwrite c (due_date task);
               completed := completed task |} /\
    update_task json_encode self index (arg a) (arg b) (arg c) w
    = (Ok (true, self'), w') /\
    filename self' = filename self /\
    tasks self' = <[Z.to_nat index := task']> (tasks self) /\
    tasks self' !! Z.to_nat index = Some task' /\
    length (tasks self') = length (tasks self) /\
    (forall j, j <> Z.to_nat index -> tasks self' !! j = tasks self !! j) /\
    log w' = (log w ++ [Wrote (filename self) (serialized (tasks self'))])%list /\
    files w' = <[filename self := serialized (tasks self')]> (files w) /\
    update_task json_encode self index (arg (Some EmptyString)) (arg b) (arg c) w
    = update_task json_encode self index (arg None) (arg b) (arg c) w /\
    update_task json_encode self index (arg a) (arg (Some EmptyString)) (arg c) w
    = update_task json_encode self index (arg a) (arg None) (arg c) w /\
    update_task json_encode self index (arg a) (arg b) (arg (Some EmptyString)) w
    = update_task json_encode self index (arg a) (arg b) (arg None) w /\
    (title task <> PStr EmptyString -> title task' <> PStr EmptyString) /\
    (description task <> PStr EmptyString -> description task' <> PStr EmptyString).
Proof.
  intros H.
  destruct (update_task_run self index (arg a) (arg b) (arg c) w H)
    as (task & Hl & Hrun).
  cbv zeta in Hrun.
  rewrite overwrite_title, overwrite_description, overwrite_due_date in Hrun.
  exists task. eexists _, _, _. split; [exact Hl|].
  split; [reflexivity|]. split.
  { rewrite Hrun. destruct task; reflexivity. }
  simpl.
  split; [reflexivity|]. split; [reflexivity|].
  split; [apply list_lookup_insert_eq; apply lookup_lt_Some in Hl; exact Hl|].
  split; [apply length_insert|].
  split; [intros j Hj; apply list_lookup_insert_ne; congruence|].
  split; [reflexivity|]. split; [reflexivity|].
  split; [reflexivity|]. split; [reflexivity|]. split; [reflexivity|].
  split; apply overwrite_not_cleared.
Qed.

Lemma filter_sublist {A : Type} (keep : A -> bool) (l : list A) :
  sublist (List.filter keep l) l.
Proof.
  induction l as [|x l IH]; simpl.
  - constructor.
  - destruct (keep x); [apply sublist_skip|apply sublist_cons]; exact IH.
Qed.

Lemma StronglySorted_map_S (idx : list nat) :
  StronglySorted lt idx -> StronglySorted lt (map S idx).
Proof.
  induction 1 as [|i idx _ IH Hall]; simpl; constructor; [exact IH|].
  apply Forall_forall. intros j Hj. apply list_elem_of_In, in_map_iff in Hj.
  destruct Hj as (k & <- & Hk).
  rewrite Forall_forall in Hall. apply list_elem_of_In in Hk.
  specialize (Hall k Hk). lia.
Qed.

(** The items that a filter keeps are the items at the positions that
    hold a kept item, in the order of these positions, each once. *)
Lemma filter_positions {A : Type} (keep : A -> bool) (l : list A) :
  exists idx,
    StronglySorted lt idx /\
    (forall i, In i idx <-> exists x, l !! i = Some x /\ keep x = true) /\
    Forall2 (fun i x => l !! i = Some x) idx (List.filter keep l).
Proof.
  induction l as [|a l (idx & Hsort & Hmem & Hall)].
  - exists []. split; [constructor|]. split; [|constructor].
    intros i. split; [intros []|intros (x & Hx & _); discriminate Hx].
  - assert (Hshift : forall i, In i (map S idx) <->
                               exists j, i = S j /\ In j idx).
    { intros i. rewrite in_map_iff. split; intros (j & H1 & H2); exists j; auto. }
    assert (Hall' : Forall2 (fun i x => (a :: l) !! i = Some x) (map S idx)
                            (List.filter keep l)).
    { apply Forall2_fmap_l. eapply Forall2_impl; [exact Hall|].
      intros i x Hx. exact Hx. }
    simpl. destruct (keep a) eqn:Ha.
    + exists (0%nat :: map S idx). split; [|split].
      * constructor; [apply StronglySorted_map_S; exact Hsort|].
        apply Forall_forall. intros j Hj. apply list_elem_of_In, Hshift in Hj.
        destruct Hj as (k & -> & _). lia.
      * intros [|i]; simpl.
        -- split; [intros _; exists a; split; [reflexivity|exact Ha]|intros _; left; reflexivity].
        -- rewrite <- Hmem. split.
           ++ intros [Habs|Hin]; [discriminate Habs|].
              apply Hshift in Hin. destruct Hin as (j & Hj & Hin).
              inversion Hj; subst j. exact Hin.
           ++ intros Hin. right. apply Hshift. exists i. split; [reflexivity|exact Hin].
      * constructor; [reflexivity|exact Hall'].
    + exists (map S idx). split; [apply StronglySorted_map_S; exact Hsort|].
      split; [|exact Hall'].
      intros [|i]; simpl.
      * split.
        -- intros Hin. apply Hshift in Hin. destruct Hin as (j & Hj & _). discriminate Hj.
        -- intros (x & Hx & Hk). inversion Hx; subst x. congruence.
      * rewrite <- Hmem. split.
        -- intros Hin. apply Hshift in Hin. destruct Hin as (j & Hj & Hin).
           inversion Hj; subst j. exact Hin.
        -- intros Hin. apply Hshift. exists i. split; [reflexivity|exact Hin].
Qed.

(** C8.  [get_tasks(True)] returns the whole sequence.  [get_tasks(False)]
    returns the tasks whose [completed] is false and no others, in the
    order of the sequence and as they are: it returns the tasks at the
    positions that hold a task whose [completed] is false, position by
    position in increasing order, so a task that the sequence holds twice
    is returned twice.  Neither changes the world.  With the flags
    [True, False, True], [get_tasks(False)] is the single task at
    index 1. *)
Theorem get_tasks_filters_completed (self : TodoList) (w : world) :
  get_tasks self (PBool true) w = (Ok (tasks self), w) /\
  (exists pending,
     get_tasks self (PBool false) w = (Ok pending, w) /\
     sublist pending (tasks self) /\
     (forall task, In task pending <->
                   In task (tasks self) /\ truthy (completed task) = false) /\
     (forall task flag, completed task = PBool flag ->
                        (In task pending <-> In task (tasks self) /\ flag = false)) /\
     (exists positions,
        StronglySorted lt positions /\
        (forall i, In i positions <->
                   exists task, tasks self !! i = Some task /\
                                truthy (completed task) = false) /\
        Forall2 (fun i task => tasks self !! i = Some task) positions pending)) /\
  forall (path : string) (a b c : Task),
    get_tasks {| filename := path;
                 tasks := [set_completed (PBool true) a;
                           set_completed (PBool false) b;
                           set_completed (PBool true) c] |} (PBool false) w
    = (Ok [set_completed (PBool false) b], w).
Proof.
  split; [reflexivity|]. split; [|reflexivity].
  eexists. split; [reflexivity|]. split; [apply filter_sublist|]. split; [|split].
  - intros task. rewrite filter_In, negb_true_iff. reflexivity.
  - intros task flag Hflag. rewrite filter_In, negb_true_iff, Hflag. reflexivity.
  - destruct (filter_positions (fun task => negb (truthy (completed task))) (tasks self))
      as (positions & Hsort & Hmem & Hall).
    exists positions. split; [exact Hsort|]. split; [|exact Hall].
    intros i. rewrite Hmem. split; intros (task & Hl & Hk); exists task;
      (split; [exact Hl|]); apply negb_true_iff; exact Hk.
Qed.

(** C9.  Every successful [add_task], [complete_task], [delete_task] and
    [update_task] ends by writing the serialization of the whole new
    sequence, in order, to the backing file, which then holds it; a call
    with an index out of range writes nothing. *)
Theorem mutations_rewrite_backing_file (self : TodoList) (w : world) :
  (forall t d dd, exists task self' w',
     add_task clock json_encode self t d dd w = (Ok (task, self'), w') /\
     self' = set_tasks (tasks self ++ [task]) self /\
     persisted json_encode self' (tick w) w') /\
  (forall index t d dd,
     0 <= index < Z.of_nat (length (tasks self)) ->
     (exists self' w',
        complete_task json_encode self index w = (Ok (true, self'), w') /\
        filename self' = filename self /\ persisted json_encode self' w w') /\
     (exists self' w',
        delete_task json_encode self index w = (Ok (true, self'), w') /\
        filename self' = filename self /\ persisted json_encode self' w w') /\
     (exists self' w',
        update_task json_encode self index t d dd w = (Ok (true, self'), w') /\
        filename self' = filename self /\ persisted json_encode self' w w')) /\
  (forall index t d dd,
     index < 0 \/ Z.of_nat (length (tasks self)) <= index ->
     snd (complete_task json_encode self index w) = w /\
     snd (delete_task json_encode self index w) = w /\
     snd (update_task json_encode self index t d dd w) = w).
Proof.
  split; [|split].
  - intros t d dd. eexists _, _, _. split; [apply add_task_run|].
    split; [reflexivity|].
    apply (persisted_wrote (set_tasks _ self) (tick w)).
  - intros index t d dd H. split; [|split].
    + eexists _, _. split; [apply (complete_task_run self index w H)|].
      split; [reflexivity|]. apply (persisted_wrote (set_tasks _ self) w).
    + eexists _, _. split; [apply (delete_task_run self index w H)|].
      split; [reflexivity|]. apply (persisted_wrote (set_tasks _ self) w).
    + destruct (update_task_run self index t d dd w H) as (task & _ & Hrun).
      eexists _, _. split; [exact Hrun|].
      split; [reflexivity|]. apply (persisted_wrote (set_tasks _ self) w).
  - intros index t d dd H.
    apply in_range_false in H.
    unfold complete_task, delete_task, update_task. rewrite H.
    repeat split; reflexivity.
Qed.

(** C10.  For an index in range, [update_task] with its three fields absent
    or empty returns [True], leaves every task as it is, and still writes
    the backing file; when the file was synchronized before, it is written
    with the text that it already held. *)
Theorem blank_update_rewrites_same_content
    (self : TodoList) (index : Z) (a b c : option string) (w : world) :
  0 <= index < Z.of_nat (length (tasks self)) ->
  blank a = true -> blank b = true -> blank c = true ->
  let w' := wrote (filename self) (serialized (tasks self)) w in
  update_task json_encode self index (arg a) (arg b) (arg c) w
  = (Ok (true, self), w') /\
  log w' = (log w ++ [Wrote (filename self) (serialized (tasks self))])%list /\
  (synchronized json_encode self w -> files w' = files w).
Proof.
  intros H Ha Hb Hc.
  destruct (update_task_run self index (arg a) (arg b) (arg c) w H)
    as (task & Hl & Hrun).
  simpl in Hrun. rewrite !truthy_arg, Ha, Hb, Hc in Hrun. simpl in Hrun.
  rewrite (list_insert_id _ _ _ Hl) in Hrun.
  assert (Hself : set_tasks (tasks self) self = self) by (destruct self; reflexivity).
  rewrite Hself in Hrun.
  split; [exact Hrun|]. split; [reflexivity|].
  intros Hsync. unfold wrote. simpl. apply insert_id. exact Hsync.
Qed.

End Properties.

(** ** The properties on the sample data *)

(** A pending task that the sequence holds twice is returned twice. *)
Lemma get_tasks_keeps_both_copies :
  get_tasks {| filename := "todo.json"; tasks := [pay_bills; buy_milk; pay_bills] |}
    (PBool false) empty_world
  = (Ok [pay_bills; pay_bills], empty_world).
Proof. reflexivity. Qed.

(** The empty store rejects index 0. *)
Lemma out_of_range_rejected_empty_store :
  (0 < 0 \/ Z.of_nat (length (tasks empty_store)) <= 0) /\
  complete_task sample_encode empty_store 0 empty_world
  = (Ok (false, empty_store), empty_world) /\
  delete_task sample_encode empty_store 0 empty_world
  = (Ok (false, empty_store), empty_world) /\
  update_task sample_encode empty_store 0 (PStr "x") PNone PNone empty_world
  = (Ok (false, empty_store), empty_world).
Proof.
  assert (H : 0 < 0 \/ Z.of_nat (length (tasks empty_store)) <= 0).
  { right. simpl. apply Z.le_refl. }
  split; [exact H|].
  exact (out_of_range_rejected sample_encode empty_store 0
           (PStr "x") PNone PNone empty_world H).
Defined.

(** The claim C3 fails on the file [text_missing_keys]: the construction
    of the store raises [KeyError('description')] instead of falling back
    to the empty sequence. *)
Lemma missing_key_not_recovered :
  sample_decode text_missing_keys
  = Some (PList [to_dict pay_bills; record_title_only]) /\
  TodoList_init sample_clock sample_decode sample_failure "todo.json"
    (world_of "todo.json" text_missing_keys)
  = (Raise (KeyError "description"), tick (world_of "todo.json" text_missing_keys)) /\
  ~ exists w', TodoList_init sample_clock sample_decode sample_failure "todo.json"
                 (world_of "todo.json" text_missing_keys)
               = (Ok {| filename := "todo.json"; tasks := [] |}, w').
Proof.
  assert (Hrun : TodoList_init sample_clock sample_decode sample_failure "todo.json"
                   (world_of "todo.json" text_missing_keys)
                 = (Raise (KeyError "description"),
                    tick (world_of "todo.json" text_missing_keys))).
  { vm_compute. reflexivity. }
  split; [vm_compute; reflexivity|]. split; [exact Hrun|].
  intros [w' H]. rewrite Hrun in H. discriminate H.
Qed.

(** The file [text_missing_keys] is an array of two mappings, the second
    of which lacks four keys. *)
Lemma missing_key_escapes_construction_sample :
  exists bad key w',
    In bad [to_dict pay_bills; record_title_only] /\
    In key required_keys /\ has_key bad key = false /\
    (forall w0, fst (from_dict sample_clock bad w0) = Raise (KeyError key)) /\
    TodoList_init sample_clock sample_decode sample_failure "todo.json"
      (world_of "todo.json" text_missing_keys)
    = (Raise (KeyError key), w') /\
    files w' = files (world_of "todo.json" text_missing_keys) /\
    log w' = log (world_of "todo.json" text_missing_keys).
Proof.
  apply (missing_key_escapes_construction sample_clock sample_decode sample_failure "todo.json"
           (world_of "todo.json" text_missing_keys) text_missing_keys
           [to_dict pay_bills; record_title_only]).
  - vm_compute. reflexivity.
  - vm_compute. reflexivity.
  - repeat constructor.
  - right. left. reflexivity.
Defined.

(** The claim C4 fails on a backing file that holds [bytes_invalid]: the
    construction of the store raises [UnicodeDecodeError], and nothing is
    printed. *)
Lemma undecodable_bytes_not_recovered :
  files (world_of "todo.json" bytes_invalid) !! "todo.json" = Some bytes_invalid /\
  sample_decode bytes_invalid = None /\
  sample_failure bytes_invalid = UnicodeDecodeError /\
  TodoList_init sample_clock sample_decode sample_failure "todo.json"
    (world_of "todo.json" bytes_invalid)
  = (Raise UnicodeDecodeError, world_of "todo.json" bytes_invalid) /\
  log (snd (TodoList_init sample_clock sample_decode sample_failure "todo.json"
              (world_of "todo.json" bytes_invalid))) = [] /\
  ~ exists self w',
      TodoList_init sample_clock sample_decode sample_failure "todo.json"
        (world_of "todo.json" bytes_invalid) = (Ok self, w').
Proof.
  assert (Hrun : TodoList_init sample_clock sample_decode sample_failure "todo.json"
                   (world_of "todo.json" bytes_invalid)
                 = (Raise UnicodeDecodeError, world_of "todo.json" bytes_invalid)).
  { vm_compute. reflexivity. }
  split; [vm_compute; reflexivity|]. split; [vm_compute; reflexivity|].
  split; [vm_compute; reflexivity|]. split; [exact Hrun|].
  split; [rewrite Hrun; reflexivity|].
  intros (self & w' & H). rewrite Hrun in H. discriminate H.
Qed.

(** No backing file, a backing file that holds [text_invalid], and one
    that holds [bytes_invalid]. *)
Lemma load_fallback_sample :
  TodoList_init sample_clock sample_decode sample_failure "todo.json" empty_world
  = (Ok empty_store, empty_world) /\
  (exists w',
     TodoList_init sample_clock sample_decode sample_failure "todo.json"
       (world_of "todo.json" text_invalid)
     = (Ok empty_store, w') /\
     log w'
     = (log (world_of "todo.json" text_invalid)
        ++ [Printed "Error reading file. Starting with empty task list."])%list /\
     files w' = files (world_of "todo.json" text_invalid) /\
     files w' !! "todo.json" = Some text_invalid /\
     ticks w' = ticks (world_of "todo.json" text_invalid)) /\
  TodoList_init sample_clock sample_decode sample_failure "todo.json"
    (world_of "todo.json" bytes_invalid)
  = (Raise (sample_failure bytes_invalid), world_of "todo.json" bytes_invalid).
Proof.
  split; [|split].
  - apply (proj1 (load_fallback sample_clock sample_decode sample_failure
                    "todo.json" empty_world)).
    vm_compute. reflexivity.
  - apply (proj1 (proj2 (load_fallback sample_clock sample_decode sample_failure
                           "todo.json" (world_of "todo.json" text_invalid)))
             text_invalid).
    + vm_compute. reflexivity.
    + vm_compute. reflexivity.
    + vm_compute. reflexivity.
  - apply (proj2 (proj2 (load_fallback sample_clock sample_decode sample_failure
                           "todo.json" (world_of "todo.json" bytes_invalid)))
             bytes_invalid).
    + vm_compute. reflexivity.
    + vm_compute. reflexivity.
    + vm_compute. discriminate.
Defined.

(** The claim C5 fails on a record without the key [due_date]:
    [from_dict] raises [KeyError('due_date')], and so does the construction
    of a store on a file that holds the record. *)
Lemma absent_due_date_rejected :
  getitem record_no_due_date "title" = Ok (PStr "Buy milk") /\
  getitem record_no_due_date "description" = Ok (PStr EmptyString) /\
  getitem record_no_due_date "created_date" = Ok (PStr "2023-12-31 18:00:00") /\
  getitem record_no_due_date "completed" = Ok (PBool false) /\
  from_dict sample_clock record_no_due_date empty_world
  = (Raise (KeyError "due_date"), empty_world) /\
  sample_decode text_no_due_date = Some (PList [record_no_due_date]) /\
  TodoList_init sample_clock sample_decode sample_failure "todo.json"
    (world_of "todo.json" text_no_due_date)
  = (Raise (KeyError "due_date"), world_of "todo.json" text_no_due_date).
Proof. repeat split; vm_compute; reflexivity. Qed.

(** The backing file of [sample_store] holds three conforming records, two
    of them with a null [due_date]. *)
Lemma load_accepts_conforming_sample :
  exists loaded w',
    TodoList_init sample_clock sample_decode sample_failure "todo.json"
      (world_of "todo.json" sample_text)
    = (Ok {| filename := "todo.json"; tasks := loaded |}, w') /\
    files w' = files (world_of "todo.json" sample_text) /\
    log w' = log (world_of "todo.json" sample_text) /\
    Forall2 (fun r task =>
               (forall w0, from_dict sample_clock r w0 = (Ok task, tick w0)) /\
               (forall key, In key required_keys ->
                            getitem r key = getitem (to_dict task) key) /\
               (getitem r "due_date" = Ok PNone ->
                due_date_shown task = PStr "Not set"))
            [to_dict buy_milk; to_dict pay_bills; to_dict call_mum] loaded.
Proof.
  apply (load_accepts_conforming sample_clock sample_decode sample_failure "todo.json"
           (world_of "todo.json" sample_text) sample_text
           [to_dict buy_milk; to_dict pay_bills; to_dict call_mum]).
  - vm_compute. reflexivity.
  - vm_compute. reflexivity.
  - repeat constructor.
Defined.

(** Renaming the second task of [sample_store], with the empty string and
    with nothing for its description. *)
Lemma update_overwrites_supplied_fields_sample :
  0 <= 1 < Z.of_nat (length (tasks sample_store)) /\
  exists self' w',
    update_task sample_encode sample_store 1
      (arg (Some "Pay rent")) (arg (Some EmptyString)) (arg None) empty_world
    = (Ok (true, self'), w') /\
    tasks self' !! 1%nat
    = Some {| title := PStr "Pay rent"; description := PStr "rent";
              created_date := PStr "2023-12-31 18:05:00";
              due_date := PStr "2024-01-01"; completed := PBool false |} /\
    tasks self' !! 0%nat = Some buy_milk /\
    tasks self' !! 2%nat = Some call_mum.
Proof.
  assert (H : 0 <= 1 < Z.of_nat (length (tasks sample_store))).
  { simpl. split; [discriminate|reflexivity]. }
  split; [exact H|].
  destruct (update_overwrites_supplied_fields sample_encode sample_store 1
              (Some "Pay rent") (Some EmptyString) None empty_world H)
    as (task & task' & self' & w' & Hl & Htask' & Hrun & _ & _ & Hat & _ & Hother & _).
  simpl in Hl. inversion Hl; subst task. simpl in Htask'. subst task'.
  exists self', w'. split; [exact Hrun|]. split; [exact Hat|].
  split; [apply (Hother 0%nat); discriminate|apply (Hother 2%nat); discriminate].
Defined.

(** Deleting from [sample_store] at index 1, which is in range, and at
    index 3, which is not. *)
Lemma mutations_rewrite_backing_file_sample :
  0 <= 1 < Z.of_nat (length (tasks sample_store)) /\
  (exists self' w',
     delete_task sample_encode sample_store 1 empty_world = (Ok (true, self'), w') /\
     filename self' = filename sample_store /\
     persisted sample_encode self' empty_world w') /\
  (3 < 0 \/ Z.of_nat (length (tasks sample_store)) <= 3) /\
  snd (delete_task sample_encode sample_store 3 empty_world) = empty_world.
Proof.
  assert (Hin : 0 <= 1 < Z.of_nat (length (tasks sample_store))).
  { simpl. split; [discriminate|reflexivity]. }
  assert (Hout : 3 < 0 \/ Z.of_nat (length (tasks sample_store)) <= 3).
  { right. simpl. apply Z.le_refl. }
  destruct (mutations_rewrite_backing_file sample_clock sample_encode
              sample_store empty_world) as (_ & Hok & Hfail).
  split; [exact Hin|]. split.
  - exact (proj1 (proj2 (Hok 1 PNone PNone PNone Hin))).
  - split; [exact Hout|].
    exact (proj1 (proj2 (Hfail 3 PNone PNone PNone Hout))).
Defined.

(** An update of [sample_store] that supplies nothing, on a backing file
    that is synchronized. *)
Lemma blank_update_rewrites_same_content_sample :
  0 <= 1 < Z.of_nat (length (tasks sample_store)) /\
  synchronized sample_encode sample_store (world_of "todo.json" sample_text) /\
  update_task sample_encode sample_store 1
    (arg None) (arg (Some EmptyString)) (arg None) (world_of "todo.json" sample_text)
  = (Ok (true, sample_store),
     wrote "todo.json" sample_text (world_of "todo.json" sample_text)) /\
  files (wrote "todo.json" sample_text (world_of "todo.json" sample_text))
  = files (world_of "todo.json" sample_text).
Proof.
  assert (Hin : 0 <= 1 < Z.of_nat (length (tasks sample_store))).
  { simpl. split; [discriminate|reflexivity]. }
  assert (Hsync : synchronized sample_encode sample_store
                    (world_of "todo.json" sample_text)).
  { vm_compute. reflexivity. }
  destruct (blank_update_rewrites_same_content sample_encode sample_store 1
              None (Some EmptyString) None (world_of "todo.json" sample_text)
              Hin eq_refl eq_refl eq_refl) as (Hrun & _ & Hfiles).
  split; [exact Hin|]. split; [exact Hsync|]. split; [exact Hrun|].
  exact (Hfiles Hsync).
Defined.

(** ** Further properties of the two classes *)

Section StoreProperties.

Variable clock : nat -> string.
Variable json_decode : string -> option pyval.
Variable json_failure : string -> exn.
Variable json_encode : pyval -> string.

Set Default Proof Using "Type".

(** *** Loading, continued *)

Lemma set_tasks_self (self : TodoList) : set_tasks (tasks self) self = self.
Proof. destruct self; reflexivity. Qed.

(** [load_tasks] on an existing file whose text decodes: the outcome is
    that of iterating the document and deserializing its items. *)
Lemma load_tasks_decoded (self : TodoList) (w : world) (text : string) (data : pyval) :
  files w !! filename self = Some text ->
  json_decode text = Some data ->
  load_tasks clock json_decode json_failure self w =
  match py_iter data with
  | Raise e =>
      if is_JSONDecodeError e
      then (Ok (set_tasks [] self),
            printed "Error reading file. Starting with empty task list." w)
      else (Raise e, w)
  | Ok records =>
      match mapM (from_dict clock) records w with
      | (Ok loaded, w') => (Ok (set_tasks loaded self), w')
      | (Raise e, w') =>
          if is_JSONDecodeError e
          then (Ok (set_tasks [] self),
                printed "Error reading file. Starting with empty task list." w')
          else (Raise e, w')
      end
  end.
Proof.
  intros Hfile Hdec.
  unfold load_tasks, os_path_exists, try_except, read_file, json_load.
  unfold mbind, mret, M_bind, M_ret, lift, raise. simpl.
  rewrite Hfile. simpl. rewrite Hfile, Hdec.
  destruct (py_iter data) as [records|e]; [|reflexivity].
  destruct (mapM (from_dict clock) records w) as [[loaded|e] w']; reflexivity.
Qed.

Lemma from_dict_not_mapping (data : pyval) (w : world) :
  is_mapping data = false -> from_dict clock data w = (Raise TypeError, w).
Proof.
  intros H. rewrite from_dict_run.
  destruct data; try reflexivity. discriminate H.
Qed.

Lemma from_dict_rejects (data : pyval) (w : world) :
  has_required_keys data = false ->
  exists e, fst (from_dict clock data w) = Raise e /\ record_error e.
Proof.
  intros H. destruct (is_mapping data) eqn:Hm.
  - destruct (from_dict_incomplete clock data Hm H) as (key & Hin & _ & Hrun).
    exists (KeyError key). split; [apply Hrun|]. right. exists key. split; [exact Hin|reflexivity].
  - exists TypeError. rewrite (from_dict_not_mapping data w Hm).
    split; [reflexivity|]. left. reflexivity.
Qed.

Lemma mapM_from_dict_rejects (records : list pyval) (w : world) :
  forallb has_required_keys records = false ->
  exists e, fst (mapM (from_dict clock) records w) = Raise e /\ record_error e.
Proof.
  revert w. induction records as [|r records IH]; intros w H; [discriminate H|].
  simpl in H. simpl mapM. unfold mbind, M_bind.
  destruct (has_required_keys r) eqn:Hr.
  - destruct (from_dict_complete clock r Hr) as (task & Hrun & _).
    rewrite Hrun. simpl in H.
    destruct (IH (tick w) H) as (e & He & Herr).
    exists e. split; [|exact Herr].
    destruct (mapM (from_dict clock) records (tick w)) as [[ts|e'] w2];
      simpl in He |- *; [discriminate He|exact He].
  - destruct (from_dict_rejects r w Hr) as (e & He & Herr).
    exists e. split; [|exact Herr].
    destruct (from_dict clock r w) as [[t|e'] w1];
      simpl in He |- *; [discriminate He|congruence].
Qed.

Lemma from_dict_raises (data : pyval) (w : world) (e : exn) :
  fst (from_dict clock data w) = Raise e -> record_error e.
Proof.
  intros H. destruct (has_required_keys data) eqn:Hk.
  - destruct (from_dict_complete clock data Hk) as (task & Hrun & _).
    rewrite Hrun in H. discriminate H.
  - destruct (from_dict_rejects data w Hk) as (e' & He' & Herr).
    rewrite He' in H. inversion H; subst e'. exact Herr.
Qed.

Lemma mapM_from_dict_raises (records : list pyval) (w : world) (e : exn) :
  fst (mapM (from_dict clock) records w) = Raise e -> record_error e.
Proof.
  revert w. induction records as [|r records IH]; intros w H; [discriminate H|].
  simpl mapM in H. unfold mbind, M_bind in H.
  destruct (from_dict clock r w) as [[t|e1] w1] eqn:Hr.
  - destruct (mapM (from_dict clock) records w1) as [[ts|e2] w2] eqn:Hrest;
      simpl in H; [discriminate H|].
    inversion H; subst e2. apply (IH w1). rewrite Hrest. reflexivity.
  - simpl in H. inversion H; subst e1.
    apply (from_dict_raises r w). rewrite Hr. reflexivity.
Qed.

Lemma record_error_not_handled (e : exn) :
  record_error e -> is_JSONDecodeError e = false.
Proof. intros [->|(key & _ & ->)]; reflexivity. Qed.

(** X1.  A store whose backing file is synchronized is obtained again, with
    the same sequence, by constructing a store on the same path, when
    [json.load] gives back the document that [json.dump] wrote; nothing is
    printed and no file is changed. *)
Theorem synchronized_store_reloads (self : TodoList) (w : world) :
  synchronized json_encode self w ->
  json_decode (serialized json_encode (tasks self))
  = Some (PList (map to_dict (tasks self))) ->
  exists w',
    TodoList_init clock json_decode json_failure (filename self) w = (Ok self, w') /\
    files w' = files w /\ log w' = log w.
Proof.
  intros Hsync Hdec.
  destruct (mapM_from_dict_to_dict clock (tasks self) w) as (w' & Hrun & Hf & Hl).
  exists w'. split; [|split; assumption].
  unfold TodoList_init.
  rewrite (load_tasks_list clock json_decode json_failure
             {| filename := filename self; tasks := [] |} w _ _ Hsync Hdec).
  rewrite Hrun. destruct self; reflexivity.
Qed.

(** X2.  On a mapping, [from_dict] succeeds when the five keys are there,
    and otherwise raises [KeyError] for the first absent key in the order
    title, description, due_date, created_date, completed; in both cases
    it leaves the files and the log alone. *)
Theorem from_dict_names_first_missing_key (data : pyval) (w : world) :
  is_mapping data = true ->
  files (snd (from_dict clock data w)) = files w /\
  log (snd (from_dict clock data w)) = log w /\
  match first_missing data with
  | Some key => fst (from_dict clock data w) = Raise (KeyError key)
  | None => exists task, fst (from_dict clock data w) = Ok task
  end.
Proof.
  intros Hm. destruct (from_dict_world clock data w) as [Hf Hl].
  split; [exact Hf|]. split; [exact Hl|].
  destruct data as [| | | | |l|items]; try discriminate Hm.
  rewrite from_dict_run. unfold first_missing, required_keys, has_key. simpl.
  destruct (dict_get "title" items); [|reflexivity].
  destruct (dict_get "description" items); [|reflexivity].
  destruct (dict_get "due_date" items); [|reflexivity].
  destruct (dict_get "created_date" items); [|reflexivity].
  destruct (dict_get "completed" items); [|reflexivity].
  simpl. eexists. reflexivity.
Qed.

(** X3.  On a backing file that [json.load] decodes, the construction of a
    store succeeds exactly when the document can be iterated and each of
    its items is a mapping with the five keys; otherwise it raises
    [TypeError] or [KeyError] for one of the five keys.  Either way it
    prints nothing and changes no file. *)
Theorem construction_succeeds_iff_loadable
    (path : string) (w : world) (text : string) (data : pyval) :
  files w !! path = Some text ->
  json_decode text = Some data ->
  exists w',
    files w' = files w /\ log w' = log w /\
    if loadable data
    then exists loaded,
           TodoList_init clock json_decode json_failure path w
           = (Ok {| filename := path; tasks := loaded |}, w') /\
           (forall records, py_iter data = Ok records ->
                            length loaded = length records)
    else exists e,
           TodoList_init clock json_decode json_failure path w = (Raise e, w') /\
           record_error e.
Proof.
  intros Hfile Hdec. unfold TodoList_init.
  rewrite (load_tasks_decoded {| filename := path; tasks := [] |} w text data Hfile Hdec).
  unfold loadable. destruct (py_iter data) as [records|e] eqn:Hiter.
  - pose proof (mapM_from_dict_world clock records w) as [Hf Hl].
    destruct (forallb has_required_keys records) eqn:Hall.
    + assert (Hkeys : Forall (fun r => has_required_keys r = true) records).
      { apply Forall_forall. intros r Hr.
        rewrite forallb_forall in Hall. apply Hall.
        apply list_elem_of_In. exact Hr. }
      destruct (mapM_from_dict_complete clock records w Hkeys)
        as (loaded & w' & Hrun & Hall2).
      rewrite Hrun in Hf, Hl |- *. simpl in Hf, Hl.
      exists w'. split; [exact Hf|]. split; [exact Hl|].
      exists loaded. split; [reflexivity|].
      intros records' Heq. inversion Heq; subst records'.
      symmetry. eapply Forall2_length. exact Hall2.
    + destruct (mapM_from_dict_rejects records w Hall) as (e & He & Herr).
      destruct (mapM (from_dict clock) records w) as [[ts|e'] w'];
        simpl in He; [discriminate He|].
      inversion He; subst e'. simpl in Hf, Hl.
      exists w'. split; [exact Hf|]. split; [exact Hl|].
      exists e. rewrite (record_error_not_handled e Herr).
      split; [reflexivity|exact Herr].
  - exists w. split; [reflexivity|]. split; [reflexivity|].
    assert (He : e = TypeError).
    { destruct data; simpl in Hiter; inversion Hiter; reflexivity. }
    subst e. exists TypeError. split; [reflexivity|]. left. reflexivity.
Qed.


Lemma to_dict_unknown_key (task : Task) (key : string) :
  existsb (String.eqb key) required_keys = false ->
  getitem (to_dict task) key = Raise (KeyError key).
Proof.
  unfold required_keys. cbn [existsb]. intros H.
  repeat (apply orb_false_elim in H; destruct H as [? H]).
  unfold to_dict, getitem. cbn [dict_get].
  rewrite !(String.eqb_sym _ key).
  repeat match goal with Hk : String.eqb key _ = false |- _ => rewrite Hk; clear Hk end.
  reflexivity.
Qed.

(** X4.  [from_dict] keeps the five keys and nothing else: the mapping that
    [to_dict] makes of the deserialized task holds the values of the
    record under the five keys, and has no other key, whatever else the
    record held. *)
Theorem from_dict_drops_unknown_keys (data : pyval) :
  has_required_keys data = true ->
  exists task,
    (forall w, from_dict clock data w = (Ok task, tick w)) /\
    forall key,
      getitem (to_dict task) key =
      if existsb (String.eqb key) required_keys
      then getitem data key
      else Raise (KeyError key).
Proof.
  intros H. destruct (from_dict_complete clock data H) as (task & Hrun & Hkeys).
  exists task. split; [exact Hrun|]. intros key.
  destruct (existsb (String.eqb key) required_keys) eqn:Hk.
  - apply existsb_exists in Hk. destruct Hk as (k & Hin & Heq).
    apply String.eqb_eq in Heq. subst k. symmetry. apply Hkeys. exact Hin.
  - apply to_dict_unknown_key. exact Hk.
Qed.

(** *** Sequences of calls *)

Local Abbreviation serialized := (serialized json_encode).

(** A call either fails and changes nothing, or ends by writing the new
    sequence to the backing file; it never raises. *)
Lemma perform_outcome (self : TodoList) (c : call) (w : world) :
  exists b self' w',
    perform clock json_encode self c w = (Ok (b, self'), w') /\
    filename self' = filename self /\
    ((b = false /\ self' = self /\ w' = w) \/
     (b = true /\ exists w0,
        files w0 = files w /\ log w0 = log w /\
        w' = wrote (filename self) (serialized (tasks self')) w0)).
Proof.
  destruct c as [t d dd|index|index|index t d dd].
  - eexists _, _, _. split.
    + unfold perform, mbind, M_bind. rewrite add_task_run. reflexivity.
    + split; [reflexivity|]. right. split; [reflexivity|].
      exists (tick w). repeat split; reflexivity.
  - destruct (in_range self index) eqn:Hr.
    + apply in_range_spec in Hr.
      eexists _, _, _. split; [apply (complete_task_run json_encode self index w Hr)|].
      split; [reflexivity|]. right. split; [reflexivity|].
      exists w. repeat split; reflexivity.
    + exists false, self, w. unfold perform, complete_task. rewrite Hr.
      split; [reflexivity|]. split; [reflexivity|]. left. repeat split; reflexivity.
  - destruct (in_range self index) eqn:Hr.
    + apply in_range_spec in Hr.
      eexists _, _, _. split; [apply (delete_task_run json_encode self index w Hr)|].
      split; [reflexivity|]. right. split; [reflexivity|].
      exists w. repeat split; reflexivity.
    + exists false, self, w. unfold perform, delete_task. rewrite Hr.
      split; [reflexivity|]. split; [reflexivity|]. left. repeat split; reflexivity.
  - destruct (in_range self index) eqn:Hr.
    + apply in_range_spec in Hr.
      destruct (update_task_run json_encode self index t d dd w Hr) as (task & _ & Hrun).
      eexists _, _, _. split; [exact Hrun|].
      split; [reflexivity|]. right. split; [reflexivity|].
      exists w. repeat split; reflexivity.
    + exists false, self, w. unfold perform, update_task. rewrite Hr.
      split; [reflexivity|]. split; [reflexivity|]. left. repeat split; reflexivity.
Qed.

(** X5.  Whatever calls a client makes on a store whose backing file is
    synchronized, none raises, the path of the store stays the same, and
    the backing file is synchronized with the store at the end. *)
Theorem calls_keep_synchronized (calls : list call) (self : TodoList) (w : world) :
  synchronized json_encode self w ->
  exists self' w',
    perform_all clock json_encode self calls w = (Ok self', w') /\
    filename self' = filename self /\
    synchronized json_encode self' w'.
Proof.
  revert self w. induction calls as [|c calls IH]; intros self w Hsync.
  - exists self, w. split; [reflexivity|]. split; [reflexivity|exact Hsync].
  - destruct (perform_outcome self c w) as (b & self1 & w1 & Hrun & Hname & Hcase).
    assert (Hsync1 : synchronized json_encode self1 w1).
    { destruct Hcase as [(_ & -> & ->)|(_ & w0 & _ & _ & ->)]; [exact Hsync|].
      rewrite <- Hname. apply persisted_wrote. }
    destruct (IH self1 w1 Hsync1) as (self' & w' & Hrest & Hname' & Hsync').
    exists self', w'. split; [|split; [congruence|exact Hsync']].
    simpl. unfold mbind, M_bind. rewrite Hrun. exact Hrest.
Qed.

(** X6.  Whatever calls a client makes on a store, none raises, nothing is
    printed, and no file other than the backing file of the store is
    created or changed: the log grows by writes to the backing file
    only. *)
Theorem calls_touch_only_backing_file
    (calls : list call) (self : TodoList) (w : world) :
  exists self' w' new,
    perform_all clock json_encode self calls w = (Ok self', w') /\
    (forall path, path <> filename self -> files w' !! path = files w !! path) /\
    log w' = (log w ++ new)%list /\
    writes_to (filename self) new.
Proof.
  revert self w. induction calls as [|c calls IH]; intros self w.
  - exists self, w, []. split; [reflexivity|]. split; [reflexivity|].
    split; [symmetry; apply app_nil_r|constructor].
  - destruct (perform_outcome self c w) as (b & self1 & w1 & Hrun & Hname & Hcase).
    destruct (IH self1 w1) as (self' & w' & new & Hrest & Hfiles & Hlog & Hnew).
    rewrite Hname in Hfiles, Hnew.
    assert (Hall : perform_all clock json_encode self (c :: calls) w = (Ok self', w')).
    { simpl. unfold mbind, M_bind. rewrite Hrun. exact Hrest. }
    destruct Hcase as [(_ & _ & ->)|(_ & w0 & Hf0 & Hl0 & ->)].
    + exists self', w', new. repeat split; assumption.
    + exists self', w',
        (Wrote (filename self) (serialized (tasks self1)) :: new).
      split; [exact Hall|]. split; [|split].
      * intros path Hne. rewrite (Hfiles path Hne). unfold wrote. simpl.
        rewrite lookup_insert_ne by congruence. rewrite Hf0. reflexivity.
      * rewrite Hlog. unfold wrote. simpl. rewrite Hl0, <- app_assoc. reflexivity.
      * constructor; [eexists; reflexivity|exact Hnew].
Qed.

(** *** Single calls *)

(** X7.  A successful [complete_task] sets [completed] of the task at
    [index] to [True] and changes nothing else: the other fields of that
    task, the other tasks and the length of the sequence are as
    before. *)
Theorem complete_task_marks_only_index (self : TodoList) (index : Z) (w : world) :
  0 <= index < Z.of_nat (length (tasks self)) ->
  exists task self' w',
    tasks self !! Z.to_nat index = Some task /\
    complete_task json_encode self index w = (Ok (true, self'), w') /\
    tasks self' !! Z.to_nat index
    = Some {| title := title task; description := description task;
              created_date := created_date task; due_date := due_date task;
              completed := PBool true |} /\
    length (tasks self') = length (tasks self) /\
    forall j, j <> Z.to_nat index -> tasks self' !! j = tasks self !! j.
Proof.
  intros H.
  destruct (lookup_lt_is_Some_2 (tasks self) (Z.to_nat index)) as [task Hl]; [lia|].
  exists task. eexists _, _. split; [exact Hl|].
  split; [apply (complete_task_run json_encode self index w H)|].
  simpl. split; [|split].
  - rewrite list_lookup_alter_eq, Hl. reflexivity.
  - apply length_alter.
  - intros j Hj. apply list_lookup_alter_ne. congruence.
Qed.

Lemma set_completed_twice (v : pyval) (task : Task) :
  set_completed v (set_completed v task) = set_completed v task.
Proof. reflexivity. Qed.

(** X8.  Completing a task again is harmless: after a successful
    [complete_task], the same call succeeds again, leaves the sequence as
    it is and writes the same text to the backing file. *)
Theorem complete_task_twice (self : TodoList) (index : Z) (w : world) :
  0 <= index < Z.of_nat (length (tasks self)) ->
  exists self' w',
    complete_task json_encode self index w = (Ok (true, self'), w') /\
    forall w2,
      complete_task json_encode self' index w2
      = (Ok (true, self'), wrote (filename self') (serialized (tasks self')) w2) /\
      files (wrote (filename self') (serialized (tasks self')) w') = files w'.
Proof.
  intros H.
  pose proof (complete_task_run json_encode self index w H) as Hrun1.
  cbv zeta in Hrun1.
  set (self' := set_tasks (alter (set_completed (PBool true)) (Z.to_nat index)
                                 (tasks self)) self) in *.
  exists self', (wrote (filename self) (serialized (tasks self')) w).
  split; [exact Hrun1|]. intros w2.
  assert (H' : 0 <= index < Z.of_nat (length (tasks self'))).
  { unfold self'. simpl. rewrite length_alter. exact H. }
  assert (Hsame : set_tasks (alter (set_completed (PBool true)) (Z.to_nat index)
                                   (tasks self')) self' = self').
  { unfold self', set_tasks. simpl. f_equal.
    rewrite list_alter_alter_eq. apply list_alter_ext; [|reflexivity].
    intros task _. reflexivity. }
  split.
  - pose proof (complete_task_run json_encode self' index w2 H') as Hrun.
    cbv zeta in Hrun. rewrite Hsame in Hrun. exact Hrun.
  - unfold wrote. simpl. apply insert_id. apply lookup_insert_eq.
Qed.

Lemma delete_last {A : Type} (l : list A) (x : A) : delete (length l) (l ++ [x])%list = l.
Proof. rewrite delete_middle. apply app_nil_r. Qed.

(** X9.  [add_task] puts the new task at the end: the task that it returns
    is the one at the former length of the sequence, the tasks before it
    are untouched, and deleting at that index gives back the store as it
    was before the addition. *)
Theorem add_task_appends (self : TodoList) (t d dd : pyval) (w : world) :
  exists task self' w',
    add_task clock json_encode self t d dd w = (Ok (task, self'), w') /\
    title task = t /\ description task = d /\ due_date task = dd /\
    completed task = PBool false /\
    created_date task = PStr (clock (ticks w)) /\
    length (tasks self') = S (length (tasks self)) /\
    tasks self' !! length (tasks self) = Some task /\
    (forall j, (j < length (tasks self))%nat -> tasks self' !! j = tasks self !! j) /\
    fst (delete_task json_encode self' (Z.of_nat (length (tasks self))) w')
    = Ok (true, self).
Proof.
  eexists _, _, _. split; [apply add_task_run|]. simpl.
  repeat split.
  - rewrite length_app. simpl. lia.
  - rewrite lookup_app_r by lia. rewrite Nat.sub_diag. reflexivity.
  - intros j Hj. apply lookup_app_l. exact Hj.
  - match goal with |- context [delete_task _ ?s ?i ?w0] =>
      pose proof (delete_task_run json_encode s i w0) as Hrun end.
    simpl in Hrun. rewrite length_app in Hrun. simpl in Hrun.
    rewrite Hrun by lia. cbn [fst].
    rewrite Nat2Z.id, delete_last.
    destruct self; reflexivity.
Qed.

(** X22.  A successful [delete_task] removes the task at [index] and no
    other: the sequence before the call is the one after it with the
    deleted task put back at [index], the tasks before [index] keep their
    position, and every later task moves down by one. *)
Theorem delete_task_removes_only_index (self : TodoList) (index : Z) (w : world) :
  0 <= index < Z.of_nat (length (tasks self)) ->
  exists task self' w',
    tasks self !! Z.to_nat index = Some task /\
    delete_task json_encode self index w = (Ok (true, self'), w') /\
    tasks self
    = (take (Z.to_nat index) (tasks self')
       ++ task :: drop (Z.to_nat index) (tasks self'))%list /\
    S (length (tasks self')) = length (tasks self) /\
    (forall j, (j < Z.to_nat index)%nat -> tasks self' !! j = tasks self !! j) /\
    (forall j, (Z.to_nat index <= j)%nat -> tasks self' !! j = tasks self !! S j).
Proof.
  intros H.
  destruct (lookup_lt_is_Some_2 (tasks self) (Z.to_nat index)) as [task Hl]; [lia|].
  exists task. eexists _, _. split; [exact Hl|].
  split; [apply (delete_task_run json_encode self index w H)|].
  simpl. rewrite delete_take_drop.
  assert (Hlen : length (take (Z.to_nat index) (tasks self)) = Z.to_nat index).
  { rewrite length_take. lia. }
  split; [|split; [|split]].
  - rewrite take_app_length' by (symmetry; exact Hlen).
    rewrite drop_app_length' by (symmetry; exact Hlen).
    symmetry. apply take_drop_middle. exact Hl.
  - rewrite length_app, length_take, length_drop. lia.
  - intros j Hj. rewrite <- delete_take_drop. apply list_lookup_delete_lt. exact Hj.
  - intros j Hj. rewrite <- delete_take_drop. apply list_lookup_delete_ge. exact Hj.
Qed.

(** *** The types of the fields *)

Lemma well_typed_fields (task : Task) :
  well_typed task =
  is_str (title task) && is_str (description task) && is_str (created_date task)
  && is_str_or_none (due_date task)
  && match completed task with PBool _ => true | _ => false end.
Proof. reflexivity. Qed.

Lemma well_typed_set_completed (b : bool) (task : Task) :
  well_typed task = true -> well_typed (set_completed (PBool b) task) = true.
Proof.
  rewrite !well_typed_fields. simpl.
  rewrite !andb_true_iff. intros [Hrest _]. split; [exact Hrest|reflexivity].
Qed.

Lemma well_typed_updated (t d dd : pyval) (task : Task) :
  is_str_or_none t = true -> is_str_or_none d = true -> is_str_or_none dd = true ->
  well_typed task = true ->
  well_typed
    (let task1 := if truthy t then set_title t task else task in
     let task2 := if truthy d then set_description d task1 else task1 in
     if truthy dd then set_due_date dd task2 else task2) = true.
Proof.
  intros Ht Hd Hdd. rewrite !well_typed_fields.
  destruct t as [| | | |[|c1 s1]| |]; try discriminate Ht;
  destruct d as [| | | |[|c2 s2]| |]; try discriminate Hd;
  destruct dd as [| | | |[|c3 s3]| |]; try discriminate Hdd;
  simpl; rewrite !andb_true_iff; intros [[[[H1 H2] H3] H4] H5];
  repeat split; assumption || reflexivity.
Qed.

(** X10.  The types of the file format are an invariant of the store: when
    every task holds texts for title, description and creation date, a
    text or [None] for the due date and a boolean for [completed], and the
    calls pass texts (or [None] where the interface allows it), every task
    of the store after the calls does so as well. *)
Theorem calls_keep_field_types (calls : list call) (self : TodoList) (w : world) :
  Forall (fun task => well_typed task = true) (tasks self) ->
  Forall (fun c => typed_call c = true) calls ->
  exists self' w',
    perform_all clock json_encode self calls w = (Ok self', w') /\
    Forall (fun task => well_typed task = true) (tasks self').
Proof.
  intros Hwt Hcalls. revert self w Hwt.
  induction Hcalls as [|c calls Hc _ IH]; intros self w Hwt.
  - exists self, w. split; [reflexivity|exact Hwt].
  - assert (Hstep : exists b self1 w1,
              perform clock json_encode self c w = (Ok (b, self1), w1) /\
              Forall (fun task => well_typed task = true) (tasks self1)).
    { destruct c as [t d dd|index|index|index t d dd].
      - eexists _, _, _. split.
        + unfold perform, mbind, M_bind. rewrite add_task_run. reflexivity.
        + simpl. apply Forall_app. split; [exact Hwt|].
          constructor; [|constructor].
          simpl in Hc. rewrite !andb_true_iff in Hc. destruct Hc as [[Ht Hd] Hdd].
          rewrite well_typed_fields. simpl. rewrite Ht, Hd, Hdd. reflexivity.
      - destruct (in_range self index) eqn:Hr.
        + apply in_range_spec in Hr. eexists _, _, _.
          split; [apply (complete_task_run json_encode self index w Hr)|].
          simpl. apply Forall_alter; [exact Hwt|].
          intros task _. apply well_typed_set_completed.
        + exists false, self, w. unfold perform, complete_task. rewrite Hr.
          split; [reflexivity|exact Hwt].
      - destruct (in_range self index) eqn:Hr.
        + apply in_range_spec in Hr. eexists _, _, _.
          split; [apply (delete_task_run json_encode self index w Hr)|].
          simpl. apply Forall_delete. exact Hwt.
        + exists false, self, w. unfold perform, delete_task. rewrite Hr.
          split; [reflexivity|exact Hwt].
      - destruct (in_range self index) eqn:Hr.
        + apply in_range_spec in Hr.
          destruct (update_task_run json_encode self index t d dd w Hr)
            as (task & Hl & Hrun).
          eexists _, _, _. split; [exact Hrun|].
          simpl. apply Forall_insert; [exact Hwt|].
          simpl in Hc. rewrite !andb_true_iff in Hc. destruct Hc as [[Ht Hd] Hdd].
          apply (well_typed_updated t d dd task Ht Hd Hdd).
          apply (Forall_lookup_1 _ _ _ _ Hwt Hl).
        + exists false, self, w. unfold perform, update_task. rewrite Hr.
          split; [reflexivity|exact Hwt]. }
    destruct Hstep as (b & self1 & w1 & Hrun & Hwt1).
    destruct (IH self1 w1 Hwt1) as (self' & w' & Hrest & Hwt').
    exists self', w'. split; [|exact Hwt'].
    simpl. unfold mbind, M_bind. rewrite Hrun. exact Hrest.
Qed.

End StoreProperties.

(** ** Properties of [main] *)

Section MainProperties.

Variable clock : nat -> string.
Variable json_decode : string -> option pyval.
Variable json_failure : string -> exn.
Variable json_encode : pyval -> string.
Variable int_of_str : string -> option Z.
Variable str_of : pyval -> string.

Set Default Proof Using "Type".

(** *** Sessions that follow one another *)

Lemma replay_app (new1 new2 : list event) (fs : gmap string string) :
  replay (new1 ++ new2) fs = replay new2 (replay new1 fs).
Proof.
  revert fs. induction new1 as [|[line|path text] new1 IH]; intros fs; simpl;
    [reflexivity|apply IH|apply IH].
Qed.

Lemma replay_printed (new : list event) (fs : gmap string string) :
  Forall is_printed new -> replay new fs = fs.
Proof.
  intros H. revert fs. induction H as [|e new [line ->] _ IH]; intros fs; simpl;
    [reflexivity|apply IH].
Qed.

Lemma replay_other (path other : string) (new : list event) (fs : gmap string string) :
  Forall (printed_or_wrote path) new -> other <> path ->
  replay new fs !! other = fs !! other.
Proof.
  intros H Hne. revert fs.
  induction H as [|e new [[line ->]|[text ->]] _ IH]; intros fs; simpl.
  - reflexivity.
  - apply IH.
  - rewrite IH. apply lookup_insert_ne. congruence.
Qed.

Lemma follows_refl (ok : event -> Prop) (s : session) : follows ok s s.
Proof.
  split; [exists []; reflexivity|]. split; [exists []; symmetry; apply app_nil_r|].
  exists []. split; [symmetry; apply app_nil_r|]. split; [reflexivity|constructor].
Qed.

Lemma follows_trans (ok : event -> Prop) (s1 s2 s3 : session) :
  follows ok s1 s2 -> follows ok s2 s3 -> follows ok s1 s3.
Proof.
  intros ((u1 & Hu1) & (p1 & Hp1) & n1 & Hl1 & Hf1 & Hok1)
         ((u2 & Hu2) & (p2 & Hp2) & n2 & Hl2 & Hf2 & Hok2).
  split; [|split].
  - exists (u1 ++ u2)%list. rewrite Hu1, Hu2. apply app_assoc.
  - exists (p1 ++ p2)%list. rewrite Hp2, Hp1. symmetry. apply app_assoc.
  - exists (n1 ++ n2)%list. split; [|split].
    + rewrite Hl2, Hl1. symmetry. apply app_assoc.
    + rewrite Hf2, Hf1. symmetry. apply replay_app.
    + apply Forall_app. split; assumption.
Qed.

Lemma follows_weaken (ok ok' : event -> Prop) (s s' : session) :
  (forall e, ok e -> ok' e) -> follows ok s s' -> follows ok' s s'.
Proof.
  intros Himp (Hu & Hp & new & Hl & Hf & Hok).
  split; [exact Hu|]. split; [exact Hp|].
  exists new. split; [exact Hl|]. split; [exact Hf|].
  eapply Forall_impl; [exact Hok|exact Himp].
Qed.

Lemma follows_stdin_length (ok : event -> Prop) (s s' : session) :
  follows ok s s' -> (length (stdin s') <= length (stdin s))%nat.
Proof.
  intros ((used & Hu) & _). rewrite Hu, length_app. lia.
Qed.

(** *** Rules for [ensures] *)

Section Rules.

Variable ok : event -> Prop.

Lemma ensures_ret {A : Type} (allowed : failure -> session -> Prop)
    (a : A) (post : A -> Prop) :
  post a -> ensures ok allowed (mret a) post.
Proof. intros H s. split; [apply follows_refl|exact H]. Qed.

Lemma ensures_bind {A B : Type} (allowed : failure -> session -> Prop)
    (m : IO A) (k : A -> IO B) (mid : A -> Prop) (post : B -> Prop) :
  ensures ok allowed m mid ->
  (forall a, mid a -> ensures ok allowed (k a) post) ->
  ensures ok allowed (m ≫= k) post.
Proof.
  intros Hm Hk s. unfold mbind, IO_bind.
  destruct (Hm s) as [Hf1 Hr1].
  destruct (m s) as [[a|e] s1]; simpl in *.
  - destruct (Hk a Hr1 s1) as [Hf2 Hr2].
    split; [eapply follows_trans; eassumption|exact Hr2].
  - split; assumption.
Qed.

Lemma ensures_weaken {A : Type} (allowed allowed' : failure -> session -> Prop)
    (m : IO A) (post post' : A -> Prop) :
  ensures ok allowed m post ->
  (forall e s, allowed e s -> allowed' e s) ->
  (forall a, post a -> post' a) ->
  ensures ok allowed' m post'.
Proof.
  intros Hm Ha Hp s. destruct (Hm s) as [Hf Hr]. split; [exact Hf|].
  destruct (fst (m s)); [apply Hp|apply Ha]; exact Hr.
Qed.

Lemma ensures_try {A : Type} (body handler : IO A) (post : A -> Prop) :
  ensures ok end_of_input_or_ValueError body post ->
  ensures ok end_of_input handler post ->
  ensures ok end_of_input (try_ValueError body handler) post.
Proof.
  intros Hb Hh s. unfold try_ValueError.
  destruct (Hb s) as [Hf1 Hr1].
  destruct (body s) as [[a|e] s1]; simpl in *; [split; assumption|].
  destruct e as [e| |].
  - destruct Hr1 as [[Habs _]|Habs]; discriminate Habs.
  - destruct Hr1 as [Hend|Habs]; [|discriminate Habs]. split; assumption.
  - destruct (Hh s1) as [Hf2 Hr2].
    split; [eapply follows_trans; eassumption|exact Hr2].
Qed.

Lemma ensures_input (allowed : failure -> session -> Prop) (prompt : string) :
  (forall s, stdin s = [] -> allowed EOFError s) ->
  ensures ok allowed (input prompt) (fun _ => True).
Proof.
  intros Ha s. unfold input. destruct (stdin s) as [|line rest] eqn:Hin; simpl.
  - split; [|apply Ha; exact Hin].
    split; [exists []; reflexivity|]. split; [eexists; reflexivity|].
    exists []. split; [symmetry; apply app_nil_r|]. split; [reflexivity|constructor].
  - split; [|exact I].
    split; [exists [line]; exact Hin|]. split; [eexists; reflexivity|].
    exists []. split; [symmetry; apply app_nil_r|]. split; [reflexivity|constructor].
Qed.

Lemma ensures_int (text : string) :
  ensures ok end_of_input_or_ValueError (int int_of_str text) (fun _ => True).
Proof.
  intros s. unfold int. destruct (int_of_str text); simpl.
  - split; [apply follows_refl|exact I].
  - split; [apply follows_refl|]. right. reflexivity.
Qed.

(** A computation of the two classes that does not raise. *)
Lemma ensures_run_core {A : Type} (allowed : failure -> session -> Prop)
    (m : M A) (post : A -> Prop) :
  (forall w, exists a new,
     fst (m w) = Ok a /\ post a /\
     log (snd (m w)) = (log w ++ new)%list /\
     files (snd (m w)) = replay new (files w) /\
     Forall ok new) ->
  ensures ok allowed (run_core m) post.
Proof.
  intros H s. unfold run_core.
  destruct (H (state s)) as (a & new & Hr & Hp & Hl & Hf & Hok).
  destruct (m (state s)) as [[a'|e] w']; simpl in *; [|discriminate Hr].
  inversion Hr; subst a'. split; [|exact Hp].
  split; [exists []; reflexivity|]. split; [exists []; symmetry; apply app_nil_r|].
  exists new. repeat split; assumption.
Qed.

Lemma ensures_say (allowed : failure -> session -> Prop) (line : string) :
  ok (Printed line) -> ensures ok allowed (say line) (fun _ => True).
Proof.
  intros Hok. apply ensures_run_core. intros w.
  exists tt, [Printed line]. repeat split; try reflexivity.
  constructor; [exact Hok|constructor].
Qed.

End Rules.

(** *** Running the turns *)

Lemma said_nil (s : session) : said [] s = s.
Proof.
  destruct s as [lines ps [fs tk lg]]. unfold said. simpl.
  rewrite app_nil_r. reflexivity.
Qed.

Lemma said_said (lines1 lines2 : list string) (s : session) :
  said lines2 (said lines1 s) = said (lines1 ++ lines2) s.
Proof. unfold said. simpl. rewrite map_app, app_assoc. reflexivity. Qed.

Lemma say_run (line : string) (s : session) :
  say line s = (Returned tt, said [line] s).
Proof. reflexivity. Qed.

Lemma io_bind_returned {A B : Type} (m : IO A) (k : A -> IO B)
    (s s1 : session) (a : A) :
  m s = (Returned a, s1) -> (m ≫= k) s = k a s1.
Proof. intros H. unfold mbind, IO_bind. rewrite H. reflexivity. Qed.

Lemma io_bind_failed {A B : Type} (m : IO A) (k : A -> IO B)
    (s s1 : session) (e : failure) :
  m s = (Failed e, s1) -> (m ≫= k) s = (Failed e, s1).
Proof. intros H. unfold mbind, IO_bind. rewrite H. reflexivity. Qed.

Lemma say_then_run {A : Type} (line : string) (k : IO A) (s : session) :
  (say line;; k) s = k (said [line] s).
Proof. reflexivity. Qed.

Lemma print_menu_run (s : session) :
  print_menu s = (Returned tt, said menu_lines s).
Proof.
  unfold print_menu. rewrite !say_then_run, say_run, !said_said. reflexivity.
Qed.

Lemma show_from_run (i : nat) (ts : list Task) (s : session) :
  show_from str_of i ts s = (Returned tt, said (task_lines str_of i ts) s).
Proof.
  revert i s. induction ts as [|task ts IH]; intros i s; simpl.
  - rewrite said_nil. reflexivity.
  - rewrite say_then_run, IH, said_said. reflexivity.
Qed.

Lemma say_all_run (lines : list string) (s : session) :
  say_all lines s = (Returned tt, said lines s).
Proof.
  revert s. induction lines as [|line lines IH]; intros s; simpl.
  - rewrite said_nil. reflexivity.
  - rewrite say_then_run, IH, said_said. reflexivity.
Qed.

Lemma input_run (prompt line : string) (rest : list string) (s : session) :
  stdin s = line :: rest -> input prompt s = (Returned line, answered prompt s).
Proof. intros H. unfold input, answered. rewrite H. reflexivity. Qed.

Lemma input_end (prompt : string) (s : session) :
  stdin s = [] -> input prompt s = (Failed EOFError, prompted prompt s).
Proof. intros H. unfold input. rewrite H. reflexivity. Qed.

(** A turn prints the menu and reads the choice, which the branches work
    on. *)
Lemma menu_turn_run (todo_list : TodoList) (choice : string) (rest : list string)
    (s : session) :
  stdin s = choice :: rest ->
  menu_turn clock json_encode int_of_str str_of todo_list s
  = dispatch clock json_encode int_of_str str_of choice todo_list (after_menu s).
Proof.
  intros H. unfold menu_turn.
  rewrite (io_bind_returned _ _ _ _ _ (print_menu_run s)).
  rewrite (io_bind_returned _ _ _ _ _
             (input_run menu_prompt choice rest (said menu_lines s) H)).
  reflexivity.
Qed.

Lemma menu_turn_end (todo_list : TodoList) (s : session) :
  stdin s = [] ->
  menu_turn clock json_encode int_of_str str_of todo_list s
  = (Failed EOFError, prompted menu_prompt (said menu_lines s)).
Proof.
  intros H. unfold menu_turn.
  rewrite (io_bind_returned _ _ _ _ _ (print_menu_run s)).
  rewrite (io_bind_failed _ _ _ _ _ (input_end menu_prompt (said menu_lines s) H)).
  reflexivity.
Qed.

(** *** What the two classes do for [main] *)

Lemma wrote_follows (path text : string) (w0 w : world) :
  files w0 = files w -> log w0 = log w ->
  log (wrote path text w0) = (log w ++ [Wrote path text])%list /\
  files (wrote path text w0) = replay [Wrote path text] (files w).
Proof. intros Hf Hl. unfold wrote. simpl. rewrite Hf, Hl. split; reflexivity. Qed.

(** A call of a mutating method returns, keeps the path of the store, and
    writes at most the backing file. *)
Lemma perform_follows (clock0 : nat -> string) (self : TodoList) (c : call) (w : world) :
  exists r new,
    fst (perform clock0 json_encode self c w) = Ok r /\
    filename (snd r) = filename self /\
    log (snd (perform clock0 json_encode self c w)) = (log w ++ new)%list /\
    files (snd (perform clock0 json_encode self c w)) = replay new (files w) /\
    Forall (printed_or_wrote (filename self)) new.
Proof.
  destruct (perform_outcome clock0 json_encode self c w)
    as (b & self' & w' & Hrun & Hname & Hcase).
  rewrite Hrun. simpl.
  destruct Hcase as [(_ & _ & ->)|(_ & w0 & Hf0 & Hl0 & ->)].
  - exists (b, self'), []. split; [reflexivity|]. split; [exact Hname|].
    split; [symmetry; apply app_nil_r|]. split; [reflexivity|constructor].
  - destruct (wrote_follows (filename self) (serialized json_encode (tasks self')) w0 w Hf0 Hl0)
      as [Hl Hf].
    exists (b, self'), [Wrote (filename self) (serialized json_encode (tasks self'))].
    split; [reflexivity|]. split; [exact Hname|]. split; [exact Hl|]. split; [exact Hf|].
    constructor; [|constructor]. right. eexists. reflexivity.
Qed.

Lemma add_task_follows (self : TodoList) (t d dd : pyval) (w : world) :
  exists r new,
    fst (add_task clock json_encode self t d dd w) = Ok r /\
    filename (snd r) = filename self /\
    log (snd (add_task clock json_encode self t d dd w)) = (log w ++ new)%list /\
    files (snd (add_task clock json_encode self t d dd w)) = replay new (files w) /\
    Forall (printed_or_wrote (filename self)) new.
Proof.
  rewrite add_task_run. simpl.
  eexists (_, _), [Wrote (filename self) _].
  split; [reflexivity|]. split; [reflexivity|]. split; [reflexivity|].
  split; [reflexivity|]. constructor; [|constructor]. right. eexists. reflexivity.
Qed.

(** The construction of a store prints at most the message of the
    fallback and changes no file.  It raises at most the [TypeError] or
    [KeyError] of a record, or what reading the file raises when that is
    not [json.JSONDecodeError]. *)
Lemma construction_follows (path : string) (w : world) :
  exists new,
    log (snd (TodoList_init clock json_decode json_failure path w))
    = (log w ++ new)%list /\
    files (snd (TodoList_init clock json_decode json_failure path w)) = files w /\
    Forall is_printed new /\
    match fst (TodoList_init clock json_decode json_failure path w) with
    | Ok self => filename self = path
    | Raise e =>
        (record_error e \/
         exists text, files w !! path = Some text /\ json_decode text = None /\
                      e = json_failure text /\ e <> JSONDecodeError) /\
        new = []
    end.
Proof.
  unfold TodoList_init.
  destruct (files w !! path) as [text|] eqn:Hfile.
  - destruct (json_decode text) as [data|] eqn:Hdec.
    + rewrite (load_tasks_decoded clock json_decode json_failure
                 {| filename := path; tasks := [] |} w text data Hfile Hdec).
      exists []. rewrite app_nil_r.
      destruct (py_iter data) as [records|e] eqn:Hiter.
      * pose proof (mapM_from_dict_world clock records w) as [Hf Hl].
        pose proof (mapM_from_dict_raises clock records w) as Hraise.
        destruct (mapM (from_dict clock) records w) as [[loaded|e] w'];
          simpl in Hf, Hl, Hraise.
        -- simpl. split; [exact Hl|]. split; [exact Hf|].
           split; [constructor|reflexivity].
        -- rewrite (record_error_not_handled e (Hraise e eq_refl)). simpl.
           split; [exact Hl|]. split; [exact Hf|]. split; [constructor|].
           split; [left; exact (Hraise e eq_refl)|reflexivity].
      * assert (He : e = TypeError).
        { destruct data; simpl in Hiter; inversion Hiter; reflexivity. }
        subst e. simpl. split; [reflexivity|]. split; [reflexivity|].
        split; [constructor|]. split; [left; left; reflexivity|reflexivity].
    + rewrite (load_tasks_undecoded clock json_decode json_failure
                 {| filename := path; tasks := [] |} w text Hfile Hdec).
      destruct (is_JSONDecodeError (json_failure text)) eqn:He.
      * exists [Printed "Error reading file. Starting with empty task list."].
        simpl. split; [reflexivity|]. split; [reflexivity|].
        split; [|reflexivity]. constructor; [eexists; reflexivity|constructor].
      * exists []. simpl. split; [symmetry; apply app_nil_r|].
        split; [reflexivity|]. split; [constructor|].
        split; [|reflexivity]. right. exists text.
        split; [reflexivity|]. split; [exact Hdec|]. split; [reflexivity|].
        intros Heq. apply is_JSONDecodeError_spec in Heq. congruence.
  - exists [].
    unfold load_tasks, os_path_exists.
    unfold mbind, mret, M_bind, M_ret. simpl. rewrite Hfile. simpl.
    split; [symmetry; apply app_nil_r|]. split; [reflexivity|].
    split; [constructor|reflexivity].
Qed.

Lemma ensures_more {A : Type} (ok ok' : event -> Prop)
    (allowed : failure -> session -> Prop) (m : IO A) (post : A -> Prop) :
  (forall e, ok e -> ok' e) ->
  ensures ok allowed m post -> ensures ok' allowed m post.
Proof.
  intros Himp Hm s. destruct (Hm s) as [Hf Hr].
  split; [eapply follows_weaken; eassumption|exact Hr].
Qed.

(** *** What only prints *)

Lemma read_say (allowed : failure -> session -> Prop) (line : string) :
  ensures is_printed allowed (say line) (fun _ => True).
Proof. apply ensures_say. eexists. reflexivity. Qed.

Lemma read_say_then {A : Type} (allowed : failure -> session -> Prop)
    (line : string) (a : A) (post : A -> Prop) :
  post a -> ensures is_printed allowed (say line;; mret a) post.
Proof.
  intros H. eapply ensures_bind; [apply read_say|].
  intros _ _. apply ensures_ret. exact H.
Qed.

Lemma read_show_from (allowed : failure -> session -> Prop) (i : nat) (ts : list Task) :
  ensures is_printed allowed (show_from str_of i ts) (fun _ => True).
Proof.
  revert i. induction ts as [|task ts IH]; intros i; simpl.
  - apply ensures_ret. exact I.
  - eapply ensures_bind; [apply read_say|]. intros _ _. apply IH.
Qed.

Lemma read_say_all (allowed : failure -> session -> Prop) (lines : list string) :
  ensures is_printed allowed (say_all lines) (fun _ => True).
Proof.
  induction lines as [|line lines IH]; simpl.
  - apply ensures_ret. exact I.
  - eapply ensures_bind; [apply read_say|]. intros _ _. exact IH.
Qed.

Lemma read_get_tasks (allowed : failure -> session -> Prop) (todo_list : TodoList) :
  ensures is_printed allowed (run_core (get_tasks todo_list (PBool true)))
          (fun ts => ts = tasks todo_list).
Proof.
  apply ensures_run_core. intros w. exists (tasks todo_list), [].
  split; [reflexivity|]. split; [reflexivity|].
  split; [symmetry; apply app_nil_r|]. split; [reflexivity|constructor].
Qed.

(** Under the guard of the detail view, the indexing does not raise. *)
Lemma read_list_getitem (allowed : failure -> session -> Prop)
    (ts : list Task) (index : Z) :
  (0 <=? index) && (index <? Z.of_nat (length ts)) = true ->
  ensures is_printed allowed (run_core (lift (list_getitem ts index))) (fun _ => True).
Proof.
  intros Hguard. apply andb_true_iff in Hguard. destruct Hguard as [H0 H1].
  apply Z.leb_le in H0. apply Z.ltb_lt in H1.
  destruct (list_getitem_in_range ts index (conj H0 H1)) as (task & _ & Hget).
  apply ensures_run_core. intros w. exists task, []. unfold lift. simpl.
  split; [exact Hget|]. split; [exact I|].
  split; [symmetry; apply app_nil_r|]. split; [reflexivity|constructor].
Qed.

Lemma read_print_menu (allowed : failure -> session -> Prop) :
  ensures is_printed allowed print_menu (fun _ => True).
Proof.
  unfold print_menu.
  repeat (eapply ensures_bind; [apply read_say|]; intros _ _).
  apply read_say.
Qed.

Lemma read_choice_list (todo_list : TodoList) :
  ensures is_printed end_of_input (choice_list str_of todo_list)
          (fun r => r = (true, todo_list)).
Proof.
  unfold choice_list.
  eapply ensures_bind; [apply read_get_tasks|]. intros ts _.
  eapply ensures_bind with (mid := fun _ => True).
  - destruct (no_tasks ts); [apply read_say|].
    eapply ensures_bind; [apply read_say|]. intros _ _. apply read_show_from.
  - intros _ _. apply ensures_ret. reflexivity.
Qed.

Lemma read_choice_view (todo_list : TodoList) :
  ensures is_printed end_of_input (choice_view int_of_str str_of todo_list)
          (fun r => r = (true, todo_list)).
Proof.
  unfold choice_view.
  eapply ensures_bind; [apply read_get_tasks|]. intros ts _.
  destruct (no_tasks ts).
  { apply read_say_then. reflexivity. }
  eapply ensures_bind; [apply read_show_from|]. intros _ _.
  apply ensures_try.
  - eapply ensures_bind.
    { apply ensures_input. intros s H. left. split; [reflexivity|exact H]. }
    intros text _.
    eapply ensures_bind; [apply ensures_int|]. intros n _.
    eapply ensures_bind with (mid := fun _ => True).
    + destruct ((0 <=? n - 1) && (n - 1 <? Z.of_nat (length ts))) eqn:Hguard.
      * eapply ensures_bind; [apply read_list_getitem; exact Hguard|].
        intros task _. apply read_say_all.
      * apply read_say.
    + intros _ _. apply ensures_ret. reflexivity.
  - apply read_say_then. reflexivity.
Qed.

(** *** What each branch of the loop may do *)

Section Branches.

(** The path of the store of [main]. *)
Variable path : string.

Local Abbreviation ok := (printed_or_wrote path).

Local Abbreviation goes_on :=
  (fun r : bool * TodoList => fst r = true /\ filename (snd r) = path).

Lemma ok_printed (line : string) : ok (Printed line).
Proof. left. eexists. reflexivity. Qed.

Lemma end_of_input_at_end (s : session) : stdin s = [] -> end_of_input EOFError s.
Proof. intros H. split; [reflexivity|exact H]. Qed.

Lemma end_of_input_or_ValueError_at_end (s : session) :
  stdin s = [] -> end_of_input_or_ValueError EOFError s.
Proof. intros H. left. apply end_of_input_at_end. exact H. Qed.

Lemma printed_is_ok (e : event) : is_printed e -> ok e.
Proof. intros H. left. exact H. Qed.

Lemma spec_say (allowed : failure -> session -> Prop) (line : string) :
  ensures ok allowed (say line) (fun _ => True).
Proof. apply ensures_say. apply ok_printed. Qed.

Lemma spec_say_then {A : Type} (allowed : failure -> session -> Prop)
    (line : string) (a : A) (post : A -> Prop) :
  post a -> ensures ok allowed (say line;; mret a) post.
Proof.
  intros H. eapply ensures_bind; [apply spec_say|].
  intros _ _. apply ensures_ret. exact H.
Qed.

Lemma spec_show_from (allowed : failure -> session -> Prop) (i : nat) (ts : list Task) :
  ensures ok allowed (show_from str_of i ts) (fun _ => True).
Proof. eapply ensures_more; [exact printed_is_ok|apply read_show_from]. Qed.

Lemma spec_get_tasks (allowed : failure -> session -> Prop) (todo_list : TodoList) :
  ensures ok allowed (run_core (get_tasks todo_list (PBool true)))
          (fun ts => ts = tasks todo_list).
Proof. eapply ensures_more; [exact printed_is_ok|apply read_get_tasks]. Qed.

Lemma spec_perform (allowed : failure -> session -> Prop)
    (clock0 : nat -> string) (todo_list : TodoList) (c : call) :
  filename todo_list = path ->
  ensures ok allowed (run_core (perform clock0 json_encode todo_list c))
          (fun r => filename (snd r) = path).
Proof.
  intros Hname. apply ensures_run_core. intros w.
  destruct (perform_follows clock0 todo_list c w) as (r & new & Hr & Hn & Hl & Hf & Hok).
  exists r, new. rewrite Hname in Hn, Hok. repeat split; assumption.
Qed.

Lemma spec_add_task (allowed : failure -> session -> Prop)
    (todo_list : TodoList) (t d dd : pyval) :
  filename todo_list = path ->
  ensures ok allowed (run_core (add_task clock json_encode todo_list t d dd))
          (fun r => filename (snd r) = path).
Proof.
  intros Hname. apply ensures_run_core. intros w.
  destruct (add_task_follows todo_list t d dd w) as (r & new & Hr & Hn & Hl & Hf & Hok).
  exists r, new. rewrite Hname in Hn, Hok. repeat split; assumption.
Qed.

Lemma spec_choice_add (todo_list : TodoList) :
  filename todo_list = path ->
  ensures ok end_of_input (choice_add clock json_encode todo_list) goes_on.
Proof.
  intros Hname. unfold choice_add.
  eapply ensures_bind; [apply ensures_input, end_of_input_at_end|]. intros t _.
  eapply ensures_bind; [apply ensures_input, end_of_input_at_end|]. intros d _.
  eapply ensures_bind; [apply ensures_input, end_of_input_at_end|]. intros dd _.
  eapply ensures_bind; [apply spec_add_task; exact Hname|].
  intros [task todo_list'] Hn. simpl in Hn.
  apply spec_say_then. split; [reflexivity|exact Hn].
Qed.

Lemma spec_choice_list (todo_list : TodoList) :
  filename todo_list = path ->
  ensures ok end_of_input (choice_list str_of todo_list) goes_on.
Proof.
  intros Hname. eapply ensures_more; [exact printed_is_ok|].
  eapply ensures_weaken; [apply read_choice_list|intros e s H; exact H|].
  intros r ->. split; [reflexivity|exact Hname].
Qed.

(** The branches that ask for the number of a task and call a method
    with the index. *)
Ltac numbered_branch Hname c :=
  eapply ensures_bind; [apply spec_get_tasks|]; intros ts _;
  destruct (no_tasks ts);
  [ apply spec_say_then; split; [reflexivity|exact Hname] |];
  eapply ensures_bind; [apply spec_show_from|]; intros _ _;
  apply ensures_try;
  [ eapply ensures_bind; [apply ensures_input, end_of_input_or_ValueError_at_end|];
    intros text _;
    eapply ensures_bind; [apply ensures_int|]; intros n _;
    eapply ensures_bind;
      [apply (spec_perform _ (fun _ => EmptyString) _ (c (n - 1))); exact Hname|];
    intros [b todo_list'] Hn; simpl in Hn;
    eapply ensures_bind with (mid := fun _ => True);
      [ destruct b; apply spec_say
      | intros _ _; apply ensures_ret; split; [reflexivity|exact Hn] ]
  | apply spec_say_then; split; [reflexivity|exact Hname] ].

Lemma spec_choice_complete (todo_list : TodoList) :
  filename todo_list = path ->
  ensures ok end_of_input
          (choice_complete json_encode int_of_str str_of todo_list) goes_on.
Proof. intros Hname. unfold choice_complete. numbered_branch Hname Complete. Qed.

Lemma spec_choice_delete (todo_list : TodoList) :
  filename todo_list = path ->
  ensures ok end_of_input
          (choice_delete json_encode int_of_str str_of todo_list) goes_on.
Proof. intros Hname. unfold choice_delete. numbered_branch Hname Delete. Qed.

Lemma spec_choice_update (todo_list : TodoList) :
  filename todo_list = path ->
  ensures ok end_of_input
          (choice_update json_encode int_of_str str_of todo_list) goes_on.
Proof.
  intros Hname. unfold choice_update.
  eapply ensures_bind; [apply spec_get_tasks|]. intros ts _.
  destruct (no_tasks ts).
  { apply spec_say_then. split; [reflexivity|exact Hname]. }
  eapply ensures_bind; [apply spec_show_from|]. intros _ _.
  apply ensures_try.
  - eapply ensures_bind; [apply ensures_input, end_of_input_or_ValueError_at_end|].
    intros text _.
    eapply ensures_bind; [apply ensures_int|]. intros n _.
    eapply ensures_bind; [apply ensures_input, end_of_input_or_ValueError_at_end|].
    intros t _.
    eapply ensures_bind; [apply ensures_input, end_of_input_or_ValueError_at_end|].
    intros d _.
    eapply ensures_bind; [apply ensures_input, end_of_input_or_ValueError_at_end|].
    intros dd _.
    eapply ensures_bind.
    { apply (spec_perform _ (fun _ => EmptyString) _
               (Update (n - 1) (text_or_none t) (text_or_none d) (text_or_none dd))).
      exact Hname. }
    intros [b todo_list'] Hn. simpl in Hn.
    eapply ensures_bind with (mid := fun _ => True).
    + destruct b; apply spec_say.
    + intros _ _. apply ensures_ret. split; [reflexivity|exact Hn].
  - apply spec_say_then. split; [reflexivity|exact Hname].
Qed.

Lemma spec_choice_view (todo_list : TodoList) :
  filename todo_list = path ->
  ensures ok end_of_input (choice_view int_of_str str_of todo_list) goes_on.
Proof.
  intros Hname. eapply ensures_more; [exact printed_is_ok|].
  eapply ensures_weaken; [apply read_choice_view|intros e s H; exact H|].
  intros r ->. split; [reflexivity|exact Hname].
Qed.

(** A branch keeps the path of the store, and the loop goes on after it
    unless the choice was 7. *)
Lemma spec_dispatch (choice : string) (todo_list : TodoList) :
  filename todo_list = path ->
  ensures ok end_of_input
          (dispatch clock json_encode int_of_str str_of choice todo_list)
          (fun r => filename (snd r) = path /\ (fst r = false -> choice = "7")).
Proof.
  intros Hname. unfold dispatch.
  assert (Hgo : forall m : IO (bool * TodoList),
            ensures ok end_of_input m goes_on ->
            ensures ok end_of_input m
              (fun r => filename (snd r) = path /\ (fst r = false -> choice = "7"))).
  { intros m Hm. eapply ensures_weaken; [exact Hm|intros e s H; exact H|].
    intros r [Hr Hn]. split; [exact Hn|]. intros Hf. congruence. }
  destruct (String.eqb choice "1"); [apply Hgo, spec_choice_add; exact Hname|].
  destruct (String.eqb choice "2"); [apply Hgo, spec_choice_list; exact Hname|].
  destruct (String.eqb choice "3"); [apply Hgo, spec_choice_complete; exact Hname|].
  destruct (String.eqb choice "4"); [apply Hgo, spec_choice_delete; exact Hname|].
  destruct (String.eqb choice "5"); [apply Hgo, spec_choice_update; exact Hname|].
  destruct (String.eqb choice "6"); [apply Hgo, spec_choice_view; exact Hname|].
  destruct (String.eqb choice "7") eqn:H7.
  - apply String.eqb_eq in H7. apply spec_say_then.
    split; [exact Hname|]. intros _. exact H7.
  - apply Hgo. apply spec_say_then. split; [reflexivity|exact Hname].
Qed.

Lemma spec_print_menu (allowed : failure -> session -> Prop) :
  ensures ok allowed print_menu (fun _ => True).
Proof. eapply ensures_more; [exact printed_is_ok|apply read_print_menu]. Qed.

Lemma spec_menu_turn (todo_list : TodoList) :
  filename todo_list = path ->
  ensures ok end_of_input
          (menu_turn clock json_encode int_of_str str_of todo_list)
          (fun r => filename (snd r) = path).
Proof.
  intros Hname. unfold menu_turn.
  eapply ensures_bind; [apply spec_print_menu|]. intros _ _.
  eapply ensures_bind; [apply ensures_input, end_of_input_at_end|]. intros choice _.
  eapply ensures_weaken; [apply spec_dispatch; exact Hname|intros e s H; exact H|].
  intros r [Hn _]. exact Hn.
Qed.

End Branches.

(** *** The loop *)

Lemma menu_turn_consumes (todo_list : TodoList) (s s' : session)
    (r : bool * TodoList) :
  menu_turn clock json_encode int_of_str str_of todo_list s = (Returned r, s') ->
  (length (stdin s') < length (stdin s))%nat.
Proof.
  intros Hrun. destruct (stdin s) as [|choice rest] eqn:Hin.
  - rewrite (menu_turn_end todo_list s Hin) in Hrun. discriminate Hrun.
  - rewrite (menu_turn_run todo_list choice rest s Hin) in Hrun.
    destruct (spec_dispatch (filename todo_list) choice todo_list eq_refl
                (after_menu s)) as [Hf _].
    rewrite Hrun in Hf. simpl in Hf.
    apply follows_stdin_length in Hf. simpl in Hf. rewrite Hin in Hf.
    simpl in *. lia.
Qed.

Lemma menu_turn_break (todo_list todo_list' : TodoList) (s s' : session) :
  menu_turn clock json_encode int_of_str str_of todo_list s
  = (Returned (false, todo_list'), s') ->
  last_printed "Goodbye!" s'.
Proof.
  intros Hrun. destruct (stdin s) as [|choice rest] eqn:Hin.
  - rewrite (menu_turn_end todo_list s Hin) in Hrun. discriminate Hrun.
  - rewrite (menu_turn_run todo_list choice rest s Hin) in Hrun.
    destruct (spec_dispatch (filename todo_list) choice todo_list eq_refl
                (after_menu s)) as [_ Hpost].
    rewrite Hrun in Hpost. simpl in Hpost. destruct Hpost as [_ H7].
    specialize (H7 eq_refl). subst choice.
    unfold dispatch in Hrun. simpl in Hrun. rewrite say_then_run in Hrun.
    inversion Hrun. eexists. reflexivity.
Qed.

(** With more turns than lines to read, the loop ends: by [break] after
    the choice 7, or by the [EOFError] of an [input] at the end of the
    input. *)
Lemma main_loop_ends (fuel : nat) (todo_list : TodoList) (s : session) :
  (length (stdin s) < fuel)%nat ->
  exists o s',
    main_loop clock json_encode int_of_str str_of fuel todo_list s = Some (o, s') /\
    follows (printed_or_wrote (filename todo_list)) s s' /\
    ((o = Returned tt /\ last_printed "Goodbye!" s') \/
     (o = Failed EOFError /\ stdin s' = [])).
Proof.
  revert todo_list s. induction fuel as [|fuel IH]; intros todo_list s Hfuel; [lia|].
  simpl.
  destruct (spec_menu_turn (filename todo_list) todo_list eq_refl s) as [Hf Hpost].
  destruct (menu_turn clock json_encode int_of_str str_of todo_list s)
    as [[[[|] todo_list']|e] s1] eqn:Hrun; simpl in Hf, Hpost.
  - pose proof (menu_turn_consumes todo_list s s1 _ Hrun) as Hlt.
    destruct (IH todo_list' s1) as (o & s' & Hloop & Hf' & Hcase); [lia|].
    rewrite Hpost in Hf'.
    exists o, s'. split; [exact Hloop|].
    split; [eapply follows_trans; eassumption|exact Hcase].
  - exists (Returned tt), s1. split; [reflexivity|]. split; [exact Hf|].
    left. split; [reflexivity|]. eapply menu_turn_break. exact Hrun.
  - exists (Failed e), s1. split; [reflexivity|]. split; [exact Hf|].
    right. destruct Hpost as [-> Hend]. split; [reflexivity|exact Hend].
Qed.

Lemma main_loop_more (fuel fuel' : nat) (todo_list : TodoList) (s : session)
    (r : outcome unit * session) :
  main_loop clock json_encode int_of_str str_of fuel todo_list s = Some r ->
  (fuel <= fuel')%nat ->
  main_loop clock json_encode int_of_str str_of fuel' todo_list s = Some r.
Proof.
  revert fuel' todo_list s.
  induction fuel as [|fuel IH]; intros fuel' todo_list s Hrun Hle; [discriminate Hrun|].
  destruct fuel' as [|fuel']; [lia|]. simpl in *.
  destruct (menu_turn clock json_encode int_of_str str_of todo_list s)
    as [[[[|] todo_list']|e] s1]; [|exact Hrun|exact Hrun].
  apply IH; [exact Hrun|lia].
Qed.


(** X12.  Whatever the user types, [main] creates and changes no file
    other than todo.json: every event that it adds to the log is a
    printed line or a write to todo.json, and the files at its end are
    those at its start after these writes. *)
Theorem main_touches_only_todo_json (s : session) :
  exists o s',
    main clock json_decode json_failure json_encode int_of_str str_of s = Some (o, s') /\
    follows (printed_or_wrote "todo.json") s s' /\
    forall other, other <> "todo.json" ->
                  files (state s') !! other = files (state s) !! other.
Proof.
  assert (Hmain : exists o s',
            main clock json_decode json_failure json_encode int_of_str str_of s = Some (o, s') /\
            follows (printed_or_wrote "todo.json") s s').
  { unfold main, run_core.
    destruct (construction_follows "todo.json" (state s)) as (new & Hl & Hf & Hp & Hcase).
    assert (Hload : forall w', log w' = (log (state s) ++ new)%list ->
              files w' = files (state s) ->
              follows (printed_or_wrote "todo.json") s
                {| stdin := stdin s; prompts := prompts s; state := w' |}).
    { intros w' Hl' Hf'. split; [exists []; reflexivity|].
      split; [exists []; symmetry; apply app_nil_r|].
      exists new. split; [exact Hl'|]. split.
      - simpl. rewrite Hf'. symmetry. apply replay_printed. exact Hp.
      - eapply Forall_impl; [exact Hp|]. intros e He. left. exact He. }
    destruct (TodoList_init clock json_decode json_failure "todo.json" (state s))
      as [[todo_list|e] w'] eqn:Hinit; simpl in *.
    - destruct (main_loop_ends (S (length (stdin s))) todo_list
                  {| stdin := stdin s; prompts := prompts s; state := w' |})
        as (o & s' & Hloop & Hfollows & _); [simpl; lia|].
      rewrite Hcase in Hfollows.
      exists o, s'. split; [exact Hloop|].
      exact (follows_trans _ _ _ _ (Hload w' Hl Hf) Hfollows).
    - eexists _, _. split; [reflexivity|]. exact (Hload w' Hl Hf). }
  destruct Hmain as (o & s' & Hrun & Hfollows).
  exists o, s'. split; [exact Hrun|]. split; [exact Hfollows|].
  intros other Hne. destruct Hfollows as (_ & _ & new & _ & Hf & Hok).
  rewrite Hf. apply (replay_other "todo.json"); assumption.
Qed.

(** X13.  The loop takes at most one turn for each line of the input and
    one more: with any larger bound on the number of turns it ends in the
    same way, and it never stops for want of turns. *)
Theorem main_loop_bound_suffices (fuel : nat) (todo_list : TodoList) (s : session) :
  (length (stdin s) < fuel)%nat ->
  main_loop clock json_encode int_of_str str_of fuel todo_list s
  = main_loop clock json_encode int_of_str str_of (S (length (stdin s))) todo_list s /\
  main_loop clock json_encode int_of_str str_of fuel todo_list s <> None.
Proof.
  intros Hfuel.
  destruct (main_loop_ends (S (length (stdin s))) todo_list s)
    as (o & s' & Hloop & _); [lia|].
  rewrite Hloop.
  rewrite (main_loop_more (S (length (stdin s))) fuel todo_list s _ Hloop) by lia.
  split; [reflexivity|discriminate].
Qed.

(** *** Single turns *)

Lemma no_tasks_false (ts : list Task) : ts <> [] -> no_tasks ts = false.
Proof. destruct ts; [contradiction|reflexivity]. Qed.

Lemma choice_complete_run (todo_list : TodoList) (text : string)
    (rest : list string) (n : Z) (s : session) :
  tasks todo_list <> [] ->
  stdin s = text :: rest ->
  int_of_str text = Some n ->
  choice_complete json_encode int_of_str str_of todo_list s =
  let s1 := answered "Enter task number to complete: "
              (said (task_lines str_of 0 (tasks todo_list)) s) in
  match complete_task json_encode todo_list (n - 1) (state s1) with
  | (Ok (b, todo_list'), w') =>
      (Returned (true, todo_list'),
       said [if b then "Task marked as completed!" else "Invalid task number."]
            (with_state w' s1))
  | (Raise e, w') => (Failed (Core e), with_state w' s1)
  end.
Proof.
  intros Hne Hin Hint. destruct s as [lines ps w]. simpl in Hin. subst lines.
  unfold choice_complete.
  unfold mbind at 1. unfold IO_bind at 1. unfold run_core at 1. unfold get_tasks. simpl.
  rewrite (no_tasks_false _ Hne).
  unfold show_tasks. rewrite (io_bind_returned _ _ _ _ _ (show_from_run 0 _ _)).
  unfold try_ValueError.
  rewrite (io_bind_returned _ _ _ _ _
             (input_run _ text rest
                (said _ {| stdin := text :: rest; prompts := ps; state := w |})
                eq_refl)).
  unfold int. rewrite Hint.
  unfold mbind, IO_bind, mret, IO_ret, run_core. simpl.
  destruct (complete_task json_encode todo_list (n - 1) _) as [[[[|] todo_list']|e] w'];
    reflexivity.
Qed.

Lemma choice_delete_run (todo_list : TodoList) (text : string)
    (rest : list string) (n : Z) (s : session) :
  tasks todo_list <> [] ->
  stdin s = text :: rest ->
  int_of_str text = Some n ->
  choice_delete json_encode int_of_str str_of todo_list s =
  let s1 := answered "Enter task number to delete: "
              (said (task_lines str_of 0 (tasks todo_list)) s) in
  match delete_task json_encode todo_list (n - 1) (state s1) with
  | (Ok (b, todo_list'), w') =>
      (Returned (true, todo_list'),
       said [if b then "Task deleted successfully!" else "Invalid task number."]
            (with_state w' s1))
  | (Raise e, w') => (Failed (Core e), with_state w' s1)
  end.
Proof.
  intros Hne Hin Hint. destruct s as [lines ps w]. simpl in Hin. subst lines.
  unfold choice_delete.
  unfold mbind at 1. unfold IO_bind at 1. unfold run_core at 1. unfold get_tasks. simpl.
  rewrite (no_tasks_false _ Hne).
  unfold show_tasks. rewrite (io_bind_returned _ _ _ _ _ (show_from_run 0 _ _)).
  unfold try_ValueError.
  rewrite (io_bind_returned _ _ _ _ _
             (input_run _ text rest
                (said _ {| stdin := text :: rest; prompts := ps; state := w |})
                eq_refl)).
  unfold int. rewrite Hint.
  unfold mbind, IO_bind, mret, IO_ret, run_core. simpl.
  destruct (delete_task json_encode todo_list (n - 1) _) as [[[[|] todo_list']|e] w'];
    reflexivity.
Qed.

Lemma choice_update_run (todo_list : TodoList) (text t d dd : string)
    (rest : list string) (n : Z) (s : session) :
  tasks todo_list <> [] ->
  stdin s = text :: t :: d :: dd :: rest ->
  int_of_str text = Some n ->
  choice_update json_encode int_of_str str_of todo_list s =
  let s1 :=
    answered "Enter new due date (YYYY-MM-DD) (or press Enter to skip): "
      (answered "Enter new description (or press Enter to skip): "
         (answered "Enter new title (or press Enter to skip): "
            (answered "Enter task number to update: "
               (said (task_lines str_of 0 (tasks todo_list)) s)))) in
  match update_task json_encode todo_list (n - 1)
          (text_or_none t) (text_or_none d) (text_or_none dd) (state s1) with
  | (Ok (b, todo_list'), w') =>
      (Returned (true, todo_list'),
       said [if b then "Task updated successfully!" else "Invalid task number."]
            (with_state w' s1))
  | (Raise e, w') => (Failed (Core e), with_state w' s1)
  end.
Proof.
  intros Hne Hin Hint. destruct s as [lines ps w]. simpl in Hin. subst lines.
  unfold choice_update.
  unfold mbind at 1. unfold IO_bind at 1. unfold run_core at 1. unfold get_tasks. simpl.
  rewrite (no_tasks_false _ Hne).
  unfold show_tasks. rewrite (io_bind_returned _ _ _ _ _ (show_from_run 0 _ _)).
  unfold try_ValueError.
  rewrite (io_bind_returned _ _ _ _ _
             (input_run _ text (t :: d :: dd :: rest)
                (said _ {| stdin := text :: t :: d :: dd :: rest;
                           prompts := ps; state := w |})
                eq_refl)).
  unfold int. rewrite Hint.
  unfold mbind, IO_bind, mret, IO_ret, run_core, input. simpl.
  destruct (update_task json_encode todo_list (n - 1) _ _ _ _)
    as [[[[|] todo_list']|e] w']; reflexivity.
Qed.

Lemma run_core_lift {A : Type} (r : result A) (a : A) (s : session) :
  r = Ok a -> run_core (lift r) s = (Returned a, with_state (state s) s).
Proof. intros ->. reflexivity. Qed.

Lemma with_state_same (s : session) : with_state (state s) s = s.
Proof. destruct s; reflexivity. Qed.

Lemma choice_view_run (todo_list : TodoList) (text : string)
    (rest : list string) (n : Z) (task : Task) (s : session) :
  stdin s = text :: rest ->
  int_of_str text = Some n ->
  0 <= n - 1 < Z.of_nat (length (tasks todo_list)) ->
  tasks todo_list !! Z.to_nat (n - 1) = Some task ->
  choice_view int_of_str str_of todo_list s =
  (Returned (true, todo_list),
   said (detail_lines str_of task)
     (answered "Enter task number to view details: "
        (said (task_lines str_of 0 (tasks todo_list)) s))).
Proof.
  intros Hin Hint Hrange Hlook.
  assert (Hne : tasks todo_list <> []).
  { intros Hnil. rewrite Hnil in Hrange. simpl in Hrange. lia. }
  assert (Hguard : (0 <=? n - 1) && (n - 1 <? Z.of_nat (length (tasks todo_list))) = true).
  { apply andb_true_iff. rewrite Z.leb_le, Z.ltb_lt. exact Hrange. }
  destruct (list_getitem_in_range (tasks todo_list) (n - 1) Hrange)
    as (task' & Hlook' & Hget).
  assert (task' = task) by congruence. subst task'.
  destruct s as [lines ps w]. simpl in Hin. subst lines.
  unfold choice_view.
  unfold mbind at 1. unfold IO_bind at 1. unfold run_core at 1. unfold get_tasks.
  cbn [state stdin prompts mret M_ret fst snd truthy].
  rewrite (no_tasks_false _ Hne).
  unfold show_tasks. rewrite (io_bind_returned _ _ _ _ _ (show_from_run 0 _ _)).
  unfold try_ValueError.
  rewrite (io_bind_returned _ _ _ _ _
             (input_run _ text rest
                (said _ {| stdin := text :: rest; prompts := ps; state := w |})
                eq_refl)).
  unfold int. rewrite Hint.
  rewrite (io_bind_returned (mret n) _ _ _ n eq_refl). cbv beta.
  rewrite Hguard.
  set (s1 := answered "Enter task number to view details: "
               (said (task_lines str_of 0 (tasks todo_list))
                  {| stdin := text :: rest; prompts := ps; state := w |})).
  assert (Hinner :
            (run_core (lift (list_getitem (tasks todo_list) (n - 1)))
             ≫= fun task0 : Task => say_all (detail_lines str_of task0)) s1
            = (Returned tt, said (detail_lines str_of task) s1)).
  { rewrite (io_bind_returned _ _ _ _ _ (run_core_lift _ task _ Hget)).
    rewrite say_all_run, with_state_same. reflexivity. }
  rewrite (io_bind_returned _ _ _ _ _ Hinner). reflexivity.
Qed.

Lemma choice_view_refuses (todo_list : TodoList) (text : string)
    (rest : list string) (n : Z) (s : session) :
  tasks todo_list <> [] ->
  stdin s = text :: rest ->
  int_of_str text = Some n ->
  n - 1 < 0 \/ Z.of_nat (length (tasks todo_list)) <= n - 1 ->
  choice_view int_of_str str_of todo_list s =
  (Returned (true, todo_list),
   said ["Invalid task number."]
     (answered "Enter task number to view details: "
        (said (task_lines str_of 0 (tasks todo_list)) s))).
Proof.
  intros Hne Hin Hint Hout.
  assert (Hguard : (0 <=? n - 1) && (n - 1 <? Z.of_nat (length (tasks todo_list))) = false).
  { apply andb_false_iff. rewrite Z.leb_gt, Z.ltb_ge. lia. }
  destruct s as [lines ps w]. simpl in Hin. subst lines.
  unfold choice_view.
  unfold mbind at 1. unfold IO_bind at 1. unfold run_core at 1. unfold get_tasks.
  cbn [state stdin prompts mret M_ret fst snd truthy].
  rewrite (no_tasks_false _ Hne).
  unfold show_tasks. rewrite (io_bind_returned _ _ _ _ _ (show_from_run 0 _ _)).
  unfold try_ValueError.
  rewrite (io_bind_returned _ _ _ _ _
             (input_run _ text rest
                (said _ {| stdin := text :: rest; prompts := ps; state := w |})
                eq_refl)).
  unfold int. rewrite Hint.
  rewrite (io_bind_returned (mret n) _ _ _ n eq_refl). cbv beta.
  rewrite Hguard. reflexivity.
Qed.

(** A text that is no number, typed where the number of a task is asked
    for. *)
Ltac not_a_number Hne Hint text rest ps w :=
  unfold mbind at 1; unfold IO_bind at 1; unfold run_core at 1; unfold get_tasks;
  cbn [state stdin prompts mret M_ret fst snd truthy];
  rewrite (no_tasks_false _ Hne);
  unfold show_tasks; rewrite (io_bind_returned _ _ _ _ _ (show_from_run 0 _ _));
  unfold try_ValueError;
  rewrite (io_bind_returned _ _ _ _ _
             (input_run _ text rest
                (said _ {| stdin := text :: rest; prompts := ps; state := w |})
                eq_refl));
  unfold int; rewrite Hint; reflexivity.

Lemma numbered_choice_not_a_number (choice text : string) (rest : list string)
    (todo_list : TodoList) (s : session) :
  In choice ["3"; "4"; "5"; "6"] ->
  tasks todo_list <> [] ->
  stdin s = text :: rest ->
  int_of_str text = None ->
  exists prompt,
    dispatch clock json_encode int_of_str str_of choice todo_list s =
    (Returned (true, todo_list),
     said ["Please enter a valid number."]
       (answered prompt (said (task_lines str_of 0 (tasks todo_list)) s))).
Proof.
  intros Hchoice Hne Hin Hint.
  destruct s as [lines ps w]. simpl in Hin. subst lines.
  simpl in Hchoice. destruct Hchoice as [<-|[<-|[<-|[<-|[]]]]].
  - exists "Enter task number to complete: ".
    change (dispatch clock json_encode int_of_str str_of "3" todo_list)
      with (choice_complete json_encode int_of_str str_of todo_list).
    unfold choice_complete. not_a_number Hne Hint text rest ps w.
  - exists "Enter task number to delete: ".
    change (dispatch clock json_encode int_of_str str_of "4" todo_list)
      with (choice_delete json_encode int_of_str str_of todo_list).
    unfold choice_delete. not_a_number Hne Hint text rest ps w.
  - exists "Enter task number to update: ".
    change (dispatch clock json_encode int_of_str str_of "5" todo_list)
      with (choice_update json_encode int_of_str str_of todo_list).
    unfold choice_update. not_a_number Hne Hint text rest ps w.
  - exists "Enter task number to view details: ".
    change (dispatch clock json_encode int_of_str str_of "6" todo_list)
      with (choice_view int_of_str str_of todo_list).
    unfold choice_view. not_a_number Hne Hint text rest ps w.
Qed.

Lemma choice_on_empty_store (choice : string) (todo_list : TodoList) (s : session) :
  In choice ["2"; "3"; "4"; "5"; "6"] ->
  tasks todo_list = [] ->
  dispatch clock json_encode int_of_str str_of choice todo_list s =
  (Returned (true, todo_list), said ["No tasks found."] s).
Proof.
  intros Hchoice Hnil. destruct s as [lines ps w].
  simpl in Hchoice. destruct Hchoice as [<-|[<-|[<-|[<-|[<-|[]]]]]].
  - change (dispatch clock json_encode int_of_str str_of "2" todo_list)
      with (choice_list str_of todo_list).
    unfold choice_list, mbind, IO_bind, run_core, get_tasks. simpl.
    rewrite Hnil. reflexivity.
  - change (dispatch clock json_encode int_of_str str_of "3" todo_list)
      with (choice_complete json_encode int_of_str str_of todo_list).
    unfold choice_complete, mbind, IO_bind, run_core, get_tasks. simpl.
    rewrite Hnil. reflexivity.
  - change (dispatch clock json_encode int_of_str str_of "4" todo_list)
      with (choice_delete json_encode int_of_str str_of todo_list).
    unfold choice_delete, mbind, IO_bind, run_core, get_tasks. simpl.
    rewrite Hnil. reflexivity.
  - change (dispatch clock json_encode int_of_str str_of "5" todo_list)
      with (choice_update json_encode int_of_str str_of todo_list).
    unfold choice_update, mbind, IO_bind, run_core, get_tasks. simpl.
    rewrite Hnil. reflexivity.
  - change (dispatch clock json_encode int_of_str str_of "6" todo_list)
      with (choice_view int_of_str str_of todo_list).
    unfold choice_view, mbind, IO_bind, run_core, get_tasks. simpl.
    rewrite Hnil. reflexivity.
Qed.

Lemma choice_add_run (todo_list : TodoList) (t d dd : string)
    (rest : list string) (s : session) :
  stdin s = t :: d :: dd :: rest ->
  choice_add clock json_encode todo_list s =
  let s1 := answered "Enter due date (YYYY-MM-DD) (optional): "
              (answered "Enter task description (optional): "
                 (answered "Enter task title: " s)) in
  let task := {| title := PStr t; description := PStr d;
                 created_date := PStr (clock (ticks (state s)));
                 due_date := if String.eqb dd EmptyString then PNone else PStr dd;
                 completed := PBool false |} in
  let todo_list' := set_tasks (tasks todo_list ++ [task]) todo_list in
  (Returned (true, todo_list'),
   said ["Task added successfully!"]
     (with_state
        (wrote (filename todo_list) (serialized json_encode (tasks todo_list'))
               (tick (state s)))
        s1)).
Proof.
  intros Hin. destruct s as [lines ps w]. simpl in Hin. subst lines. reflexivity.
Qed.

(** *** What a turn does for the user *)

Lemma stdin_after_menu (choice : string) (rest : list string) (s : session) :
  stdin s = choice :: rest -> stdin (after_menu s) = rest.
Proof. intros H. unfold after_menu, answered. simpl. rewrite H. reflexivity. Qed.

Lemma last_printed_said (line : string) (s : session) : last_printed line (said [line] s).
Proof. eexists. reflexivity. Qed.

Lemma text_or_none_title (t : string) (task : Task) :
  (if truthy (text_or_none t) then set_title (text_or_none t) task else task)
  = set_title (overwrite (Some t) (title task)) task.
Proof. destruct t; destruct task; reflexivity. Qed.

Lemma text_or_none_description (t : string) (task : Task) :
  (if truthy (text_or_none t) then set_description (text_or_none t) task else task)
  = set_description (overwrite (Some t) (description task)) task.
Proof. destruct t; destruct task; reflexivity. Qed.

Lemma text_or_none_due_date (t : string) (task : Task) :
  (if truthy (text_or_none t) then set_due_date (text_or_none t) task else task)
  = set_due_date (overwrite (Some t) (due_date task)) task.
Proof. destruct t; destruct task; reflexivity. Qed.

(** X14.  The choice 1 reads a title, a description and a due date and
    appends a task that holds them as they were typed, an empty title
    included; an empty due date is stored as [None].  The task is not
    completed, the backing file is written and is synchronized with the
    store, and the loop goes on with the lines that are left. *)
Theorem turn_adds_task (todo_list : TodoList) (t d dd : string)
    (rest : list string) (s : session) :
  stdin s = "1" :: t :: d :: dd :: rest ->
  exists task todo_list' s',
    menu_turn clock json_encode int_of_str str_of todo_list s
    = (Returned (true, todo_list'), s') /\
    stdin s' = rest /\
    tasks todo_list' = (tasks todo_list ++ [task])%list /\
    filename todo_list' = filename todo_list /\
    title task = PStr t /\ description task = PStr d /\
    due_date task = (if String.eqb dd EmptyString then PNone else PStr dd) /\
    created_date task = PStr (clock (ticks (state s))) /\
    completed task = PBool false /\
    synchronized json_encode todo_list' (state s') /\
    last_printed "Task added successfully!" s'.
Proof.
  intros Hin.
  rewrite (menu_turn_run todo_list "1" (t :: d :: dd :: rest) s Hin).
  change (dispatch clock json_encode int_of_str str_of "1" todo_list)
    with (choice_add clock json_encode todo_list).
  rewrite (choice_add_run todo_list t d dd rest (after_menu s)
             (stdin_after_menu _ _ s Hin)).
  cbv zeta. eexists _, _, _. split; [reflexivity|].
  split; [simpl; rewrite Hin; reflexivity|].
  split; [reflexivity|]. split; [reflexivity|].
  split; [reflexivity|]. split; [reflexivity|]. split; [reflexivity|].
  split; [reflexivity|]. split; [reflexivity|].
  split; [|apply last_printed_said].
  unfold synchronized. simpl. apply lookup_insert_eq.
Qed.

(** X15.  The choice 3 takes the number that the user types as 1-based:
    for a number [n] with [1 <= n <= len(tasks)], the task at index
    [n - 1] has [completed] set to [True] afterwards, with its other
    fields, the other tasks and the length of the sequence as before, and
    the backing file is synchronized; any other number, 0 and the negative
    ones included, is refused with Invalid task number. and leaves the
    store and the files as they were. *)
Theorem turn_completes_numbered_task (todo_list : TodoList) (text : string)
    (n : Z) (rest : list string) (s : session) :
  stdin s = "3" :: text :: rest ->
  tasks todo_list <> [] ->
  int_of_str text = Some n ->
  exists todo_list' s',
    menu_turn clock json_encode int_of_str str_of todo_list s
    = (Returned (true, todo_list'), s') /\
    stdin s' = rest /\
    (1 <= n <= Z.of_nat (length (tasks todo_list)) ->
     (exists task,
        tasks todo_list !! Z.to_nat (n - 1) = Some task /\
        tasks todo_list' !! Z.to_nat (n - 1)
        = Some {| title := title task; description := description task;
                  created_date := created_date task; due_date := due_date task;
                  completed := PBool true |}) /\
     length (tasks todo_list') = length (tasks todo_list) /\
     (forall j, j <> Z.to_nat (n - 1) ->
                tasks todo_list' !! j = tasks todo_list !! j) /\
     tasks todo_list'
     = alter (set_completed (PBool true)) (Z.to_nat (n - 1)) (tasks todo_list) /\
     filename todo_list' = filename todo_list /\
     synchronized json_encode todo_list' (state s') /\
     last_printed "Task marked as completed!" s') /\
    (n < 1 \/ Z.of_nat (length (tasks todo_list)) < n ->
     todo_list' = todo_list /\
     files (state s') = files (state s) /\
     last_printed "Invalid task number." s').
Proof.
  intros Hin Hne Hint.
  rewrite (menu_turn_run todo_list "3" (text :: rest) s Hin).
  change (dispatch clock json_encode int_of_str str_of "3" todo_list)
    with (choice_complete json_encode int_of_str str_of todo_list).
  rewrite (choice_complete_run todo_list text rest n (after_menu s) Hne
             (stdin_after_menu _ _ s Hin) Hint).
  cbv zeta. destruct (in_range todo_list (n - 1)) eqn:Hr.
  - apply in_range_spec in Hr.
    rewrite (complete_task_run json_encode todo_list (n - 1) _ Hr). cbv zeta.
    eexists _, _. split; [reflexivity|].
    split; [simpl; rewrite Hin; reflexivity|]. split; [|intros; lia].
    intros _.
    destruct (lookup_lt_is_Some_2 (tasks todo_list) (Z.to_nat (n - 1)))
      as [task Hlook]; [lia|].
    split.
    { exists task. split; [exact Hlook|].
      simpl. rewrite list_lookup_alter_eq, Hlook. reflexivity. }
    split; [simpl; apply length_alter|].
    split; [intros j Hj; simpl; apply list_lookup_alter_ne; congruence|].
    split; [reflexivity|]. split; [reflexivity|].
    split; [|apply last_printed_said].
    unfold synchronized. simpl. apply lookup_insert_eq.
  - unfold complete_task. rewrite Hr.
    eexists _, _. split; [reflexivity|].
    split; [simpl; rewrite Hin; reflexivity|]. split.
    + intros Hn. assert (Hin' : in_range todo_list (n - 1) = true)
        by (apply in_range_spec; lia). congruence.
    + intros _. split; [reflexivity|]. split; [reflexivity|apply last_printed_said].
Qed.

(** X16.  The choice 4 takes the number as 1-based as well: the number
    [n] deletes the task at index [n - 1] when [1 <= n <= len(tasks)];
    any other number is refused and leaves the store and the files as
    they were. *)
Theorem turn_deletes_numbered_task (todo_list : TodoList) (text : string)
    (n : Z) (rest : list string) (s : session) :
  stdin s = "4" :: text :: rest ->
  tasks todo_list <> [] ->
  int_of_str text = Some n ->
  exists todo_list' s',
    menu_turn clock json_encode int_of_str str_of todo_list s
    = (Returned (true, todo_list'), s') /\
    stdin s' = rest /\
    (1 <= n <= Z.of_nat (length (tasks todo_list)) ->
     tasks todo_list' = delete (Z.to_nat (n - 1)) (tasks todo_list) /\
     filename todo_list' = filename todo_list /\
     synchronized json_encode todo_list' (state s') /\
     last_printed "Task deleted successfully!" s') /\
    (n < 1 \/ Z.of_nat (length (tasks todo_list)) < n ->
     todo_list' = todo_list /\
     files (state s') = files (state s) /\
     last_printed "Invalid task number." s').
Proof.
  intros Hin Hne Hint.
  rewrite (menu_turn_run todo_list "4" (text :: rest) s Hin).
  change (dispatch clock json_encode int_of_str str_of "4" todo_list)
    with (choice_delete json_encode int_of_str str_of todo_list).
  rewrite (choice_delete_run todo_list text rest n (after_menu s) Hne
             (stdin_after_menu _ _ s Hin) Hint).
  cbv zeta. destruct (in_range todo_list (n - 1)) eqn:Hr.
  - apply in_range_spec in Hr.
    rewrite (delete_task_run json_encode todo_list (n - 1) _ Hr). cbv zeta.
    eexists _, _. split; [reflexivity|].
    split; [simpl; rewrite Hin; reflexivity|]. split; [|intros; lia].
    intros _. split; [reflexivity|]. split; [reflexivity|].
    split; [|apply last_printed_said].
    unfold synchronized. simpl. apply lookup_insert_eq.
  - unfold delete_task. rewrite Hr.
    eexists _, _. split; [reflexivity|].
    split; [simpl; rewrite Hin; reflexivity|]. split.
    + intros Hn. assert (Hin' : in_range todo_list (n - 1) = true)
        by (apply in_range_spec; lia). congruence.
    + intros _. split; [reflexivity|]. split; [reflexivity|apply last_printed_said].
Qed.

(** X17.  The choice 5 reads a number and three entries.  For a number
    [n] with [1 <= n <= len(tasks)] the task at index [n - 1] gets the
    entries that are not empty, and keeps its value where the user
    pressed Enter; any other number is refused, after the three entries
    were read, and leaves the store and the files as they were. *)
Theorem turn_updates_numbered_task (todo_list : TodoList) (text t d dd : string)
    (n : Z) (rest : list string) (s : session) :
  stdin s = "5" :: text :: t :: d :: dd :: rest ->
  tasks todo_list <> [] ->
  int_of_str text = Some n ->
  exists todo_list' s',
    menu_turn clock json_encode int_of_str str_of todo_list s
    = (Returned (true, todo_list'), s') /\
    stdin s' = rest /\
    (1 <= n <= Z.of_nat (length (tasks todo_list)) ->
     exists task,
       tasks todo_list !! Z.to_nat (n - 1) = Some task /\
       tasks todo_list'
       = <[Z.to_nat (n - 1) :=
             {| title := overwrite (Some t) (title task);
                description := overwrite (Some d) (description task);
                created_date := created_date task;
                due_date := overwrite (Some dd) (due_date task);
                completed := completed task |}]> (tasks todo_list) /\
       synchronized json_encode todo_list' (state s') /\
       last_printed "Task updated successfully!" s') /\
    (n < 1 \/ Z.of_nat (length (tasks todo_list)) < n ->
     todo_list' = todo_list /\
     files (state s') = files (state s) /\
     last_printed "Invalid task number." s').
Proof.
  intros Hin Hne Hint.
  rewrite (menu_turn_run todo_list "5" (text :: t :: d :: dd :: rest) s Hin).
  change (dispatch clock json_encode int_of_str str_of "5" todo_list)
    with (choice_update json_encode int_of_str str_of todo_list).
  rewrite (choice_update_run todo_list text t d dd rest n (after_menu s) Hne
             (stdin_after_menu _ _ s Hin) Hint).
  cbv zeta. destruct (in_range todo_list (n - 1)) eqn:Hr.
  - apply in_range_spec in Hr.
    destruct (update_task_run json_encode todo_list (n - 1)
                (text_or_none t) (text_or_none d) (text_or_none dd)
                (state
                   (answered "Enter new due date (YYYY-MM-DD) (or press Enter to skip): "
                      (answered "Enter new description (or press Enter to skip): "
                         (answered "Enter new title (or press Enter to skip): "
                            (answered "Enter task number to update: "
                               (said (task_lines str_of 0 (tasks todo_list))
                                     (after_menu s)))))))
                Hr) as (task & Hlook & Hrun).
    cbv zeta in Hrun. rewrite Hrun.
    eexists _, _. split; [reflexivity|].
    split; [simpl; rewrite Hin; reflexivity|]. split; [|intros; lia].
    intros _. exists task. split; [exact Hlook|]. split.
    + simpl. rewrite text_or_none_title, text_or_none_description, text_or_none_due_date.
      destruct task; reflexivity.
    + split; [|apply last_printed_said].
      unfold synchronized. simpl. apply lookup_insert_eq.
  - unfold update_task. rewrite Hr.
    eexists _, _. split; [reflexivity|].
    split; [simpl; rewrite Hin; reflexivity|]. split.
    + intros Hn. assert (Hin' : in_range todo_list (n - 1) = true)
        by (apply in_range_spec; lia). congruence.
    + intros _. split; [reflexivity|]. split; [reflexivity|apply last_printed_said].
Qed.

(** X18.  A text that is no number, typed where the choices 3 to 6 ask for
    the number of a task, is answered with Please enter a valid number.:
    the store and the files stay as they were, and the loop goes on with
    the lines after that text, also in the choice 5, whose three entries
    are then not read. *)
Theorem turn_rejects_text_that_is_no_number
    (choice text : string) (rest : list string) (todo_list : TodoList) (s : session) :
  In choice ["3"; "4"; "5"; "6"] ->
  stdin s = choice :: text :: rest ->
  tasks todo_list <> [] ->
  int_of_str text = None ->
  exists s',
    menu_turn clock json_encode int_of_str str_of todo_list s
    = (Returned (true, todo_list), s') /\
    stdin s' = rest /\
    files (state s') = files (state s) /\
    last_printed "Please enter a valid number." s'.
Proof.
  intros Hchoice Hin Hne Hint.
  rewrite (menu_turn_run todo_list choice (text :: rest) s Hin).
  destruct (numbered_choice_not_a_number choice text rest todo_list (after_menu s)
              Hchoice Hne (stdin_after_menu _ _ s Hin) Hint) as (prompt & Hrun).
  rewrite Hrun. eexists. split; [reflexivity|].
  split; [simpl; rewrite Hin; reflexivity|].
  split; [reflexivity|apply last_printed_said].
Qed.

(** X19.  On a store without tasks, each of the choices 2 to 6 prints No
    tasks found. after the menu and does nothing else: no number is asked
    for, no line but the choice is read, and the store and the files stay
    as they were. *)
Theorem turn_on_empty_store
    (choice : string) (rest : list string) (todo_list : TodoList) (s : session) :
  In choice ["2"; "3"; "4"; "5"; "6"] ->
  stdin s = choice :: rest ->
  tasks todo_list = [] ->
  exists s',
    menu_turn clock json_encode int_of_str str_of todo_list s
    = (Returned (true, todo_list), s') /\
    stdin s' = rest /\
    prompts s' = (prompts s
                  ++ [(length (log (state s)) + length menu_lines, menu_prompt)])%list%nat /\
    files (state s') = files (state s) /\
    log (state s')
    = (log (state s) ++ map Printed (menu_lines ++ ["No tasks found."]))%list.
Proof.
  intros Hchoice Hin Hnil.
  rewrite (menu_turn_run todo_list choice rest s Hin).
  rewrite (choice_on_empty_store choice todo_list (after_menu s) Hchoice Hnil).
  eexists. split; [reflexivity|].
  split; [simpl; rewrite Hin; reflexivity|]. split; [|split; [reflexivity|]].
  - simpl. rewrite length_app. reflexivity.
  - simpl. rewrite <- app_assoc. reflexivity.
Qed.

Lemma follows_after_menu (choice : string) (rest : list string) (s : session) :
  stdin s = choice :: rest -> follows is_printed s (after_menu s).
Proof.
  intros Hin. split; [|split].
  - exists [choice]. simpl. rewrite Hin. reflexivity.
  - eexists. reflexivity.
  - exists (map Printed menu_lines). split; [reflexivity|]. split.
    + symmetry. apply replay_printed.
      apply Forall_forall. intros e He. apply list_elem_of_In, in_map_iff in He.
      destruct He as (line & <- & _). eexists. reflexivity.
    + apply Forall_forall. intros e He. apply list_elem_of_In, in_map_iff in He.
      destruct He as (line & <- & _). eexists. reflexivity.
Qed.

Lemma read_dispatch (choice : string) (todo_list : TodoList) :
  ~ In choice ["1"; "3"; "4"; "5"] ->
  ensures is_printed end_of_input
          (dispatch clock json_encode int_of_str str_of choice todo_list)
          (fun r => snd r = todo_list).
Proof.
  intros Hnot. unfold dispatch.
  assert (Hmore : forall m : IO (bool * TodoList),
            ensures is_printed end_of_input m (fun r => r = (true, todo_list)) ->
            ensures is_printed end_of_input m (fun r => snd r = todo_list)).
  { intros m Hm. eapply ensures_weaken; [exact Hm|intros e s H; exact H|].
    intros r ->. reflexivity. }
  destruct (String.eqb_spec choice "1") as [->|_];
    [exfalso; apply Hnot; simpl; tauto|].
  destruct (String.eqb choice "2"); [apply Hmore, read_choice_list|].
  destruct (String.eqb_spec choice "3") as [->|_];
    [exfalso; apply Hnot; simpl; tauto|].
  destruct (String.eqb_spec choice "4") as [->|_];
    [exfalso; apply Hnot; simpl; tauto|].
  destruct (String.eqb_spec choice "5") as [->|_];
    [exfalso; apply Hnot; simpl; tauto|].
  destruct (String.eqb choice "6"); [apply Hmore, read_choice_view|].
  destruct (String.eqb choice "7"); apply read_say_then; reflexivity.
Qed.

(** X20.  Only the choices 1, 3, 4 and 5 can change anything: a turn with
    any other choice, 2, 6, 7 or a text that is no choice, prints lines,
    writes no file and leaves the store as it was; the only thing it can
    raise is the [EOFError] of the end of the input. *)
Theorem other_choices_change_nothing
    (choice : string) (rest : list string) (todo_list : TodoList) (s : session) :
  ~ In choice ["1"; "3"; "4"; "5"] ->
  stdin s = choice :: rest ->
  exists r s',
    menu_turn clock json_encode int_of_str str_of todo_list s = (r, s') /\
    files (state s') = files (state s) /\
    (exists new, log (state s') = (log (state s) ++ new)%list /\
                 Forall is_printed new) /\
    match r with
    | Returned (_, todo_list') => todo_list' = todo_list
    | Failed e => e = EOFError /\ stdin s' = []
    end.
Proof.
  intros Hnot Hin.
  rewrite (menu_turn_run todo_list choice rest s Hin).
  destruct (read_dispatch choice todo_list Hnot (after_menu s)) as [Hf Hpost].
  pose proof (follows_trans _ _ _ _ (follows_after_menu choice rest s Hin) Hf) as Hall.
  destruct (dispatch clock json_encode int_of_str str_of choice todo_list (after_menu s))
    as [r s'].
  simpl in Hall, Hpost. exists r, s'. split; [reflexivity|].
  destruct Hall as (_ & _ & new & Hl & Hfiles & Hok).
  split; [rewrite Hfiles; apply replay_printed; exact Hok|].
  split; [exists new; split; assumption|].
  destruct r as [[b todo_list']|e]; exact Hpost.
Qed.

Lemma not_set_line (task : Task) :
  truthy (due_date task) = false ->
  In "Due Date: Not set" (detail_lines str_of task).
Proof.
  intros H. unfold detail_lines, due_date_shown, py_or. rewrite H.
  simpl. tauto.
Qed.

(** X21.  The choice 6 takes the number as 1-based too: for [n] with
    [1 <= n <= len(tasks)] it prints, after the menu and the list of the
    tasks, the six lines of the details of the task at index [n - 1],
    with Due Date: Not set when the task has no due date; any other
    number is refused.  Nothing is written and the store stays as it
    was. *)
Theorem turn_views_numbered_task (todo_list : TodoList) (text : string)
    (n : Z) (rest : list string) (s : session) :
  stdin s = "6" :: text :: rest ->
  tasks todo_list <> [] ->
  int_of_str text = Some n ->
  exists s',
    menu_turn clock json_encode int_of_str str_of todo_list s
    = (Returned (true, todo_list), s') /\
    stdin s' = rest /\
    files (state s') = files (state s) /\
    (1 <= n <= Z.of_nat (length (tasks todo_list)) ->
     exists task,
       tasks todo_list !! Z.to_nat (n - 1) = Some task /\
       log (state s')
       = (log (state s)
          ++ map Printed (menu_lines ++ task_lines str_of 0 (tasks todo_list)
                          ++ detail_lines str_of task))%list /\
       (truthy (due_date task) = false ->
        In "Due Date: Not set" (detail_lines str_of task))) /\
    (n < 1 \/ Z.of_nat (length (tasks todo_list)) < n ->
     last_printed "Invalid task number." s').
Proof.
  intros Hin Hne Hint.
  rewrite (menu_turn_run todo_list "6" (text :: rest) s Hin).
  change (dispatch clock json_encode int_of_str str_of "6" todo_list)
    with (choice_view int_of_str str_of todo_list).
  destruct (in_range todo_list (n - 1)) eqn:Hr.
  - apply in_range_spec in Hr.
    destruct (lookup_lt_is_Some_2 (tasks todo_list) (Z.to_nat (n - 1)))
      as [task Hlook]; [lia|].
    rewrite (choice_view_run todo_list text rest n task (after_menu s)
               (stdin_after_menu _ _ s Hin) Hint Hr Hlook).
    eexists. split; [reflexivity|].
    split; [simpl; rewrite Hin; reflexivity|]. split; [reflexivity|].
    split; [|intros; lia].
    intros _. exists task. split; [exact Hlook|]. split; [|apply not_set_line].
    cbn [state said answered after_menu log].
    rewrite !map_app, <- !app_assoc. reflexivity.
  - assert (Hout : n - 1 < 0 \/ Z.of_nat (length (tasks todo_list)) <= n - 1).
    { destruct (Z_lt_dec (n - 1) 0) as [|Hge]; [left; assumption|right].
      destruct (Z_le_dec (Z.of_nat (length (tasks todo_list))) (n - 1)) as [|Hlt];
        [assumption|].
      assert (Hin' : in_range todo_list (n - 1) = true)
        by (apply in_range_spec; lia). congruence. }
    rewrite (choice_view_refuses todo_list text rest n (after_menu s) Hne
               (stdin_after_menu _ _ s Hin) Hint Hout).
    eexists. split; [reflexivity|].
    split; [simpl; rewrite Hin; reflexivity|]. split; [reflexivity|].
    split; [intros; lia|]. intros _. apply last_printed_said.
Qed.

End MainProperties.

(** ** The further properties on the sample data *)

Lemma synchronized_store_reloads_sample :
  exists w',
    TodoList_init sample_clock sample_decode sample_failure "todo.json"
      (world_of "todo.json" sample_text)
    = (Ok sample_store, w') /\
    files w' = files (world_of "todo.json" sample_text) /\
    log w' = log (world_of "todo.json" sample_text).
Proof.
  apply (synchronized_store_reloads sample_clock sample_decode sample_failure sample_encode
           sample_store (world_of "todo.json" sample_text)).
  - vm_compute. reflexivity.
  - vm_compute. reflexivity.
Defined.

Lemma from_dict_names_first_missing_key_sample :
  is_mapping record_title_only = true /\
  fst (from_dict sample_clock record_title_only empty_world)
  = Raise (KeyError "description").
Proof.
  split; [reflexivity|].
  destruct (from_dict_names_first_missing_key sample_clock record_title_only
              empty_world eq_refl) as (_ & _ & H).
  exact H.
Defined.

Lemma construction_succeeds_iff_loadable_sample :
  exists w',
    files w' = files (world_of "todo.json" text_missing_keys) /\
    log w' = log (world_of "todo.json" text_missing_keys) /\
    exists e,
      TodoList_init sample_clock sample_decode sample_failure "todo.json"
        (world_of "todo.json" text_missing_keys) = (Raise e, w') /\
      record_error e.
Proof.
  apply (construction_succeeds_iff_loadable sample_clock sample_decode sample_failure "todo.json"
           (world_of "todo.json" text_missing_keys) text_missing_keys
           (PList [to_dict pay_bills; record_title_only])).
  - vm_compute. reflexivity.
  - vm_compute. reflexivity.
Defined.

Lemma from_dict_drops_unknown_keys_sample :
  getitem record_with_priority "priority" = Ok (PInt 1) /\
  exists task,
    (forall w, from_dict sample_clock record_with_priority w = (Ok task, tick w)) /\
    getitem (to_dict task) "priority" = Raise (KeyError "priority").
Proof.
  split; [reflexivity|].
  destruct (from_dict_drops_unknown_keys sample_clock record_with_priority eq_refl)
    as (task & Hrun & Hkeys).
  exists task. split; [exact Hrun|]. exact (Hkeys "priority").
Defined.

Lemma calls_keep_synchronized_sample :
  exists self' w',
    perform_all sample_clock sample_encode sample_store sample_calls
      (world_of "todo.json" sample_text) = (Ok self', w') /\
    filename self' = filename sample_store /\
    synchronized sample_encode self' w'.
Proof.
  apply (calls_keep_synchronized sample_clock sample_encode sample_calls sample_store
           (world_of "todo.json" sample_text)).
  vm_compute. reflexivity.
Defined.

Lemma complete_task_marks_only_index_sample :
  exists task self' w',
    tasks sample_store !! Z.to_nat 1 = Some task /\
    complete_task sample_encode sample_store 1 empty_world = (Ok (true, self'), w') /\
    tasks self' !! Z.to_nat 1
    = Some {| title := title task; description := description task;
              created_date := created_date task; due_date := due_date task;
              completed := PBool true |} /\
    length (tasks self') = length (tasks sample_store) /\
    forall j, j <> Z.to_nat 1 -> tasks self' !! j = tasks sample_store !! j.
Proof.
  apply (complete_task_marks_only_index sample_encode sample_store 1 empty_world).
  simpl. split; [discriminate|reflexivity].
Defined.

Lemma complete_task_twice_sample :
  exists self' w',
    complete_task sample_encode sample_store 1 empty_world = (Ok (true, self'), w') /\
    forall w2,
      complete_task sample_encode self' 1 w2
      = (Ok (true, self'),
         wrote (filename self') (serialized sample_encode (tasks self')) w2) /\
      files (wrote (filename self') (serialized sample_encode (tasks self')) w')
      = files w'.
Proof.
  apply (complete_task_twice sample_encode sample_store 1 empty_world).
  simpl. split; [discriminate|reflexivity].
Defined.

Lemma calls_keep_field_types_sample :
  exists self' w',
    perform_all sample_clock sample_encode sample_store sample_calls empty_world
    = (Ok self', w') /\
    Forall (fun task => well_typed task = true) (tasks self').
Proof.
  apply (calls_keep_field_types sample_clock sample_encode sample_calls sample_store
           empty_world).
  - repeat constructor.
  - repeat constructor.
Defined.

Lemma delete_task_removes_only_index_sample :
  exists task self' w',
    tasks sample_store !! Z.to_nat 1 = Some task /\
    delete_task sample_encode sample_store 1 empty_world = (Ok (true, self'), w') /\
    tasks sample_store
    = (take (Z.to_nat 1) (tasks self') ++ task :: drop (Z.to_nat 1) (tasks self'))%list /\
    S (length (tasks self')) = length (tasks sample_store) /\
    (forall j, (j < Z.to_nat 1)%nat -> tasks self' !! j = tasks sample_store !! j) /\
    (forall j, (Z.to_nat 1 <= j)%nat -> tasks self' !! j = tasks sample_store !! S j).
Proof.
  apply (delete_task_removes_only_index sample_encode sample_store 1 empty_world).
  simpl. split; [discriminate|reflexivity].
Defined.

Lemma main_loop_bound_suffices_sample :
  main_loop sample_clock sample_encode sample_int sample_str 9 sample_store
    (sample_session ["3"; "2"; "7"])
  = main_loop sample_clock sample_encode sample_int sample_str 4 sample_store
      (sample_session ["3"; "2"; "7"]) /\
  main_loop sample_clock sample_encode sample_int sample_str 9 sample_store
    (sample_session ["3"; "2"; "7"]) <> None.
Proof.
  apply (main_loop_bound_suffices sample_clock sample_encode sample_int sample_str
           9 sample_store (sample_session ["3"; "2"; "7"])).
  simpl. lia.
Defined.

Lemma turn_adds_task_sample :
  exists task todo_list' s',
    menu_turn sample_clock sample_encode sample_int sample_str sample_store
      (sample_session ["1"; EmptyString; "no title"; EmptyString; "7"])
    = (Returned (true, todo_list'), s') /\
    stdin s' = ["7"] /\
    tasks todo_list' = (tasks sample_store ++ [task])%list /\
    title task = PStr EmptyString /\
    due_date task = PNone.
Proof.
  destruct (turn_adds_task sample_clock sample_encode sample_int sample_str
              sample_store EmptyString "no title" EmptyString ["7"]
              (sample_session ["1"; EmptyString; "no title"; EmptyString; "7"])
              eq_refl)
    as (task & todo_list' & s' & Hrun & Hin & Htasks & _ & Ht & _ & Hdd & _).
  exists task, todo_list', s'. repeat split; assumption.
Defined.

Lemma turn_completes_numbered_task_sample :
  exists todo_list' s',
    menu_turn sample_clock sample_encode sample_int sample_str sample_store
      (sample_session ["3"; "2"; "7"])
    = (Returned (true, todo_list'), s') /\
    tasks todo_list' !! 1%nat
    = Some {| title := PStr "Pay bills"; description := PStr "rent";
              created_date := PStr "2023-12-31 18:05:00";
              due_date := PStr "2024-01-01"; completed := PBool true |} /\
    tasks todo_list' !! 0%nat = Some buy_milk /\
    tasks todo_list' !! 2%nat = Some call_mum.
Proof.
  destruct (turn_completes_numbered_task sample_clock sample_encode sample_int
              sample_str sample_store "2" 2 ["7"] (sample_session ["3"; "2"; "7"])
              eq_refl ltac:(discriminate) eq_refl)
    as (todo_list' & s' & Hrun & _ & Hok & _).
  destruct Hok as ((task & Hlook & Hat) & _ & Hother & _).
  { simpl. split; [discriminate|discriminate]. }
  simpl in Hlook. inversion Hlook; subst task.
  exists todo_list', s'. split; [exact Hrun|]. split; [exact Hat|].
  split; [apply (Hother 0%nat); discriminate|apply (Hother 2%nat); discriminate].
Defined.

Lemma turn_deletes_numbered_task_sample :
  exists s',
    menu_turn sample_clock sample_encode sample_int sample_str sample_store
      (sample_session ["4"; "0"; "7"])
    = (Returned (true, sample_store), s') /\
    last_printed "Invalid task number." s'.
Proof.
  destruct (turn_deletes_numbered_task sample_clock sample_encode sample_int
              sample_str sample_store "0" 0 ["7"] (sample_session ["4"; "0"; "7"])
              eq_refl ltac:(discriminate) eq_refl)
    as (todo_list' & s' & Hrun & _ & _ & Hbad).
  destruct Hbad as (Hsame & _ & Hlast); [left; reflexivity|].
  exists s'. rewrite Hsame in Hrun. split; [exact Hrun|exact Hlast].
Defined.

Lemma turn_updates_numbered_task_sample :
  exists todo_list' s' task,
    menu_turn sample_clock sample_encode sample_int sample_str sample_store
      (sample_session ["5"; "2"; "Pay rent"; EmptyString; EmptyString; "7"])
    = (Returned (true, todo_list'), s') /\
    tasks sample_store !! Z.to_nat (2 - 1) = Some task /\
    tasks todo_list'
    = <[Z.to_nat (2 - 1) :=
          {| title := overwrite (Some "Pay rent") (title task);
             description := overwrite (Some EmptyString) (description task);
             created_date := created_date task;
             due_date := overwrite (Some EmptyString) (due_date task);
             completed := completed task |}]> (tasks sample_store).
Proof.
  destruct (turn_updates_numbered_task sample_clock sample_encode sample_int
              sample_str sample_store "2" "Pay rent" EmptyString EmptyString 2 ["7"]
              (sample_session ["5"; "2"; "Pay rent"; EmptyString; EmptyString; "7"])
              eq_refl ltac:(discriminate) eq_refl)
    as (todo_list' & s' & Hrun & _ & Hok & _).
  destruct Hok as (task & Hlook & Htasks & _).
  { simpl. split; [discriminate|discriminate]. }
  exists todo_list', s', task. repeat split; assumption.
Defined.

Lemma turn_rejects_text_that_is_no_number_sample :
  exists s',
    menu_turn sample_clock sample_encode sample_int sample_str sample_store
      (sample_session ["5"; "two"; "Pay rent"; "7"])
    = (Returned (true, sample_store), s') /\
    stdin s' = ["Pay rent"; "7"] /\
    files (state s') = files (state (sample_session ["5"; "two"; "Pay rent"; "7"])) /\
    last_printed "Please enter a valid number." s'.
Proof.
  apply (turn_rejects_text_that_is_no_number sample_clock sample_encode sample_int
           sample_str "5" "two" ["Pay rent"; "7"] sample_store
           (sample_session ["5"; "two"; "Pay rent"; "7"])).
  - right. right. left. reflexivity.
  - reflexivity.
  - discriminate.
  - reflexivity.
Defined.

Lemma turn_on_empty_store_sample :
  exists s',
    menu_turn sample_clock sample_encode sample_int sample_str empty_store
      (session_of ["4"; "1"] empty_world)
    = (Returned (true, empty_store), s') /\
    stdin s' = ["1"] /\
    log (state s') = map Printed (menu_lines ++ ["No tasks found."]).
Proof.
  destruct (turn_on_empty_store sample_clock sample_encode sample_int sample_str
              "4" ["1"] empty_store (session_of ["4"; "1"] empty_world))
    as (s' & Hrun & Hin & _ & _ & Hlog).
  - right. right. left. reflexivity.
  - reflexivity.
  - reflexivity.
  - exists s'. repeat split; assumption.
Defined.

Lemma other_choices_change_nothing_sample :
  exists r s',
    menu_turn sample_clock sample_encode sample_int sample_str sample_store
      (sample_session ["list"; "7"]) = (r, s') /\
    files (state s') = files (state (sample_session ["list"; "7"])) /\
    match r with
    | Returned (_, todo_list') => todo_list' = sample_store
    | Failed e => e = EOFError /\ stdin s' = []
    end.
Proof.
  destruct (other_choices_change_nothing sample_clock sample_encode sample_int
              sample_str "list" ["7"] sample_store (sample_session ["list"; "7"]))
    as (r & s' & Hrun & Hfiles & _ & Hr).
  - simpl. intros [H|[H|[H|[H|[]]]]]; discriminate H.
  - reflexivity.
  - exists r, s'. repeat split; assumption.
Defined.

Lemma turn_views_numbered_task_sample :
  exists s' task,
    menu_turn sample_clock sample_encode sample_int sample_str sample_store
      (sample_session ["6"; "1"; "7"])
    = (Returned (true, sample_store), s') /\
    tasks sample_store !! Z.to_nat (1 - 1) = Some task /\
    In "Due Date: Not set" (detail_lines sample_str task).
Proof.
  destruct (turn_views_numbered_task sample_clock sample_encode sample_int
              sample_str sample_store "1" 1 ["7"] (sample_session ["6"; "1"; "7"])
              eq_refl ltac:(discriminate) eq_refl)
    as (s' & Hrun & _ & _ & Hok & _).
  destruct Hok as (task & Hlook & _ & Hnot).
  { simpl. split; [discriminate|discriminate]. }
  exists s', task. split; [exact Hrun|]. split; [exact Hlook|].
  apply Hnot. simpl in Hlook. inversion Hlook. reflexivity.
Defined.
